(** * Arc-flash analysis toolkit: system model, loaders, IEEE 1584 engine, DER registry

    A shallow embedding of the Python sources

      - [PPE_update.py]                  (arc-flash calculation engine)
      - [system_model/core.py]           (Bus, Line, Transformer, SystemModel)
      - [system_model/csv_loader.py]     (CsvReader)
      - [system_model/json_loader.py]    (JsonReader)
      - [system_model/__init__.py]       (load_system_model)
      - [exclude/dss_loader.py]          (DssReader, over the solver as a port)
      - [exclude/der_json.py]            (DER, DERStorage)

    Conventions.  A Python exception is a value of [exn]; a call that may
    raise returns a [result].  A method that works on a mutable object is a
    computation in the state-and-exception monad [M]: the object after the
    call together with the outcome.  A [dict] is an association list in
    insertion order with unique keys.  Python floats that are only stored and
    compared are rationals ([Q]); the two IEEE 1584 formulas, which take
    logarithms and powers, are stated over the reals ([R]).  What the code
    gets from outside the repository ([float] on text, [str] of a value that
    is no string, the parsed content of a file, the answers of the solver) is
    a parameter of the definitions that use it.

    Layout: the embedding first (modules [Py] to [Der]), then the properties
    (modules [ArcFlashProps] to [ErrorClaims]); after them the rest of
    [PPE_update.py] and [der_json.py] ([ArcFlashSweep], [DerMore]) and further
    properties of the engine, the loaders and the registry. *)

From Stdlib Require Import String Ascii List Bool Arith ZArith QArith Reals Lia Lqa Lra.
Import ListNotations.

Open Scope string_scope.

(* ===================================================================== *)
(** * The Python fragment the sources rely on *)
(* ===================================================================== *)

Module Py.

(** Built-in exception classes raised by the modelled code, each with the
    message (for [KeyError]: the missing key) it carries. *)
Inductive exn : Type :=
| FileNotFoundError (msg : string)
| ValueError (msg : string)
| KeyError (key : string)
| TypeError (msg : string)
| AttributeError (msg : string)
| ZeroDivisionError (msg : string)
| RuntimeError (msg : string)
| ImportError (msg : string).

(** The class of an exception: what an [except <Class>] clause inspects. *)
Inductive exn_class : Type :=
| CFileNotFoundError | CValueError | CKeyError | CTypeError
| CAttributeError | CZeroDivisionError | CRuntimeError | CImportError.

Definition class_of (e : exn) : exn_class :=
  match e with
  | FileNotFoundError _ => CFileNotFoundError
  | ValueError _ => CValueError
  | KeyError _ => CKeyError
  | TypeError _ => CTypeError
  | AttributeError _ => CAttributeError
  | ZeroDivisionError _ => CZeroDivisionError
  | RuntimeError _ => CRuntimeError
  | ImportError _ => CImportError
  end.

Inductive result (A : Type) : Type :=
| Ok (a : A)
| Raise (e : exn).

Arguments Ok {A} a.
Arguments Raise {A} e.

Definition rbind {A B : Type} (r : result A) (k : A -> result B) : result B :=
  match r with
  | Ok a => k a
  | Raise e => Raise e
  end.

(** The exception class a call ends with, if it raises. *)
Definition raised_class {A : Type} (r : result A) : option exn_class :=
  match r with
  | Ok _ => None
  | Raise e => Some (class_of e)
  end.

(** ** Mutable object + exceptions *)

Definition M (S A : Type) : Type := S -> S * result A.

Definition ret {S A : Type} (a : A) : M S A := fun s => (s, Ok a).

Definition bind {S A B : Type} (c : M S A) (k : A -> M S B) : M S B :=
  fun s =>
    match c s with
    | (s', Ok a) => k a s'
    | (s', Raise e) => (s', Raise e)
    end.

Definition get {S : Type} : M S S := fun s => (s, Ok s).

Definition modify {S : Type} (f : S -> S) : M S unit := fun s => (f s, Ok tt).

Definition raise {S A : Type} (e : exn) : M S A := fun s => (s, Raise e).

Definition lift {S A : Type} (r : result A) : M S A := fun s => (s, r).

(** [for x in l: body(x)] *)
Fixpoint for_ {S A : Type} (l : list A) (body : A -> M S unit) : M S unit :=
  match l with
  | [] => ret tt
  | x :: l' => bind (body x) (fun _ => for_ l' body)
  end.

(** ** dict: insertion-ordered association list *)

Definition dict (V : Type) : Type := list (string * V).

Fixpoint dict_get {V : Type} (k : string) (d : dict V) : option V :=
  match d with
  | [] => None
  | (k', v) :: d' => if String.eqb k k' then Some v else dict_get k d'
  end.

(** [k in d] *)
Definition dict_mem {V : Type} (k : string) (d : dict V) : bool :=
  match dict_get k d with
  | Some _ => true
  | None => false
  end.

(** [d[k] = v]: an existing key keeps its position, a new key goes last. *)
Fixpoint dict_set {V : Type} (k : string) (v : V) (d : dict V) : dict V :=
  match d with
  | [] => [(k, v)]
  | (k', v') :: d' =>
      if String.eqb k k' then (k', v) :: d' else (k', v') :: dict_set k v d'
  end.

Definition dict_keys {V : Type} (d : dict V) : list string := map fst d.

Definition dict_values {V : Type} (d : dict V) : list V := map snd d.

(** [d[k]], raising [KeyError(k)] on a missing key. *)
Definition subscript {V : Type} (d : dict V) (k : string) : result V :=
  match dict_get k d with
  | Some v => Ok v
  | None => Raise (KeyError k)
  end.

(** [k in l] for a list or set of strings. *)
Fixpoint str_mem (k : string) (l : list string) : bool :=
  match l with
  | [] => false
  | x :: l' => if String.eqb k x then true else str_mem k l'
  end.

End Py.

Export Py.

Declare Scope py_scope.
Delimit Scope py_scope with py.

Notation "x <- c ;; k" := (bind c (fun x => k))
  (at level 61, c at next level, right associativity) : py_scope.
Notation "c ;;; k" := (bind c (fun _ => k))
  (at level 61, right associativity) : py_scope.
Notation "x <~ r ;; k" := (rbind r (fun x => k))
  (at level 61, r at next level, right associativity).
Notation "' p <~ r ;; k" := (rbind r (fun x => match x with p => k end))
  (at level 61, p pattern, r at next level, right associativity).

(* ===================================================================== *)
(** * PPE_update.py: the arc-flash calculation engine *)
(* ===================================================================== *)

Module ArcFlash.

Local Open Scope R_scope.

(** The two formulas are read over the reals.  [np.log10] on a positive
    argument; for an argument that is not positive numpy returns [-inf] or
    [nan] with a warning, which this reading does not represent, so the
    statements about the formulas keep to positive currents and voltages. *)
Definition log10 (x : R) : R := ln x / ln 10.

(** [10 ** x] *)
Definition pow10 (x : R) : R := Rpower 10 x.

(** [a / b] on Python numbers: a zero divisor raises. *)
Definition py_div (a b : R) : result R :=
  if Req_dec_T b 0 then Raise (ZeroDivisionError "float division by zero")
  else Ok (a / b).

Definition COEFFS : dict (R * R * R) :=
  [ ("VCB", (-0.153, 0.662, 0.0966));
    ("HCB", (-0.153, 0.662, 0.0966));
    ("VOA", (-0.792, 0.662, 0.0966));
    ("HOA", (-0.792, 0.662, 0.0966)) ].

Definition ieee1584_arcing_current
    (I_bf V_kV gap_mm : R) (enclosure : string) : result R :=
  '(k1, k2, k3) <~ subscript COEFFS enclosure ;;
  let log_Ia :=
    k1 + k2 * log10 I_bf + k3 * log10 (V_kV * 1000) + 0.00402 * gap_mm in
  Ok (pow10 log_Ia).

Definition ieee1584_incident_energy
    (Ia V_kV gap_mm clearing_time_s working_distance_mm : R) : result R :=
  let En := pow10 (-0.555 + 1.081 * log10 Ia + 0.0011 * gap_mm) in
  let Cf := if Rge_dec V_kV 1.0 then 1.0 else 1.5 in
  ratio <~ py_div 610 working_distance_mm ;;
  Ok (Cf * En * (clearing_time_s / 0.2) * ratio ^ 2).

(** The classifier only compares its argument with constants, so its
    argument is a rational: every finite float is one, and a float is at most
    the literal [1.2] exactly when it is at most the rational 1.2, no float
    lying strictly between the two (likewise for the other bounds, which are
    floats themselves). *)
Definition ppe_category (energy_cal_cm2 : Q) : string :=
  if Qle_bool energy_cal_cm2 1.2 then "Below arc-flash threshold (No PPE)"
  else if Qle_bool energy_cal_cm2 4 then "PPE Category 1"
  else if Qle_bool energy_cal_cm2 8 then "PPE Category 2"
  else if Qle_bool energy_cal_cm2 25 then "PPE Category 3"
  else if Qle_bool energy_cal_cm2 40 then "PPE Category 4"
  else "Above PPE Category 4 (Dangerous)".

(** The classes from least to most severe, and the position of a label in
    that order (used to state monotonicity). *)
Definition PPE_ORDER : list string :=
  [ "Below arc-flash threshold (No PPE)";
    "PPE Category 1"; "PPE Category 2"; "PPE Category 3"; "PPE Category 4";
    "Above PPE Category 4 (Dangerous)" ].

Fixpoint index_of (label : string) (l : list string) : nat :=
  match l with
  | [] => 0
  | x :: l' => if String.eqb label x then 0 else S (index_of label l')
  end.

Definition severity (label : string) : nat := index_of label PPE_ORDER.

End ArcFlash.

(* ===================================================================== *)
(** * String helpers: [str.lower], [str.strip], a decimal [float()] *)
(* ===================================================================== *)

Module Str.

(** Text is held as the bytes of its UTF-8 encoding, one [ascii] per byte:
    an ASCII character is one byte, any other character two to four bytes
    that are all above 127. *)

(** [str.lower] on ASCII letters; bytes above 127 are left alone.  The code
    only compares a lowered string with the ASCII words [csv], [json], [dss],
    [bus], [line], [transformer] and the empty string, and on those
    comparisons this agrees with Python's [lower] for every text: the one
    non-ASCII character Python lowers to ASCII is the Kelvin sign U+212A, to
    the letter k, which none of these words holds.  Only the text echoed in an
    error message can differ, when the input has non-ASCII cased letters. *)
Definition lower_ascii (c : ascii) : ascii :=
  let n := nat_of_ascii c in
  if (65 <=? n)%nat && (n <=? 90)%nat then ascii_of_nat (n + 32) else c.

Fixpoint lower (s : string) : string :=
  match s with
  | EmptyString => EmptyString
  | String c s' => String (lower_ascii c) (lower s')
  end.

(** The characters for which [str.isspace] holds, which are the ones
    [str.strip] removes.  One byte: U+0009..U+000D, U+001C..U+001F and the
    space U+0020. *)
Definition is_space (c : ascii) : bool :=
  let n := nat_of_ascii c in
  ((9 <=? n)%nat && (n <=? 13)%nat) || ((28 <=? n)%nat && (n <=? 32)%nat).

(** Two bytes: U+0085 (next line) is C2 85 and U+00A0 (no-break space) is
    C2 A0. *)
Definition is_space2 (c1 c2 : ascii) : bool :=
  (nat_of_ascii c1 =? 194)%nat
  && ((nat_of_ascii c2 =? 133)%nat || (nat_of_ascii c2 =? 160)%nat).

(** Three bytes: U+1680 is E1 9A 80; U+2000..U+200A are E2 80 80..8A;
    U+2028, U+2029 and U+202F are E2 80 A8, A9 and AF; U+205F is E2 81 9F;
    U+3000 is E3 80 80.  No character of four bytes is white space. *)
Definition is_space3 (c1 c2 c3 : ascii) : bool :=
  let n1 := nat_of_ascii c1 in
  let n2 := nat_of_ascii c2 in
  let n3 := nat_of_ascii c3 in
  ((n1 =? 225)%nat && (n2 =? 154)%nat && (n3 =? 128)%nat)
  || ((n1 =? 226)%nat && (n2 =? 128)%nat
      && (((128 <=? n3)%nat && (n3 <=? 138)%nat)
          || (n3 =? 168)%nat || (n3 =? 169)%nat || (n3 =? 175)%nat))
  || ((n1 =? 226)%nat && (n2 =? 129)%nat && (n3 =? 159)%nat)
  || ((n1 =? 227)%nat && (n2 =? 128)%nat && (n3 =? 128)%nat).

(** Drop the white-space characters [s] starts with, [space1] telling which
    one-byte characters count.  With [back] the bytes of [s] are read as the
    reversal of a text, so that each character shows its last byte first. *)
Fixpoint drop_spaces (space1 : ascii -> bool) (back : bool) (s : string) : string :=
  match s with
  | EmptyString => EmptyString
  | String c1 s1 =>
      if space1 c1 then drop_spaces space1 back s1
      else
        match s1 with
        | EmptyString => s
        | String c2 s2 =>
            if (if back then is_space2 c2 c1 else is_space2 c1 c2)
            then drop_spaces space1 back s2
            else
              match s2 with
              | EmptyString => s
              | String c3 s3 =>
                  if (if back then is_space3 c3 c2 c1 else is_space3 c1 c2 c3)
                  then drop_spaces space1 back s3
                  else s
              end
        end
  end.

Definition lstrip (s : string) : string := drop_spaces is_space false s.

Fixpoint rev_string (s acc : string) : string :=
  match s with
  | EmptyString => acc
  | String c s' => rev_string s' (String c acc)
  end.

Definition rstrip (s : string) : string :=
  rev_string (drop_spaces is_space true (rev_string s EmptyString)) EmptyString.

Definition strip (s : string) : string := rstrip (lstrip s).

(** The white space [float] skips around a number is that of [str.strip]
    without the four separators U+001C..U+001F. *)
Definition is_float_space (c : ascii) : bool :=
  let n := nat_of_ascii c in
  ((9 <=? n)%nat && (n <=? 13)%nat) || (n =? 32)%nat.

Definition float_strip (s : string) : string :=
  rev_string
    (drop_spaces is_float_space true
       (rev_string (drop_spaces is_float_space false s) EmptyString))
    EmptyString.

(** A reading of [float(s)] for plain decimal text, [[+-]digits[.digits]],
    surrounding white space allowed.  It is one admissible instance of the
    [float_of_str] the loaders are parameterised by, used to run them on
    concrete files; Python's [float] accepts more (exponents, [inf], [nan]). *)
Definition digit_of (c : ascii) : option Z :=
  let n := nat_of_ascii c in
  if (48 <=? n)%nat && (n <=? 57)%nat then Some (Z.of_nat (n - 48)) else None.

(** Digits of [s] up to its end or to the first dot: the number read, how
    many digits it has, and what follows the dot ([None]: no dot). *)
Fixpoint digits (s : string) (acc : Z) (n : nat) : option (Z * nat * option string) :=
  match s with
  | EmptyString => Some (acc, n, None)
  | String c s' =>
      if Ascii.eqb c "."%char then Some (acc, n, Some s')
      else match digit_of c with
           | Some d => digits s' (10 * acc + d)%Z (S n)
           | None => None
           end
  end.

Definition unsigned_decimal (s : string) : option Q :=
  match digits s 0%Z 0 with
  | None => None
  | Some (i, ni, None) => if (ni =? 0)%nat then None else Some (inject_Z i)
  | Some (i, ni, Some rest) =>
      match digits rest 0%Z 0 with
      | Some (f, nf, None) =>
          if ((ni + nf) =? 0)%nat then None
          else Some (Qmake (i * 10 ^ Z.of_nat nf + f) (Z.to_pos (10 ^ Z.of_nat nf)))
      | _ => None
      end
  end.

Definition decimal_float (s : string) : option Q :=
  match float_strip s with
  | String "-"%char s' => option_map Qopp (unsigned_decimal s')
  | String "+"%char s' => unsigned_decimal s'
  | s' => unsigned_decimal s'
  end.

End Str.

(* ===================================================================== *)
(** * system_model/core.py *)
(* ===================================================================== *)

Module Core.

Record Bus : Type := mkBus {
  bus_id : string;
  kv : Q }.

Record Line : Type := mkLine {
  line_id : string;
  from_bus : string;
  to_bus : string;
  r_ohm : Q;
  x_ohm : Q }.

Record Transformer : Type := mkTransformer {
  tx_id : string;
  primary_bus : string;
  secondary_bus : string;
  primary_kv : Q;
  secondary_kv : Q;
  z_percent : Q;
  tap : option Q }.

Record SystemModel : Type := mkSystemModel {
  buses : dict Bus;
  lines : dict Line;
  transformers : dict Transformer }.

(** [SystemModel()]: every mapping starts empty. *)
Definition empty_model : SystemModel := mkSystemModel [] [] [].

(** The fields each dataclass declares, i.e. the keywords its generated
    [__init__] accepts. *)
Definition Bus_FIELDS : list string := ["bus_id"; "kv"].
Definition Line_FIELDS : list string :=
  ["line_id"; "from_bus"; "to_bus"; "r_ohm"; "x_ohm"].
Definition Transformer_FIELDS : list string :=
  ["tx_id"; "primary_bus"; "secondary_bus"; "primary_kv"; "secondary_kv";
   "z_percent"; "tap"].

(** A keyword call [Cls(k1=.., k2=.., ...)] of a dataclass: the arguments are
    already evaluated; the generated [__init__] refuses the first keyword that
    is not a declared field, and otherwise yields the object [obj] built from
    them.  (Every call site passes all the fields without default.) *)
Definition dataclass_new {A : Type}
    (cls : string) (fields kwargs : list string) (obj : A) : result A :=
  match find (fun k => negb (str_mem k fields)) kwargs with
  | Some k =>
      Raise (TypeError (cls ++ ".__init__() got an unexpected keyword argument '"
                            ++ k ++ "'"))
  | None => Ok obj
  end.

Definition validate : M SystemModel unit :=
  (self <- get ;;
   for_ (dict_values (lines self)) (fun line =>
     self <- get ;;
     if negb (dict_mem (from_bus line) (buses self)) then
       raise (ValueError ("Line '" ++ line_id line
                            ++ "' references unknown from_bus '"
                            ++ from_bus line ++ "'."))
     else if negb (dict_mem (to_bus line) (buses self)) then
       raise (ValueError ("Line '" ++ line_id line
                            ++ "' references unknown to_bus '"
                            ++ to_bus line ++ "'."))
     else ret tt) ;;;
   self <- get ;;
   for_ (dict_values (transformers self)) (fun tx =>
     self <- get ;;
     if negb (dict_mem (primary_bus tx) (buses self)) then
       raise (ValueError ("Transformer '" ++ tx_id tx
                            ++ "' references unknown primary_bus '"
                            ++ primary_bus tx ++ "'."))
     else if negb (dict_mem (secondary_bus tx) (buses self)) then
       raise (ValueError ("Transformer '" ++ tx_id tx
                            ++ "' references unknown secondary_bus '"
                            ++ secondary_bus tx ++ "'."))
     else ret tt))%py.

End Core.

(* ===================================================================== *)
(** * system_model/csv_loader.py *)
(* ===================================================================== *)

Module CsvReader.

Import Core.

(** What [csv.DictReader] hands to the loader.  [fieldnames] is the first
    record of the file ([None] for a file without records) and [records] are
    the records after it, as lists of cells. *)
Record csv_file : Type := mkCsv {
  fieldnames : option (list string);
  records : list (list string) }.

(** A cell of a row dict: text, or [None] where the record was shorter than
    the header ([restval]). *)
Definition cell : Type := option string.
Definition row : Type := dict cell.

Fixpoint zip_row (names : list string) (cells : list string) : list (string * cell) :=
  match names, cells with
  | [], _ => []
  | f :: names', [] => (f, None) :: zip_row names' []
  | f :: names', c :: cells' => (f, Some c) :: zip_row names' cells'
  end.

(** One row dict: [dict(zip(fieldnames, record))], then [restval] for the
    header names the record did not reach.  (Cells beyond the header go under
    the key [None], which the loader never reads.) *)
Definition row_dict (names : list string) (cells : list string) : row :=
  fold_left (fun d kv => dict_set (fst kv) (snd kv) d) (zip_row names cells) [].

(** The rows [for row in reader] yields: empty records are skipped. *)
Definition DictReader (names : list string) (recs : list (list string)) : list row :=
  map (row_dict names)
      (filter (fun r => match r with [] => false | _ => true end) recs).

Definition REQUIRED_BUS_FIELDS : list string := ["bus_id"; "kv"].
Definition REQUIRED_LINE_FIELDS : list string :=
  ["line_id"; "from_bus"; "to_bus"; "r_ohm"; "x_ohm"].
Definition REQUIRED_TX_FIELDS : list string :=
  ["tx_id"; "primary_bus"; "secondary_bus"; "primary_kv"; "secondary_kv";
   "z_percent"].

(** [REQUIRED - row.keys()] *)
Definition missing_fields (required : list string) (r : row) : list string :=
  filter (fun f => negb (str_mem f (dict_keys r))) required.

(** The text of a set of strings in an f-string, e.g. [{'kv', 'bus_id'}]
    (Python fixes no order for it; the required-field order is used). *)
Fixpoint repr_items (l : list string) : string :=
  match l with
  | [] => ""
  | [x] => "'" ++ x ++ "'"
  | x :: l' => "'" ++ x ++ "', " ++ repr_items l'
  end.

Definition repr_set (l : list string) : string := "{" ++ repr_items l ++ "}".

(** [str(c)] *)
Definition str_cell (c : cell) : string :=
  match c with
  | Some s => s
  | None => "None"
  end.

(** [row.get(k)]: [None] for an absent key and for a [restval] cell. *)
Definition row_get (k : string) (r : row) : cell :=
  match dict_get k r with
  | Some c => c
  | None => None
  end.

(** Truth value of what [row.get(k)] returns. *)
Definition truthy (c : cell) : bool :=
  match c with
  | Some (String _ _) => true
  | _ => false
  end.

(** [c or ""] *)
Definition or_empty (c : cell) : string :=
  match c with
  | Some (String a s) => String a s
  | _ => ""
  end.

(** [c or None] *)
Definition or_none (c : cell) : cell := if truthy c then c else None.

Section WithFloat.

(** [float(s)] on text: [None] where Python raises [ValueError]. *)
Variable float_of_str : string -> option Q.

(** [float(c)]; the message quotes the text as it stands. *)
Definition float_cell (c : cell) : result Q :=
  match c with
  | None =>
      Raise (TypeError
        "float() argument must be a string or a real number, not 'NoneType'")
  | Some s =>
      match float_of_str s with
      | Some q => Ok q
      | None => Raise (ValueError ("could not convert string to float: '" ++ s ++ "'"))
      end
  end.

(** [float(row[k]) if row.get(k) else None] *)
Definition optional_float (k : string) (r : row) : result (option Q) :=
  if truthy (row_get k r) then
    c <~ subscript r k ;; q <~ float_cell c ;; Ok (Some q)
  else Ok None.

Definition _add_bus (r : row) : M SystemModel unit :=
  (let missing := missing_fields REQUIRED_BUS_FIELDS r in
   match missing with
   | _ :: _ =>
       raise (ValueError ("Bus row missing required fields: " ++ repr_set missing))
   | [] =>
       bus <- lift (c_id <~ subscript r "bus_id" ;;
                    c_kv <~ subscript r "kv" ;;
                    kv <~ float_cell c_kv ;;
                    let zone := or_none (row_get "zone" r) in
                    dataclass_new "Bus" Bus_FIELDS ["bus_id"; "kv"; "zone"]
                      (mkBus (str_cell c_id) kv)) ;;
       model <- get ;;
       if dict_mem (bus_id bus) (buses model) then
         raise (ValueError ("Duplicate bus_id found in CSV: " ++ bus_id bus))
       else
         modify (fun m => mkSystemModel (dict_set (bus_id bus) bus (buses m))
                                        (lines m) (transformers m))
   end)%py.

Definition _add_line (r : row) : M SystemModel unit :=
  (let missing := missing_fields REQUIRED_LINE_FIELDS r in
   match missing with
   | _ :: _ =>
       raise (ValueError ("Line row missing required fields: " ++ repr_set missing))
   | [] =>
       line <- lift (c_id <~ subscript r "line_id" ;;
                     c_from <~ subscript r "from_bus" ;;
                     c_to <~ subscript r "to_bus" ;;
                     c_r <~ subscript r "r_ohm" ;;
                     r_ohm <~ float_cell c_r ;;
                     c_x <~ subscript r "x_ohm" ;;
                     x_ohm <~ float_cell c_x ;;
                     length <~ optional_float "length" r ;;
                     let linecode := or_none (row_get "linecode" r) in
                     dataclass_new "Line" Line_FIELDS
                       ["line_id"; "from_bus"; "to_bus"; "r_ohm"; "x_ohm";
                        "length"; "linecode"]
                       (mkLine (str_cell c_id) (str_cell c_from) (str_cell c_to)
                               r_ohm x_ohm)) ;;
       model <- get ;;
       if dict_mem (line_id line) (lines model) then
         raise (ValueError ("Duplicate line_id found in CSV: " ++ line_id line))
       else
         modify (fun m => mkSystemModel (buses m)
                                        (dict_set (line_id line) line (lines m))
                                        (transformers m))
   end)%py.

Definition _add_transformer (r : row) : M SystemModel unit :=
  (let missing := missing_fields REQUIRED_TX_FIELDS r in
   match missing with
   | _ :: _ =>
       raise (ValueError ("Transformer row missing required fields: "
                            ++ repr_set missing))
   | [] =>
       tx <- lift (c_id <~ subscript r "tx_id" ;;
                   c_p <~ subscript r "primary_bus" ;;
                   c_s <~ subscript r "secondary_bus" ;;
                   c_pkv <~ subscript r "primary_kv" ;;
                   primary_kv <~ float_cell c_pkv ;;
                   c_skv <~ subscript r "secondary_kv" ;;
                   secondary_kv <~ float_cell c_skv ;;
                   c_z <~ subscript r "z_percent" ;;
                   z_percent <~ float_cell c_z ;;
                   tap <~ optional_float "tap" r ;;
                   dataclass_new "Transformer" Transformer_FIELDS
                     ["tx_id"; "primary_bus"; "secondary_bus"; "primary_kv";
                      "secondary_kv"; "z_percent"; "tap"]
                     (mkTransformer (str_cell c_id) (str_cell c_p) (str_cell c_s)
                                    primary_kv secondary_kv z_percent tap)) ;;
       model <- get ;;
       if dict_mem (tx_id tx) (transformers model) then
         raise (ValueError ("Duplicate tx_id found in CSV: " ++ tx_id tx))
       else
         modify (fun m => mkSystemModel (buses m) (lines m)
                                        (dict_set (tx_id tx) tx (transformers m)))
   end)%py.

(** The body of [for row in reader]. *)
Definition add_row (r : row) : M SystemModel unit :=
  let row_type := Str.lower (Str.strip (or_empty (row_get "type" r))) in
  if String.eqb row_type "" then ret tt
  else if String.eqb row_type "bus" then _add_bus r
  else if String.eqb row_type "line" then _add_line r
  else if String.eqb row_type "transformer" then _add_transformer r
  else raise (ValueError ("Unknown row type '" ++ row_type ++ "' in CSV.")).

(** [CsvReader().load(csv_path)]; [file] is what the path holds, [None] when
    it does not exist.  The model is local to the call: the caller sees it
    only through a normal return. *)
Definition load (file : option csv_file) (csv_path : string) : result SystemModel :=
  match file with
  | None => Raise (FileNotFoundError ("CSV file not found: " ++ csv_path))
  | Some f =>
      match fieldnames f with
      | None => Raise (TypeError "argument of type 'NoneType' is not iterable")
      | Some names =>
          if negb (str_mem "type" names) then
            Raise (ValueError
              "CSV must include a 'type' column indicating 'bus', 'line', or 'transformer'.")
          else
            match (for_ (DictReader names (records f)) add_row ;;; validate)%py
                    empty_model with
            | (model, Ok _) => Ok model
            | (_, Raise e) => Raise e
            end
      end
  end.

End WithFloat.

End CsvReader.

(* ===================================================================== *)
(** * Dynamically typed values: parsed JSON, and the fields of a DER *)
(* ===================================================================== *)

Module PyVal.

#[local] Unset Elimination Schemes.

Inductive pyval : Type :=
| VNone
| VBool (b : bool)
| VNum (q : Q)
| VStr (s : string)
| VList (l : list pyval)
| VDict (d : list (string * pyval)).

#[local] Set Elimination Schemes.

Definition type_name (v : pyval) : string :=
  match v with
  | VNone => "NoneType"
  | VBool _ => "bool"
  | VNum _ => "float"
  | VStr _ => "str"
  | VList _ => "list"
  | VDict _ => "dict"
  end.

(** [v[k]] for a string key [k]. *)
Definition py_getitem (v : pyval) (k : string) : result pyval :=
  match v with
  | VDict d => subscript d k
  | VList _ => Raise (TypeError "list indices must be integers or slices, not str")
  | VStr _ => Raise (TypeError "string indices must be integers, not 'str'")
  | _ => Raise (TypeError ("'" ++ type_name v ++ "' object is not subscriptable"))
  end.

(** [v.get(k, default)] *)
Definition py_get (v : pyval) (k : string) (default : pyval) : result pyval :=
  match v with
  | VDict d =>
      match dict_get k d with
      | Some x => Ok x
      | None => Ok default
      end
  | _ => Raise (AttributeError ("'" ++ type_name v ++ "' object has no attribute 'get'"))
  end.

(** The items [for x in v] runs through. *)
Definition py_iter (v : pyval) : result (list pyval) :=
  match v with
  | VList l => Ok l
  | VDict d => Ok (map (fun kv => VStr (fst kv)) d)
  | VStr s => Ok (map (fun c => VStr (String c EmptyString)) (list_ascii_of_string s))
  | _ => Raise (TypeError ("'" ++ type_name v ++ "' object is not iterable"))
  end.

(** Truth value. *)
Definition py_truthy (v : pyval) : bool :=
  match v with
  | VNone => false
  | VBool b => b
  | VNum q => negb (Qeq_bool q 0)
  | VStr s => negb (String.eqb s "")
  | VList l => match l with [] => false | _ => true end
  | VDict d => match d with [] => false | _ => true end
  end.

(** The number a value stands for when the operator [op] compares it with
    an integer; other values do not compare. *)
Definition as_number (op : string) (v : pyval) : result Q :=
  match v with
  | VNum q => Ok q
  | VBool b => Ok (if b then 1 else 0)
  | _ => Raise (TypeError ("'" ++ op ++ "' not supported between instances of '"
                             ++ type_name v ++ "' and 'int'"))
  end.

(** [v <= 0] and [v < 0] *)
Definition le_zero (v : pyval) : result bool :=
  q <~ as_number "<=" v ;; Ok (Qle_bool q 0).

Definition lt_zero (v : pyval) : result bool :=
  q <~ as_number "<" v ;; Ok (negb (Qle_bool 0 q)).

(** [[f(x) for x in l]], stopping at the first item on which [f] raises. *)
Fixpoint rmap {A B : Type} (f : A -> result B) (l : list A) : result (list B) :=
  match l with
  | [] => Ok []
  | x :: l' => y <~ f x ;; ys <~ rmap f l' ;; Ok (y :: ys)
  end.

End PyVal.

(* ===================================================================== *)
(** * system_model/json_loader.py *)
(* ===================================================================== *)

Module JsonReader.

Import Core PyVal.

Section WithConversions.

(** [float(s)] on text ([None]: [ValueError]) and [str(v)] on a value that is
    not a string. *)
Variable float_of_str : string -> option Q.
Variable repr : pyval -> string.

(** [str(v)] *)
Definition py_str (v : pyval) : string :=
  match v with
  | VStr s => s
  | _ => repr v
  end.

(** [float(v)]: a JSON number is taken as the rational it denotes. *)
Definition py_float (v : pyval) : result Q :=
  match v with
  | VNum q => Ok q
  | VBool b => Ok (if b then 1 else 0)
  | VStr s =>
      match float_of_str s with
      | Some q => Ok q
      | None => Raise (ValueError ("could not convert string to float: '" ++ s ++ "'"))
      end
  | _ => Raise (TypeError ("float() argument must be a string or a real number, not '"
                             ++ type_name v ++ "'"))
  end.

(** [float(o[k]) if o.get(k) else None] *)
Definition optional_float (o : pyval) (k : string) : result (option Q) :=
  g <~ py_get o k VNone ;;
  if py_truthy g then
    v <~ py_getitem o k ;; q <~ py_float v ;; Ok (Some q)
  else Ok None.

(** Body of [for b in buses]. *)
Definition add_bus (b : pyval) : M SystemModel unit :=
  (bus_id <- lift (v <~ py_getitem b "bus_id" ;; Ok (py_str v)) ;;
   model <- get ;;
   if dict_mem bus_id (buses model) then
     raise (ValueError ("Duplicate bus_id in JSON: " ++ bus_id))
   else
     bus <- lift (v_kv <~ py_getitem b "kv" ;;
                  kv <~ py_float v_kv ;;
                  zone <~ py_get b "zone" VNone ;;
                  dataclass_new "Bus" Bus_FIELDS ["bus_id"; "kv"; "zone"]
                    (mkBus bus_id kv)) ;;
     modify (fun m => mkSystemModel (dict_set bus_id bus (buses m))
                                    (lines m) (transformers m)))%py.

(** Body of [for l in lines]. *)
Definition add_line (l : pyval) : M SystemModel unit :=
  (line_id <- lift (v <~ py_getitem l "line_id" ;; Ok (py_str v)) ;;
   model <- get ;;
   if dict_mem line_id (lines model) then
     raise (ValueError ("Duplicate line_id in JSON: " ++ line_id))
   else
     line <- lift (v_from <~ py_getitem l "from_bus" ;;
                   v_to <~ py_getitem l "to_bus" ;;
                   v_r <~ py_getitem l "r_ohm" ;;
                   r_ohm <~ py_float v_r ;;
                   v_x <~ py_getitem l "x_ohm" ;;
                   x_ohm <~ py_float v_x ;;
                   length <~ optional_float l "length" ;;
                   linecode <~ py_get l "linecode" VNone ;;
                   dataclass_new "Line" Line_FIELDS
                     ["line_id"; "from_bus"; "to_bus"; "r_ohm"; "x_ohm";
                      "length"; "linecode"]
                     (mkLine line_id (py_str v_from) (py_str v_to) r_ohm x_ohm)) ;;
     modify (fun m => mkSystemModel (buses m)
                                    (dict_set line_id line (lines m))
                                    (transformers m)))%py.

(** Body of [for t in transformers]. *)
Definition add_transformer (t : pyval) : M SystemModel unit :=
  (tx_id <- lift (v <~ py_getitem t "tx_id" ;; Ok (py_str v)) ;;
   model <- get ;;
   if dict_mem tx_id (transformers model) then
     raise (ValueError ("Duplicate tx_id in JSON: " ++ tx_id))
   else
     tx <- lift (v_p <~ py_getitem t "primary_bus" ;;
                 v_s <~ py_getitem t "secondary_bus" ;;
                 v_pkv <~ py_getitem t "primary_kv" ;;
                 primary_kv <~ py_float v_pkv ;;
                 v_skv <~ py_getitem t "secondary_kv" ;;
                 secondary_kv <~ py_float v_skv ;;
                 v_z <~ py_getitem t "z_percent" ;;
                 z_percent <~ py_float v_z ;;
                 tap <~ optional_float t "tap" ;;
                 dataclass_new "Transformer" Transformer_FIELDS
                   ["tx_id"; "primary_bus"; "secondary_bus"; "primary_kv";
                    "secondary_kv"; "z_percent"; "tap"]
                   (mkTransformer tx_id (py_str v_p) (py_str v_s)
                                  primary_kv secondary_kv z_percent tap)) ;;
     modify (fun m => mkSystemModel (buses m) (lines m)
                                    (dict_set tx_id tx (transformers m))))%py.

(** [JsonReader().load(json_path)]; [file] is the document [json.load] reads
    from the path, [None] when the path does not exist. *)
Definition load (file : option pyval) (json_path : string) : result SystemModel :=
  match file with
  | None => Raise (FileNotFoundError ("JSON file not found: " ++ json_path))
  | Some data =>
      buses <~ py_get data "buses" (VList []) ;;
      lines <~ py_get data "lines" (VList []) ;;
      transformers <~ py_get data "transformers" (VList []) ;;
      match (bs <- lift (py_iter buses) ;;
             for_ bs add_bus ;;;
             ls <- lift (py_iter lines) ;;
             for_ ls add_line ;;;
             ts <- lift (py_iter transformers) ;;
             for_ ts add_transformer ;;;
             validate)%py empty_model with
      | (model, Ok _) => Ok model
      | (_, Raise e) => Raise e
      end
  end.

End WithConversions.

End JsonReader.

(* ===================================================================== *)
(** * exclude/dss_loader.py, over the external solver as a port *)
(* ===================================================================== *)

Module DssReader.

Import Core.

(** What the solver answers once a master file is compiled: the error
    register, the bus names with their base voltage, and the line and
    transformer elements its cursors run through. *)
Record dss_line : Type := mkDssLine {
  l_name : string; l_bus1 : string; l_bus2 : string;
  l_r1 : Q; l_x1 : Q; l_length : Q; l_linecode : string }.

Record dss_transformer : Type := mkDssTransformer {
  t_name : string;
  t_bus_wdg1 : string; t_kv_wdg1 : Q;
  t_bus_wdg2 : string; t_kv_wdg2 : Q;
  t_xhl : Q; t_tap : Q }.

Record dss_circuit : Type := mkDssCircuit {
  error_number : Z;
  error_description : string;
  all_bus_names : list string;
  kv_base : string -> option Q;
  dss_lines : list dss_line;
  dss_transformers : list dss_transformer }.

(** [s.split('.')[0]] *)
Fixpoint before_dot (s : string) : string :=
  match s with
  | EmptyString => EmptyString
  | String c s' => if Ascii.eqb c "."%char then EmptyString else String c (before_dot s')
  end.

(** [while True] over the line cursor: stops at an element without a name
    and after the last element. *)
Fixpoint load_lines (ls : list dss_line) : M SystemModel unit :=
  match ls with
  | [] => ret tt
  | l :: ls' =>
      if String.eqb (l_name l) "" then ret tt
      else
        (line <- lift (dataclass_new "Line" Line_FIELDS
                         ["line_id"; "from_bus"; "to_bus"; "r_ohm"; "x_ohm";
                          "length"; "linecode"]
                         (mkLine (l_name l) (before_dot (l_bus1 l))
                                 (before_dot (l_bus2 l)) (l_r1 l) (l_x1 l))) ;;
         modify (fun m => mkSystemModel (buses m)
                                        (dict_set (l_name l) line (lines m))
                                        (transformers m)) ;;;
         load_lines ls')%py
  end.

Fixpoint load_transformers (ts : list dss_transformer) : M SystemModel unit :=
  match ts with
  | [] => ret tt
  | t :: ts' =>
      if String.eqb (t_name t) "" then ret tt
      else
        (tx <- lift (dataclass_new "Transformer" Transformer_FIELDS
                       ["tx_id"; "primary_bus"; "secondary_bus"; "primary_kv";
                        "secondary_kv"; "z_percent"; "tap"]
                       (mkTransformer (t_name t) (before_dot (t_bus_wdg1 t))
                                      (before_dot (t_bus_wdg2 t))
                                      (t_kv_wdg1 t) (t_kv_wdg2 t) (t_xhl t)
                                      (Some (t_tap t)))) ;;
         modify (fun m => mkSystemModel (buses m) (lines m)
                                        (dict_set (t_name t) tx (transformers m))) ;;;
         load_transformers ts')%py
  end.

(** [DssReader().load(dss_master_path)]: [has_dss] tells whether the solver
    package could be imported, [compiled] is the circuit the solver holds
    after compiling the path, [None] when the path does not exist. *)
Definition load (has_dss : bool) (compiled : option dss_circuit)
    (dss_master_path : string) : result SystemModel :=
  if negb has_dss then
    Raise (ImportError
      "opendssdirect is required for DssSystemModelLoader, but is not installed.")
  else
    match compiled with
    | None => Raise (FileNotFoundError ("DSS master file not found: " ++ dss_master_path))
    | Some dss =>
        if negb (Z.eqb (error_number dss) 0) then
          Raise (RuntimeError ("Error compiling DSS file '" ++ dss_master_path
                                 ++ "': " ++ error_description dss))
        else
          match (for_ (all_bus_names dss) (fun bus_name =>
                   bus <- lift (dataclass_new "Bus" Bus_FIELDS ["bus_id"; "kv"]
                                  (mkBus bus_name
                                         (match kv_base dss bus_name with
                                          | Some kv => kv
                                          | None => 0
                                          end))) ;;
                   modify (fun m => mkSystemModel (dict_set bus_name bus (buses m))
                                                  (lines m) (transformers m))) ;;;
                 load_lines (dss_lines dss) ;;;
                 load_transformers (dss_transformers dss) ;;;
                 validate)%py empty_model with
          | (model, Ok _) => Ok model
          | (_, Raise e) => Raise e
          end
    end.

End DssReader.

(* ===================================================================== *)
(** * system_model/__init__.py *)
(* ===================================================================== *)

Module Factory.

Import Core PyVal.

Section WithFiles.

Variable float_of_str : string -> option Q.
Variable repr : pyval -> string.

(** What each path holds, read as the loader of the format reads it. *)
Variable csv_at : string -> option CsvReader.csv_file.
Variable json_at : string -> option pyval.
Variable has_dss : bool.
Variable dss_at : string -> option DssReader.dss_circuit.

Definition load_system_model (path fmt : string) : result SystemModel :=
  let fmt := Str.lower fmt in
  if String.eqb fmt "csv" then CsvReader.load float_of_str (csv_at path) path
  else if String.eqb fmt "json" then JsonReader.load float_of_str repr (json_at path) path
  else if String.eqb fmt "dss" then DssReader.load has_dss (dss_at path) path
  else Raise (ValueError ("Unsupported file type: '" ++ fmt ++ "'")).

End WithFiles.

End Factory.

(* ===================================================================== *)
(** * exclude/der_json.py *)
(* ===================================================================== *)

Module Der.

Import PyVal.

(** The dataclasses carry type annotations only: a field holds whatever
    value the source dict had. *)
Record REGCConfig : Type := mkREGC {
  regc_model : pyval;
  imax : pyval;
  imax_fault : pyval;
  r_source_pu : pyval;
  x_source_pu : pyval;
  iq_priority : pyval;
  kp_pll : pyval;
  ki_pll : pyval;
  wmax : pyval;
  wmin : pyval }.

(** "If imax_fault not provided, fall back to imax." *)
Definition effective_imax_fault (self : REGCConfig) : pyval :=
  match imax_fault self with
  | VNone => imax self
  | v => v
  end.

Record REECConfig : Type := mkREEC {
  reec_model : pyval;
  vref_pu : pyval;
  qref_pu : pyval;
  kqv : pyval;
  vdip_pu : pyval;
  vup_pu : pyval;
  iqmax_pu : pyval;
  iqmin_pu : pyval;
  pmax_pu : pyval;
  pmin_pu : pyval;
  pf_flag : pyval;
  pq_flag : pyval;
  vq_flag : pyval }.

Record VRTPoint : Type := mkVRT {
  voltage_pu : pyval;
  vrt_max_time_s : pyval }.

Record FRTPoint : Type := mkFRT {
  frequency_hz : pyval;
  frt_max_time_s : pyval }.

Record RideThroughConfig : Type := mkRideThrough {
  vrt_curve : list VRTPoint;
  frt_curve : list FRTPoint }.

Record DER : Type := mkDER {
  der_id : string;
  der_type : pyval;
  connection_bus : pyval;
  mva_rating : pyval;
  kv_ll : pyval;
  pref_MW : pyval;
  qref_MVAR : pyval;
  power_factor : pyval;
  regc : REGCConfig;
  reec : REECConfig;
  ride_through : RideThroughConfig;
  metadata : pyval }.

Definition validate (self : DER) : result unit :=
  b <~ le_zero (mva_rating self) ;;
  if b then Raise (ValueError "mva_rating must be > 0") else
  b <~ le_zero (kv_ll self) ;;
  if b then Raise (ValueError "kv_ll must be > 0") else
  if negb (py_truthy (connection_bus self)) then
    Raise (ValueError "connection_bus must be non-empty") else
  b <~ le_zero (imax (regc self)) ;;
  if b then Raise (ValueError "regc.imax must be > 0") else
  b <~ lt_zero (iqmax_pu (reec self)) ;;
  if b then Raise (ValueError "reec.iqmax_pu should be >= 0") else
  Ok tt.

(** [asdict(p)] for the two point classes. *)
Definition asdict_vrt (p : VRTPoint) : pyval :=
  VDict [("voltage_pu", voltage_pu p); ("max_time_s", vrt_max_time_s p)].

Definition asdict_frt (p : FRTPoint) : pyval :=
  VDict [("frequency_hz", frequency_hz p); ("max_time_s", frt_max_time_s p)].

Definition to_sim_payload (self : DER) : pyval :=
  let regc := regc self in
  let reec := reec self in
  let rt := ride_through self in
  VDict
    [ ("der_id", VStr (der_id self));
      ("type", der_type self);
      ("connection_bus", connection_bus self);
      ("mva_rating", mva_rating self);
      ("kv_ll", kv_ll self);
      ("pref_MW", pref_MW self);
      ("qref_MVAR", qref_MVAR self);
      ("power_factor", power_factor self);
      ("regc", VDict
         [ ("model", regc_model regc);
           ("imax", imax regc);
           ("imax_fault", effective_imax_fault regc);
           ("r_source_pu", r_source_pu regc);
           ("x_source_pu", x_source_pu regc);
           ("iq_priority", iq_priority regc);
           ("kp_pll", kp_pll regc);
           ("ki_pll", ki_pll regc);
           ("wmax", wmax regc);
           ("wmin", wmin regc) ]);
      ("reec", VDict
         [ ("model", reec_model reec);
           ("vref_pu", vref_pu reec);
           ("qref_pu", qref_pu reec);
           ("kqv", kqv reec);
           ("vdip_pu", vdip_pu reec);
           ("vup_pu", vup_pu reec);
           ("iqmax_pu", iqmax_pu reec);
           ("iqmin_pu", iqmin_pu reec);
           ("pmax_pu", pmax_pu reec);
           ("pmin_pu", pmin_pu reec);
           ("pf_flag", pf_flag reec);
           ("pq_flag", pq_flag reec);
           ("vq_flag", vq_flag reec) ]);
      ("ride_through", VDict
         [ ("vrt_curve", VList (map asdict_vrt (vrt_curve rt)));
           ("frt_curve", VList (map asdict_frt (frt_curve rt))) ]) ].

(** The registry: [DERStorage._ders]. *)
Definition DERStorage : Type := dict DER.

Definition parse_vrt (pt : pyval) : result VRTPoint :=
  v <~ py_getitem pt "voltage_pu" ;;
  t <~ py_getitem pt "max_time_s" ;;
  Ok (mkVRT v t).

Definition parse_frt (pt : pyval) : result FRTPoint :=
  f <~ py_getitem pt "frequency_hz" ;;
  t <~ py_getitem pt "max_time_s" ;;
  Ok (mkFRT f t).

(** The part of [from_dict] that builds the DER from the dict. *)
Definition build (der_id : string) (data : pyval) : result DER :=
  der_type <~ py_getitem data "der_type" ;;
  connection_bus <~ py_getitem data "connection_bus" ;;
  mva_rating <~ py_getitem data "mva_rating" ;;
  kv_ll_default <~ py_get data "kv_ll" VNone ;;
  kv_ll <~ py_get data "kv" kv_ll_default ;;
  pref_MW <~ py_get data "pref_MW" (VNum 0.0) ;;
  qref_MVAR <~ py_get data "qref_MVAR" (VNum 0.0) ;;
  power_factor <~ py_get data "power_factor" VNone ;;
  regc_data <~ py_get data "regc" (VDict []) ;;
  g_model <~ py_get regc_data "model" (VStr "REGC_A") ;;
  g_imax <~ py_get regc_data "imax" (VNum 1.2) ;;
  g_imax_fault <~ py_get regc_data "imax_fault" VNone ;;
  g_r <~ py_get regc_data "r_source_pu" (VNum 0.01) ;;
  g_x <~ py_get regc_data "x_source_pu" (VNum 0.12) ;;
  g_prio <~ py_get regc_data "iq_priority" (VStr "reactive") ;;
  g_kp <~ py_get regc_data "kp_pll" (VNum 20.0) ;;
  g_ki <~ py_get regc_data "ki_pll" (VNum 200.0) ;;
  g_wmax <~ py_get regc_data "wmax" (VNum 2.0) ;;
  g_wmin <~ py_get regc_data "wmin" (VNum (-2.0)) ;;
  let regc := mkREGC g_model g_imax g_imax_fault g_r g_x g_prio g_kp g_ki
                     g_wmax g_wmin in
  reec_data <~ py_get data "reec" (VDict []) ;;
  e_model <~ py_get reec_data "model" (VStr "REEC_A") ;;
  e_vref <~ py_get reec_data "vref_pu" (VNum 1.0) ;;
  e_qref <~ py_get reec_data "qref_pu" (VNum 0.0) ;;
  e_kqv <~ py_get reec_data "kqv" (VNum 7.5) ;;
  e_vdip <~ py_get reec_data "vdip_pu" (VNum 0.9) ;;
  e_vup <~ py_get reec_data "vup_pu" (VNum 1.1) ;;
  e_iqmax <~ py_get reec_data "iqmax_pu" (VNum 1.1) ;;
  e_iqmin <~ py_get reec_data "iqmin_pu" (VNum (-1.1)) ;;
  e_pmax <~ py_get reec_data "pmax_pu" (VNum 1.0) ;;
  e_pmin <~ py_get reec_data "pmin_pu" (VNum 0.0) ;;
  e_pf <~ py_get reec_data "pf_flag" (VNum 0) ;;
  e_pq <~ py_get reec_data "pq_flag" (VNum 1) ;;
  e_vq <~ py_get reec_data "vq_flag" (VNum 0) ;;
  let reec := mkREEC e_model e_vref e_qref e_kqv e_vdip e_vup e_iqmax e_iqmin
                     e_pmax e_pmin e_pf e_pq e_vq in
  rt_data <~ py_get data "ride_through" (VDict []) ;;
  vrt_raw <~ py_get rt_data "vrt_curve" (VList []) ;;
  frt_raw <~ py_get rt_data "frt_curve" (VList []) ;;
  vrt_items <~ py_iter vrt_raw ;;
  vrt_curve <~ rmap parse_vrt vrt_items ;;
  frt_items <~ py_iter frt_raw ;;
  frt_curve <~ rmap parse_frt frt_items ;;
  let ride_through := mkRideThrough vrt_curve frt_curve in
  metadata <~ py_get data "metadata" (VDict []) ;;
  Ok (mkDER der_id der_type connection_bus mva_rating kv_ll pref_MW qref_MVAR
            power_factor regc reec ride_through metadata).

(** [DERStorage.from_dict(der_id, data)]: build, validate, store, return. *)
Definition from_dict (der_id : string) (data : pyval) : M DERStorage DER :=
  (der <- lift (build der_id data) ;;
   lift (validate der) ;;;
   modify (dict_set der_id der) ;;;
   ret der)%py.

(** [DERStorage.get(der_id)] *)
Definition get (der_id : string) : M DERStorage DER :=
  (ders <- Py.get ;; lift (subscript ders der_id))%py.

End Der.

(* ===================================================================== *)
(** * Properties of the arc-flash engine *)
(* ===================================================================== *)

Module ArcFlashProps.

Import ArcFlash.

Local Open Scope R_scope.

Lemma ln_10_neq_0 : ln 10 <> 0.
Proof.
  assert (H : 0 < ln 10) by (rewrite <- ln_1; apply ln_increasing; lra).
  lra.
Qed.

Lemma log10_pow10 (x : R) : log10 (pow10 x) = x.
Proof.
  unfold log10, pow10, Rpower. rewrite ln_exp. field. exact ln_10_neq_0.
Qed.

Lemma pow10_pos (x : R) : 0 < pow10 x.
Proof. unfold pow10, Rpower. apply exp_pos. Qed.

(** The four keys of [COEFFS], each with the triple stored under it. *)
Lemma COEFFS_lookup (enclosure : string) :
  subscript COEFFS enclosure =
    if String.eqb enclosure "VCB" then Ok (-0.153, 0.662, 0.0966)
    else if String.eqb enclosure "HCB" then Ok (-0.153, 0.662, 0.0966)
    else if String.eqb enclosure "VOA" then Ok (-0.792, 0.662, 0.0966)
    else if String.eqb enclosure "HOA" then Ok (-0.792, 0.662, 0.0966)
    else Raise (KeyError enclosure).
Proof.
  unfold subscript, COEFFS. cbn [dict_get].
  destruct (String.eqb enclosure "VCB"); [reflexivity|].
  destruct (String.eqb enclosure "HCB"); [reflexivity|].
  destruct (String.eqb enclosure "VOA"); [reflexivity|].
  destruct (String.eqb enclosure "HOA"); reflexivity.
Qed.

(** C1. On positive bolted-fault current and voltage the arcing-current
    function returns [10^(k1 + k2*log10(I_bf) + k3*log10(V_kV*1000) +
    0.00402*gap_mm)], with [(k1,k2,k3) = (-0.153, 0.662, 0.0966)] for the
    enclosures VCB and HCB and [(-0.792, 0.662, 0.0966)] for VOA and HOA. *)
Theorem ieee1584_arcing_current_formula
    (I_bf V_kV gap_mm : R) (enclosure : string) :
  0 < I_bf -> 0 < V_kV ->
  (enclosure = "VCB" \/ enclosure = "HCB" ->
     ieee1584_arcing_current I_bf V_kV gap_mm enclosure =
       Ok (Rpower 10 (-0.153 + 0.662 * (ln I_bf / ln 10)
                      + 0.0966 * (ln (V_kV * 1000) / ln 10)
                      + 0.00402 * gap_mm)))
  /\
  (enclosure = "VOA" \/ enclosure = "HOA" ->
     ieee1584_arcing_current I_bf V_kV gap_mm enclosure =
       Ok (Rpower 10 (-0.792 + 0.662 * (ln I_bf / ln 10)
                      + 0.0966 * (ln (V_kV * 1000) / ln 10)
                      + 0.00402 * gap_mm))).
Proof.
  intros _ _. unfold ieee1584_arcing_current. rewrite COEFFS_lookup.
  split; intros [-> | ->]; reflexivity.
Qed.

Lemma ieee1584_arcing_current_formula_witness :
  0 < 10 /\ 0 < 4.16 /\
  ieee1584_arcing_current 10 4.16 32 "VCB" =
    Ok (Rpower 10 (-0.153 + 0.662 * (ln 10 / ln 10)
                   + 0.0966 * (ln (4.16 * 1000) / ln 10)
                   + 0.00402 * 32)).
Proof.
  split; [lra | split; [lra |]].
  apply (ieee1584_arcing_current_formula 10 4.16 32 "VCB"); [lra | lra |].
  left; reflexivity.
Defined.

(** C2. On a positive arcing current and working distance the
    incident-energy function returns
    [Cf * En * (clearing_time_s/0.2) * (610/working_distance_mm)^2] with
    [En = 10^(-0.555 + 1.081*log10(Ia) + 0.0011*gap_mm)], [Cf = 1.0] when
    [V_kV >= 1.0] and [Cf = 1.5] otherwise. *)
Theorem ieee1584_incident_energy_formula
    (Ia V_kV gap_mm clearing_time_s working_distance_mm : R) :
  0 < Ia -> 0 < working_distance_mm ->
  let En := Rpower 10 (-0.555 + 1.081 * (ln Ia / ln 10) + 0.0011 * gap_mm) in
  (V_kV >= 1 ->
     ieee1584_incident_energy Ia V_kV gap_mm clearing_time_s working_distance_mm =
       Ok (1.0 * En * (clearing_time_s / 0.2) * (610 / working_distance_mm) ^ 2))
  /\
  (V_kV < 1 ->
     ieee1584_incident_energy Ia V_kV gap_mm clearing_time_s working_distance_mm =
       Ok (1.5 * En * (clearing_time_s / 0.2) * (610 / working_distance_mm) ^ 2)).
Proof.
  intros _ Hwd En. unfold ieee1584_incident_energy, py_div.
  destruct (Req_dec_T working_distance_mm 0) as [E0 | _]; [lra |].
  cbn [rbind].
  split; intro HV; destruct (Rge_dec V_kV 1.0) as [Hge | Hlt];
    try reflexivity; exfalso; lra.
Qed.

Lemma ieee1584_incident_energy_formula_witness :
  0 < 5 /\ 0 < 457 /\
  ieee1584_incident_energy 5 4.16 32 0.08 457 =
    Ok (1.0 * Rpower 10 (-0.555 + 1.081 * (ln 5 / ln 10) + 0.0011 * 32)
        * (0.08 / 0.2) * (610 / 457) ^ 2).
Proof.
  split; [lra | split; [lra |]].
  apply (ieee1584_incident_energy_formula 5 4.16 32 0.08 457); lra.
Defined.

(** C8 as the code has it.  For an enclosure outside [{VCB, HCB, VOA, HOA}]
    the arcing-current function fails, whatever the numeric arguments: the
    lookup in [COEFFS] raises the built-in [KeyError] carrying the enclosure,
    before any arithmetic is done. *)
Theorem ieee1584_arcing_current_invalid_enclosure
    (I_bf V_kV gap_mm : R) (enclosure : string) :
  ~ In enclosure ["VCB"; "HCB"; "VOA"; "HOA"] ->
  ieee1584_arcing_current I_bf V_kV gap_mm enclosure = Raise (KeyError enclosure).
Proof.
  intros Hout. unfold ieee1584_arcing_current. rewrite COEFFS_lookup.
  destruct (String.eqb_spec enclosure "VCB") as [-> | _];
    [exfalso; apply Hout; cbn; tauto |].
  destruct (String.eqb_spec enclosure "HCB") as [-> | _];
    [exfalso; apply Hout; cbn; tauto |].
  destruct (String.eqb_spec enclosure "VOA") as [-> | _];
    [exfalso; apply Hout; cbn; tauto |].
  destruct (String.eqb_spec enclosure "HOA") as [-> | _];
    [exfalso; apply Hout; cbn; tauto |].
  reflexivity.
Qed.

Lemma ieee1584_arcing_current_invalid_enclosure_witness :
  ieee1584_arcing_current 10 4.16 32 "XYZ" = Raise (KeyError "XYZ").
Proof.
  apply (ieee1584_arcing_current_invalid_enclosure 10 4.16 32 "XYZ").
  cbn. intros [H | [H | [H | [H | []]]]]; discriminate H.
Defined.

(** The value returned for a known enclosure is positive, and its base-10
    logarithm is the linear expression the code raises 10 to. *)
Lemma ieee1584_arcing_current_log10
    (I_bf V_kV gap_mm Ia : R) (enclosure : string) :
  ieee1584_arcing_current I_bf V_kV gap_mm enclosure = Ok Ia ->
  0 < Ia /\
  exists k1 k2 k3,
    subscript COEFFS enclosure = Ok (k1, k2, k3) /\
    log10 Ia = k1 + k2 * log10 I_bf + k3 * log10 (V_kV * 1000) + 0.00402 * gap_mm.
Proof.
  unfold ieee1584_arcing_current.
  destruct (subscript COEFFS enclosure) as [[[k1 k2] k3] | e]; cbn [rbind];
    [| discriminate].
  intros [= <-]. split; [apply pow10_pos |].
  exists k1, k2, k3. split; [reflexivity | apply log10_pow10].
Qed.

(** The two formulas chain: the arcing current of a known enclosure is a
    positive current on which the incident energy is defined for every
    non-zero working distance. *)
Lemma engine_chain_defined
    (I_bf V_kV gap_mm clearing_time_s working_distance_mm : R) (enclosure : string) :
  In enclosure ["VCB"; "HCB"; "VOA"; "HOA"] -> working_distance_mm <> 0 ->
  exists Ia E,
    ieee1584_arcing_current I_bf V_kV gap_mm enclosure = Ok Ia /\ 0 < Ia /\
    ieee1584_incident_energy Ia V_kV gap_mm clearing_time_s working_distance_mm = Ok E.
Proof.
  intros Hin Hwd.
  assert (Hok : exists Ia, ieee1584_arcing_current I_bf V_kV gap_mm enclosure = Ok Ia).
  { unfold ieee1584_arcing_current. rewrite COEFFS_lookup.
    cbn in Hin. destruct Hin as [<- | [<- | [<- | [<- | []]]]];
      cbn; eexists; reflexivity. }
  destruct Hok as [Ia HIa]. exists Ia.
  unfold ieee1584_incident_energy, py_div.
  destruct (Req_dec_T working_distance_mm 0) as [E0 | _]; [contradiction |].
  cbn [rbind]. eexists. split; [exact HIa |].
  split; [exact (proj1 (ieee1584_arcing_current_log10 _ _ _ _ _ HIa)) | reflexivity].
Qed.

End ArcFlashProps.

(* ===================================================================== *)
(** * Properties of the PPE classifier *)
(* ===================================================================== *)

Module PpeProps.

Import ArcFlash.

Local Open Scope Q_scope.

Lemma Qle_bool_false (x y : Q) : Qle_bool x y = false -> y < x.
Proof.
  intros H. apply Qnot_le_lt. intros Hle.
  apply Qle_bool_iff in Hle. congruence.
Qed.

(** The decision ladder, read as the band the energy falls in. *)
Lemma ppe_category_band (E : Q) :
  (E <= 1.2 /\ ppe_category E = "Below arc-flash threshold (No PPE)") \/
  (1.2 < E /\ E <= 4 /\ ppe_category E = "PPE Category 1") \/
  (4 < E /\ E <= 8 /\ ppe_category E = "PPE Category 2") \/
  (8 < E /\ E <= 25 /\ ppe_category E = "PPE Category 3") \/
  (25 < E /\ E <= 40 /\ ppe_category E = "PPE Category 4") \/
  (40 < E /\ ppe_category E = "Above PPE Category 4 (Dangerous)").
Proof.
  unfold ppe_category.
  destruct (Qle_bool E 1.2) eqn:H1;
    [left; split; [apply Qle_bool_iff; exact H1 | reflexivity] | right].
  apply Qle_bool_false in H1.
  destruct (Qle_bool E 4) eqn:H2;
    [left; repeat split; [exact H1 | apply Qle_bool_iff; exact H2] | right].
  apply Qle_bool_false in H2.
  destruct (Qle_bool E 8) eqn:H3;
    [left; repeat split; [exact H2 | apply Qle_bool_iff; exact H3] | right].
  apply Qle_bool_false in H3.
  destruct (Qle_bool E 25) eqn:H4;
    [left; repeat split; [exact H3 | apply Qle_bool_iff; exact H4] | right].
  apply Qle_bool_false in H4.
  destruct (Qle_bool E 40) eqn:H5;
    [left; repeat split; [exact H4 | apply Qle_bool_iff; exact H5] | right].
  apply Qle_bool_false in H5.
  split; [exact H5 | reflexivity].
Qed.

(** [severity] numbers the six classes 0..5 in the order of the table. *)
Lemma severity_table :
  map severity PPE_ORDER = [0; 1; 2; 3; 4; 5]%nat.
Proof. reflexivity. Qed.

Ltac split_bands :=
  repeat match goal with
         | H : _ \/ _ |- _ => destruct H
         | H : _ /\ _ |- _ => destruct H
         end.

Lemma ppe_category_monotone (a b : Q) :
  a <= b -> (severity (ppe_category a) <= severity (ppe_category b))%nat.
Proof.
  intros Hab.
  pose proof (ppe_category_band a) as Ha.
  pose proof (ppe_category_band b) as Hb.
  split_bands;
    try (exfalso; Lqa.lra);
    match goal with
    | Ea : ppe_category a = _, Eb : ppe_category b = _ |- _ => rewrite Ea, Eb
    end;
    vm_compute; lia.
Qed.

(** C3. [ppe_category] is monotonic non-decreasing in the energy (in the
    order no-PPE < Category 1 < ... < Category 4 < dangerous) and implements
    the threshold table with inclusive upper bounds 1.2, 4, 8, 25, 40; in
    particular 1.2 is no-PPE, 40 is Category 4 and 40.1 is dangerous. *)
Theorem ppe_category_threshold_table :
  (forall a b : Q,
      a <= b -> (severity (ppe_category a) <= severity (ppe_category b))%nat)
  /\ (forall E : Q,
        (E <= 1.2 -> ppe_category E = "Below arc-flash threshold (No PPE)")
        /\ (1.2 < E /\ E <= 4 -> ppe_category E = "PPE Category 1")
        /\ (4 < E /\ E <= 8 -> ppe_category E = "PPE Category 2")
        /\ (8 < E /\ E <= 25 -> ppe_category E = "PPE Category 3")
        /\ (25 < E /\ E <= 40 -> ppe_category E = "PPE Category 4")
        /\ (40 < E -> ppe_category E = "Above PPE Category 4 (Dangerous)"))
  /\ ppe_category 1.2 = "Below arc-flash threshold (No PPE)"
  /\ ppe_category 40 = "PPE Category 4"
  /\ ppe_category 40.1 = "Above PPE Category 4 (Dangerous)".
Proof.
  split; [exact ppe_category_monotone |].
  split; [| repeat split; reflexivity].
  intros E. pose proof (ppe_category_band E) as HE.
  repeat split; intros Hyp; split_bands;
    try assumption; exfalso; Lqa.lra.
Qed.

Lemma ppe_category_threshold_table_witness :
  3 <= 30 /\
  (severity (ppe_category 3) <= severity (ppe_category 30))%nat /\
  1.2 < 1.2000001 /\ 1.2000001 <= 4 /\ ppe_category 1.2000001 = "PPE Category 1".
Proof.
  split; [Lqa.lra |].
  split; [apply (proj1 ppe_category_threshold_table 3 30); Lqa.lra |].
  split; [Lqa.lra |]. split; [Lqa.lra |].
  apply (proj1 (proj2 (proj1 (proj2 ppe_category_threshold_table) 1.2000001))).
  split; Lqa.lra.
Defined.

End PpeProps.

(* ===================================================================== *)
(** * Generic facts: the monad, loops, dicts *)
(* ===================================================================== *)

Module PyFacts.

(** The first item of [l] that [check] objects to, with its objection. *)
Fixpoint first_error {A : Type} (check : A -> option exn) (l : list A) : option exn :=
  match l with
  | [] => None
  | x :: l' =>
      match check x with
      | Some e => Some e
      | None => first_error check l'
      end
  end.

Definition outcome (o : option exn) : result unit :=
  match o with
  | Some e => Raise e
  | None => Ok tt
  end.

(** A loop whose body only inspects the object leaves it as it was, and
    raises what the first offending item raises. *)
Lemma for_pure_check {S A : Type} (body : A -> M S unit) (check : S -> A -> option exn) :
  (forall x s, body x s = (s, outcome (check s x))) ->
  forall l s, for_ l body s = (s, outcome (first_error (check s) l)).
Proof.
  intros Hbody l s. induction l as [| x l IH]; cbn [for_ first_error].
  - reflexivity.
  - unfold bind. rewrite Hbody.
    destruct (check s x) as [e |]; cbn [outcome]; [reflexivity | exact IH].
Qed.

Lemma first_error_none {A : Type} (check : A -> option exn) (l : list A) :
  first_error check l = None <-> (forall x, In x l -> check x = None).
Proof.
  induction l as [| x l IH]; cbn [first_error].
  - split; [intros _ y [] | reflexivity].
  - destruct (check x) as [e |] eqn:Hx.
    + split; [discriminate |].
      intros H. rewrite <- Hx. apply H. left; reflexivity.
    + rewrite IH. split.
      * intros H y [<- | Hy]; [exact Hx | apply H; exact Hy].
      * intros H y Hy. apply H. right; exact Hy.
Qed.

Lemma first_error_some {A : Type} (check : A -> option exn) (l : list A) (e : exn) :
  first_error check l = Some e -> exists x, In x l /\ check x = Some e.
Proof.
  induction l as [| x l IH]; cbn [first_error]; [discriminate |].
  destruct (check x) as [e' |] eqn:Hx.
  - intros [= <-]. exists x. split; [left; reflexivity | exact Hx].
  - intros H. destruct (IH H) as [y [Hy Hc]].
    exists y. split; [right; exact Hy | exact Hc].
Qed.

Lemma dict_mem_keys {V : Type} (k : string) (d : dict V) :
  dict_mem k d = true <-> In k (dict_keys d).
Proof.
  unfold dict_mem, dict_keys.
  induction d as [| [k' v] d IH]; cbn [dict_get map fst In].
  - split; [discriminate | intros []].
  - destruct (String.eqb_spec k k') as [-> | Hne].
    + split; [intros _; left; reflexivity | reflexivity].
    + rewrite IH. split; [intros H; right; exact H |].
      intros [E | H]; [congruence | exact H].
Qed.

Lemma dict_mem_not_keys {V : Type} (k : string) (d : dict V) :
  dict_mem k d = false <-> ~ In k (dict_keys d).
Proof.
  rewrite <- dict_mem_keys. destruct (dict_mem k d); split;
    congruence || (intros H; exfalso; apply H; reflexivity) || discriminate.
Qed.

End PyFacts.

(* ===================================================================== *)
(** * The validator *)
(* ===================================================================== *)

Module CoreProps.

Import Core PyFacts.

(** What [validate] objects to in one line, resp. one transformer. *)
Definition line_check (self : SystemModel) (line : Line) : option exn :=
  if negb (dict_mem (from_bus line) (buses self)) then
    Some (ValueError ("Line '" ++ line_id line ++ "' references unknown from_bus '"
                        ++ from_bus line ++ "'."))
  else if negb (dict_mem (to_bus line) (buses self)) then
    Some (ValueError ("Line '" ++ line_id line ++ "' references unknown to_bus '"
                        ++ to_bus line ++ "'."))
  else None.

Definition tx_check (self : SystemModel) (tx : Transformer) : option exn :=
  if negb (dict_mem (primary_bus tx) (buses self)) then
    Some (ValueError ("Transformer '" ++ tx_id tx
                        ++ "' references unknown primary_bus '"
                        ++ primary_bus tx ++ "'."))
  else if negb (dict_mem (secondary_bus tx) (buses self)) then
    Some (ValueError ("Transformer '" ++ tx_id tx
                        ++ "' references unknown secondary_bus '"
                        ++ secondary_bus tx ++ "'."))
  else None.

(** Every bus reference of every line and transformer is a key of the bus
    mapping. *)
Definition refs_ok (m : SystemModel) : Prop :=
  (forall line, In line (dict_values (lines m)) ->
     In (from_bus line) (dict_keys (buses m)) /\
     In (to_bus line) (dict_keys (buses m)))
  /\
  (forall tx, In tx (dict_values (transformers m)) ->
     In (primary_bus tx) (dict_keys (buses m)) /\
     In (secondary_bus tx) (dict_keys (buses m))).

(** [e] is a [ValueError] whose message names a line or transformer of [m]
    by its id together with a bus id it refers to that is no key of the bus
    mapping. *)
Definition dangling_report (m : SystemModel) (e : exn) : Prop :=
  (exists line, In line (dict_values (lines m)) /\
     ((~ In (from_bus line) (dict_keys (buses m)) /\
       e = ValueError ("Line '" ++ line_id line ++ "' references unknown from_bus '"
                         ++ from_bus line ++ "'."))
      \/
      (~ In (to_bus line) (dict_keys (buses m)) /\
       e = ValueError ("Line '" ++ line_id line ++ "' references unknown to_bus '"
                         ++ to_bus line ++ "'."))))
  \/
  (exists tx, In tx (dict_values (transformers m)) /\
     ((~ In (primary_bus tx) (dict_keys (buses m)) /\
       e = ValueError ("Transformer '" ++ tx_id tx
                         ++ "' references unknown primary_bus '"
                         ++ primary_bus tx ++ "'."))
      \/
      (~ In (secondary_bus tx) (dict_keys (buses m)) /\
       e = ValueError ("Transformer '" ++ tx_id tx
                         ++ "' references unknown secondary_bus '"
                         ++ secondary_bus tx ++ "'.")))).

(** [validate] as one pass over the lines, then one over the transformers. *)
Lemma validate_eq (m : SystemModel) :
  validate m =
    (m, match first_error (line_check m) (dict_values (lines m)) with
        | Some e => Raise e
        | None => outcome (first_error (tx_check m) (dict_values (transformers m)))
        end).
Proof.
  unfold validate. unfold bind at 1. unfold get at 1. unfold bind at 1.
  rewrite (for_pure_check _ line_check).
  - destruct (first_error (line_check m) (dict_values (lines m))) as [e |];
      cbn [outcome]; [reflexivity |].
    unfold bind at 1. unfold get at 1.
    apply (for_pure_check _ tx_check).
    intros tx s. unfold bind, get, raise, ret, tx_check.
    destruct (negb (dict_mem (primary_bus tx) (buses s))); [reflexivity |].
    destruct (negb (dict_mem (secondary_bus tx) (buses s))); reflexivity.
  - intros line s. unfold bind, get, raise, ret, line_check.
    destruct (negb (dict_mem (from_bus line) (buses s))); [reflexivity |].
    destruct (negb (dict_mem (to_bus line) (buses s))); reflexivity.
Qed.

Lemma validate_frame (m : SystemModel) : fst (validate m) = m.
Proof. rewrite validate_eq. reflexivity. Qed.

Lemma line_check_none (m : SystemModel) (line : Line) :
  line_check m line = None <->
  In (from_bus line) (dict_keys (buses m)) /\ In (to_bus line) (dict_keys (buses m)).
Proof.
  unfold line_check. rewrite <- !dict_mem_keys.
  destruct (dict_mem (from_bus line) (buses m)); cbn [negb];
    [| split; [discriminate | intros [H _]; discriminate H]].
  destruct (dict_mem (to_bus line) (buses m)); cbn [negb];
    [split; [intros _; split; reflexivity | reflexivity] |].
  split; [discriminate | intros [_ H]; discriminate H].
Qed.

Lemma tx_check_none (m : SystemModel) (tx : Transformer) :
  tx_check m tx = None <->
  In (primary_bus tx) (dict_keys (buses m)) /\
  In (secondary_bus tx) (dict_keys (buses m)).
Proof.
  unfold tx_check. rewrite <- !dict_mem_keys.
  destruct (dict_mem (primary_bus tx) (buses m)); cbn [negb];
    [| split; [discriminate | intros [H _]; discriminate H]].
  destruct (dict_mem (secondary_bus tx) (buses m)); cbn [negb];
    [split; [intros _; split; reflexivity | reflexivity] |].
  split; [discriminate | intros [_ H]; discriminate H].
Qed.

Lemma validate_ok_iff (m : SystemModel) :
  snd (validate m) = Ok tt <-> refs_ok m.
Proof.
  rewrite validate_eq. cbn [snd]. unfold refs_ok.
  destruct (first_error (line_check m) (dict_values (lines m))) as [e |] eqn:HL.
  - split; [discriminate |]. intros [HlOk _]. exfalso.
    assert (Hn : first_error (line_check m) (dict_values (lines m)) = None).
    { apply first_error_none. intros x Hx. apply line_check_none. auto. }
    congruence.
  - pose proof (proj1 (first_error_none _ _) HL) as HlOk.
    destruct (first_error (tx_check m) (dict_values (transformers m))) as [e |] eqn:HT;
      cbn [outcome].
    + split; [discriminate |]. intros [_ HtOk]. exfalso.
      assert (Hn : first_error (tx_check m) (dict_values (transformers m)) = None).
      { apply first_error_none. intros x Hx. apply tx_check_none. auto. }
      congruence.
    + pose proof (proj1 (first_error_none _ _) HT) as HtOk.
      split; [| reflexivity]. intros _. split.
      * intros line Hl. apply line_check_none. auto.
      * intros tx Ht. apply tx_check_none. auto.
Qed.

Lemma validate_raise_report (m : SystemModel) (e : exn) :
  snd (validate m) = Raise e -> dangling_report m e.
Proof.
  rewrite validate_eq. cbn [snd]. unfold dangling_report.
  destruct (first_error (line_check m) (dict_values (lines m))) as [e1 |] eqn:HL.
  - intros [= <-]. left.
    destruct (first_error_some _ _ _ HL) as [line [Hin Hc]].
    exists line. split; [exact Hin |].
    unfold line_check in Hc.
    destruct (dict_mem (from_bus line) (buses m)) eqn:Hf; cbn [negb] in Hc.
    + destruct (dict_mem (to_bus line) (buses m)) eqn:Ht; cbn [negb] in Hc;
        [discriminate |].
      right. split; [apply dict_mem_not_keys; exact Ht | congruence].
    + left. split; [apply dict_mem_not_keys; exact Hf | congruence].
  - destruct (first_error (tx_check m) (dict_values (transformers m))) as [e2 |] eqn:HT;
      cbn [outcome]; [| discriminate].
    intros [= <-]. right.
    destruct (first_error_some _ _ _ HT) as [tx [Hin Hc]].
    exists tx. split; [exact Hin |].
    unfold tx_check in Hc.
    destruct (dict_mem (primary_bus tx) (buses m)) eqn:Hp; cbn [negb] in Hc.
    + destruct (dict_mem (secondary_bus tx) (buses m)) eqn:Hs; cbn [negb] in Hc;
        [discriminate |].
      right. split; [apply dict_mem_not_keys; exact Hs | congruence].
    + left. split; [apply dict_mem_not_keys; exact Hp | congruence].
Qed.


End CoreProps.

(* ===================================================================== *)
(** * The CSV loader *)
(* ===================================================================== *)

Module CsvProps.

Import Core CsvReader PyFacts CoreProps.

(** ** Row dicts carry every header name as a key *)

Lemma dict_set_keys {V : Type} (k k' : string) (v : V) (d : dict V) :
  In k' (dict_keys (dict_set k v d)) <-> k' = k \/ In k' (dict_keys d).
Proof.
  unfold dict_keys. induction d as [| [k0 v0] d IH]; cbn [dict_set map fst In].
  - split; [intros [H | []]; left; congruence | intros [H | []]; left; congruence].
  - destruct (String.eqb_spec k k0) as [-> | Hne]; cbn [map fst In].
    + split; [intros [H | H]; [right; left; exact H | right; right; exact H] |].
      intros [H | [H | H]]; [left; congruence | left; exact H | right; exact H].
    + rewrite IH. split.
      * intros [H | [H | H]]; [right; left; exact H | left; exact H | right; right; exact H].
      * intros [H | [H | H]]; [right; left; exact H | left; exact H | right; right; exact H].
Qed.

Lemma fold_set_keys (kvs : list (string * cell)) (d : row) (k : string) :
  In k (dict_keys (fold_left (fun d kv => dict_set (fst kv) (snd kv) d) kvs d)) <->
  In k (map fst kvs) \/ In k (dict_keys d).
Proof.
  revert d. induction kvs as [| [k0 c0] kvs IH]; intros d; cbn [fold_left map fst snd In].
  - split; [intros H; right; exact H | intros [[] | H]; exact H].
  - rewrite IH, dict_set_keys. split.
    + intros [H | [H | H]]; [left; right; exact H | left; left; congruence | right; exact H].
    + intros [[H | H] | H]; [right; left; congruence | left; exact H | right; right; exact H].
Qed.

Lemma zip_row_names (names : list string) (cells : list string) :
  map fst (zip_row names cells) = names.
Proof.
  revert cells. induction names as [| f names IH]; intros cells; [reflexivity |].
  destruct cells as [| c cells]; cbn [zip_row map fst]; rewrite IH; reflexivity.
Qed.

Lemma row_dict_keys (names cells : list string) (k : string) :
  In k (dict_keys (row_dict names cells)) <-> In k names.
Proof.
  unfold row_dict. rewrite fold_set_keys, zip_row_names.
  split; [intros [H | []]; exact H | intros H; left; exact H].
Qed.

Lemma str_mem_In (k : string) (l : list string) : str_mem k l = true <-> In k l.
Proof.
  induction l as [| x l IH]; cbn [str_mem In]; [split; [discriminate | intros []] |].
  destruct (String.eqb_spec k x) as [-> | Hne].
  - split; [intros _; left; reflexivity | reflexivity].
  - rewrite IH. split; [intros H; right; exact H | intros [E | H]; [congruence | exact H]].
Qed.

(** The required-field check reads the keys of the row dict, that is, the
    header: with every required name in the header nothing is missing. *)
Lemma missing_fields_header (required names cells : list string) :
  (forall f, In f required -> In f names) ->
  missing_fields required (row_dict names cells) = [].
Proof.
  intros Hreq. unfold missing_fields.
  induction required as [| f required IH]; [reflexivity |]. cbn [filter].
  assert (Hf : str_mem f (dict_keys (row_dict names cells)) = true).
  { apply str_mem_In, row_dict_keys, Hreq. left; reflexivity. }
  rewrite Hf. cbn [negb]. apply IH. intros g Hg. apply Hreq. right; exact Hg.
Qed.

Lemma missing_fields_subscript (required : list string) (r : row) (k : string) :
  missing_fields required r = [] -> In k required ->
  exists c, subscript r k = Ok c /\ dict_get k r = Some c.
Proof.
  unfold missing_fields. intros Hm Hk.
  assert (Hmem : str_mem k (dict_keys r) = true).
  { induction required as [| f required IH]; [destruct Hk |].
    cbn [filter] in Hm.
    destruct (str_mem f (dict_keys r)) eqn:Hf; cbn [negb] in Hm; [| discriminate].
    destruct Hk as [<- | Hk]; [exact Hf | exact (IH Hm Hk)]. }
  apply str_mem_In, dict_mem_keys in Hmem. unfold dict_mem in Hmem.
  unfold subscript. destruct (dict_get k r) as [c |]; [| discriminate].
  exists c. split; reflexivity.
Qed.

(** ** Bus and line rows never get past the constructor *)

Lemma Bus_new_zone (b : Bus) :
  dataclass_new "Bus" Bus_FIELDS ["bus_id"; "kv"; "zone"] b =
    Raise (TypeError "Bus.__init__() got an unexpected keyword argument 'zone'").
Proof. reflexivity. Qed.

Lemma Line_new_length (l : Line) :
  dataclass_new "Line" Line_FIELDS
    ["line_id"; "from_bus"; "to_bus"; "r_ohm"; "x_ohm"; "length"; "linecode"] l =
    Raise (TypeError "Line.__init__() got an unexpected keyword argument 'length'").
Proof. reflexivity. Qed.

Lemma Transformer_new_ok (t : Transformer) :
  dataclass_new "Transformer" Transformer_FIELDS
    ["tx_id"; "primary_bus"; "secondary_bus"; "primary_kv"; "secondary_kv";
     "z_percent"; "tap"] t = Ok t.
Proof. reflexivity. Qed.

Section WithFloat.

Variable float_of_str : string -> option Q.

Lemma _add_bus_raises (r : row) (m : SystemModel) :
  exists e, _add_bus float_of_str r m = (m, Raise e).
Proof.
  unfold _add_bus.
  destruct (missing_fields REQUIRED_BUS_FIELDS r); [| eexists; reflexivity].
  unfold bind at 1. unfold lift.
  destruct (subscript r "bus_id") as [c_id | e]; cbn [rbind]; [| eexists; reflexivity].
  destruct (subscript r "kv") as [c_kv | e]; cbn [rbind]; [| eexists; reflexivity].
  destruct (float_cell float_of_str c_kv) as [q | e]; cbn [rbind];
    [| eexists; reflexivity].
  rewrite Bus_new_zone. eexists; reflexivity.
Qed.

Lemma _add_line_raises (r : row) (m : SystemModel) :
  exists e, _add_line float_of_str r m = (m, Raise e).
Proof.
  unfold _add_line.
  destruct (missing_fields REQUIRED_LINE_FIELDS r); [| eexists; reflexivity].
  unfold bind at 1. unfold lift.
  destruct (subscript r "line_id") as [c1 | e]; cbn [rbind]; [| eexists; reflexivity].
  destruct (subscript r "from_bus") as [c2 | e]; cbn [rbind]; [| eexists; reflexivity].
  destruct (subscript r "to_bus") as [c3 | e]; cbn [rbind]; [| eexists; reflexivity].
  destruct (subscript r "r_ohm") as [c4 | e]; cbn [rbind]; [| eexists; reflexivity].
  destruct (float_cell float_of_str c4) as [q4 | e]; cbn [rbind];
    [| eexists; reflexivity].
  destruct (subscript r "x_ohm") as [c5 | e]; cbn [rbind]; [| eexists; reflexivity].
  destruct (float_cell float_of_str c5) as [q5 | e]; cbn [rbind];
    [| eexists; reflexivity].
  destruct (optional_float float_of_str "length" r) as [len | e]; cbn [rbind];
    [| eexists; reflexivity].
  rewrite Line_new_length. eexists; reflexivity.
Qed.

(** A transformer row changes nothing but the transformer mapping. *)
Lemma _add_transformer_frame (r : row) (m m' : SystemModel) (o : result unit) :
  _add_transformer float_of_str r m = (m', o) ->
  buses m' = buses m /\ lines m' = lines m.
Proof.
  unfold _add_transformer.
  destruct (missing_fields REQUIRED_TX_FIELDS r);
    [| intros [= <- _]; split; reflexivity].
  unfold bind at 1. unfold lift.
  match goal with
  | |- context [rbind ?a ?k] => destruct (rbind a k) as [tx | e]
  end; [| intros [= <- _]; split; reflexivity].
  unfold bind, get, raise, modify.
  destruct (dict_mem (tx_id tx) (transformers m));
    intros [= <- _]; split; reflexivity.
Qed.

Lemma add_row_frame (r : row) (m m' : SystemModel) (o : result unit) :
  add_row float_of_str r m = (m', o) ->
  buses m' = buses m /\ lines m' = lines m.
Proof.
  unfold add_row.
  destruct (String.eqb _ ""); [intros [= <- _]; split; reflexivity |].
  destruct (String.eqb _ "bus").
  { destruct (_add_bus_raises r m) as [e ->]. intros [= <- _]; split; reflexivity. }
  destruct (String.eqb _ "line").
  { destruct (_add_line_raises r m) as [e ->]. intros [= <- _]; split; reflexivity. }
  destruct (String.eqb _ "transformer"); [apply _add_transformer_frame |].
  intros [= <- _]; split; reflexivity.
Qed.

Lemma rows_frame (rows : list row) (m m' : SystemModel) (o : result unit) :
  for_ rows (add_row float_of_str) m = (m', o) ->
  buses m' = buses m /\ lines m' = lines m.
Proof.
  revert m. induction rows as [| r rows IH]; intros m; cbn [for_].
  - intros [= <- _]; split; reflexivity.
  - unfold bind.
    destruct (add_row float_of_str r m) as [m1 [[] | e]] eqn:Hr.
    + intros H. apply IH in H. apply add_row_frame in Hr.
      destruct H as [-> ->]. exact Hr.
    + intros [= <- _]. exact (add_row_frame _ _ _ _ Hr).
Qed.

(** What [load] does once the file is open and has a [type] column. *)
Lemma load_eq (f : csv_file) (names : list string) (path : string) :
  fieldnames f = Some names -> str_mem "type" names = true ->
  load float_of_str (Some f) path =
    match for_ (DictReader names (records f)) (add_row float_of_str) empty_model with
    | (built, Ok _) =>
        match snd (validate built) with
        | Ok _ => Ok built
        | Raise e => Raise e
        end
    | (_, Raise e) => Raise e
    end.
Proof.
  intros Hn Ht. unfold load. rewrite Hn, Ht. cbn [negb]. unfold bind.
  destruct (for_ (DictReader names (records f)) (add_row float_of_str) empty_model)
    as [built [[] | e]]; [| reflexivity].
  rewrite validate_eq. cbn [snd].
  destruct (first_error (line_check built) (dict_values (lines built))); [reflexivity |].
  destruct (first_error (tx_check built) (dict_values (transformers built)));
    reflexivity.
Qed.

(** The loader hands out a model only after [validate] accepted it. *)
Lemma csv_load_validated (file : option csv_file) (path : string) (model : SystemModel) :
  load float_of_str file path = Ok model -> snd (validate model) = Ok tt.
Proof.
  unfold load. destruct file as [f |]; [| discriminate].
  destruct (fieldnames f) as [names |] eqn:Hn; [| discriminate].
  destruct (str_mem "type" names) eqn:Ht; cbn [negb]; [| discriminate].
  intros H. pose proof (load_eq f names path Hn Ht) as E.
  unfold load in E. rewrite Hn, Ht in E. cbn [negb] in E. rewrite E in H. clear E.
  destruct (for_ (DictReader names (records f)) (add_row float_of_str) empty_model)
    as [built [[] | e]]; [| discriminate].
  destruct (snd (validate built)) as [[] | e] eqn:Hv; [| discriminate].
  injection H as <-. exact Hv.
Qed.

(** With no bus ever stored, the only model the loader can return is the
    empty one. *)
Lemma csv_load_only_empty (file : option csv_file) (path : string) (model : SystemModel) :
  load float_of_str file path = Ok model -> model = empty_model.
Proof.
  intros H. pose proof (csv_load_validated _ _ _ H) as Hv.
  apply validate_ok_iff in Hv. destruct Hv as [_ Htx].
  unfold load in H. destruct file as [f |]; [| discriminate].
  destruct (fieldnames f) as [names |]; [| discriminate].
  destruct (negb (str_mem "type" names)); [discriminate |].
  unfold bind in H.
  destruct (for_ (DictReader names (records f)) (add_row float_of_str) empty_model)
    as [built [[] | e]] eqn:Hrows; [| discriminate].
  apply rows_frame in Hrows. cbn in Hrows. destruct Hrows as [Hb Hl].
  rewrite validate_eq in H.
  destruct (first_error (line_check built) (dict_values (lines built))); [discriminate |].
  destruct (first_error (tx_check built) (dict_values (transformers built)));
    [discriminate |].
  cbn [outcome] in H. injection H as <-.
  destruct built as [bs ls ts]. cbn in Hb, Hl, Htx. subst bs ls.
  destruct ts as [| [k tx] ts]; [reflexivity |].
  exfalso. destruct (Htx tx) as [[] _]. left; reflexivity.
Qed.

End WithFloat.

End CsvProps.

(* ===================================================================== *)
(** * The JSON loader *)
(* ===================================================================== *)

Module JsonProps.

Import Core PyVal JsonReader PyFacts CoreProps CsvProps.

(** The part of the model no loader step ever changes: buses and lines. *)
Definition same_buses_lines (m m' : SystemModel) : Prop :=
  buses m' = buses m /\ lines m' = lines m.

Lemma same_buses_lines_refl (m : SystemModel) : same_buses_lines m m.
Proof. split; reflexivity. Qed.

Lemma same_buses_lines_trans (m1 m2 m3 : SystemModel) :
  same_buses_lines m1 m2 -> same_buses_lines m2 m3 -> same_buses_lines m1 m3.
Proof. intros [A B] [C D]. split; congruence. Qed.

Lemma for_frame {A : Type} (body : A -> M SystemModel unit) :
  (forall x m m' o, body x m = (m', o) -> same_buses_lines m m') ->
  forall l m m' o, for_ l body m = (m', o) -> same_buses_lines m m'.
Proof.
  intros Hbody l. induction l as [| x l IH]; intros m m' o; cbn [for_].
  - intros [= <- _]. apply same_buses_lines_refl.
  - unfold bind. destruct (body x m) as [m1 [[] | e]] eqn:Hx.
    + intros H. apply same_buses_lines_trans with m1; [exact (Hbody _ _ _ _ Hx) |].
      exact (IH _ _ _ H).
    + intros [= <- _]. exact (Hbody _ _ _ _ Hx).
Qed.

Section WithConversions.

Variable float_of_str : string -> option Q.
Variable repr : pyval -> string.

Lemma add_bus_raises (b : pyval) (m : SystemModel) :
  exists e, add_bus float_of_str repr b m = (m, Raise e).
Proof.
  unfold add_bus. unfold bind at 1. unfold lift at 1.
  destruct (py_getitem b "bus_id") as [v | e]; cbn [rbind]; [| eexists; reflexivity].
  unfold bind at 1. unfold get at 1.
  destruct (dict_mem (py_str repr v) (buses m)); [eexists; reflexivity |].
  unfold bind at 1. unfold lift.
  destruct (py_getitem b "kv") as [v_kv | e]; cbn [rbind]; [| eexists; reflexivity].
  destruct (py_float float_of_str v_kv) as [q | e]; cbn [rbind];
    [| eexists; reflexivity].
  destruct (py_get b "zone" VNone) as [z | e]; cbn [rbind]; [| eexists; reflexivity].
  rewrite Bus_new_zone. eexists; reflexivity.
Qed.

Lemma add_line_raises (l : pyval) (m : SystemModel) :
  exists e, add_line float_of_str repr l m = (m, Raise e).
Proof.
  unfold add_line. unfold bind at 1. unfold lift at 1.
  destruct (py_getitem l "line_id") as [v | e]; cbn [rbind]; [| eexists; reflexivity].
  unfold bind at 1. unfold get at 1.
  destruct (dict_mem (py_str repr v) (lines m)); [eexists; reflexivity |].
  unfold bind at 1. unfold lift.
  destruct (py_getitem l "from_bus") as [v1 | e]; cbn [rbind]; [| eexists; reflexivity].
  destruct (py_getitem l "to_bus") as [v2 | e]; cbn [rbind]; [| eexists; reflexivity].
  destruct (py_getitem l "r_ohm") as [v3 | e]; cbn [rbind]; [| eexists; reflexivity].
  destruct (py_float float_of_str v3) as [q3 | e]; cbn [rbind];
    [| eexists; reflexivity].
  destruct (py_getitem l "x_ohm") as [v4 | e]; cbn [rbind]; [| eexists; reflexivity].
  destruct (py_float float_of_str v4) as [q4 | e]; cbn [rbind];
    [| eexists; reflexivity].
  destruct (optional_float float_of_str l "length") as [len | e]; cbn [rbind];
    [| eexists; reflexivity].
  destruct (py_get l "linecode" VNone) as [lc | e]; cbn [rbind];
    [| eexists; reflexivity].
  rewrite Line_new_length. eexists; reflexivity.
Qed.

Lemma add_transformer_frame (t : pyval) (m m' : SystemModel) (o : result unit) :
  add_transformer float_of_str repr t m = (m', o) -> same_buses_lines m m'.
Proof.
  unfold add_transformer. unfold bind at 1. unfold lift at 1.
  destruct (py_getitem t "tx_id") as [v | e]; cbn [rbind];
    [| intros [= <- _]; apply same_buses_lines_refl].
  unfold bind at 1. unfold get at 1.
  destruct (dict_mem (py_str repr v) (transformers m));
    [intros [= <- _]; apply same_buses_lines_refl |].
  unfold bind at 1. unfold lift.
  match goal with
  | |- context [rbind ?a ?k] => destruct (rbind a k) as [tx | e]
  end; [| intros [= <- _]; apply same_buses_lines_refl].
  unfold modify. intros [= <- _]. split; reflexivity.
Qed.

(** The three loops and the validator, as [load] chains them. *)
Definition fill (buses lines transformers : pyval) : M SystemModel unit :=
  (bs <- lift (py_iter buses) ;;
   for_ bs (add_bus float_of_str repr) ;;;
   ls <- lift (py_iter lines) ;;
   for_ ls (add_line float_of_str repr) ;;;
   ts <- lift (py_iter transformers) ;;
   for_ ts (add_transformer float_of_str repr) ;;;
   validate)%py.

Lemma fill_result (bs ls ts : pyval) (m m' : SystemModel) :
  fill bs ls ts m = (m', Ok tt) ->
  same_buses_lines m m' /\ snd (validate m') = Ok tt.
Proof.
  unfold fill. unfold bind at 1. unfold lift at 1.
  destruct (py_iter bs) as [lb | e]; [| discriminate].
  unfold bind at 1.
  destruct (for_ lb (add_bus float_of_str repr) m) as [m1 [[] | e]] eqn:H1;
    [| discriminate].
  unfold bind at 1. unfold lift at 1.
  destruct (py_iter ls) as [ll | e]; [| discriminate].
  unfold bind at 1.
  destruct (for_ ll (add_line float_of_str repr) m1) as [m2 [[] | e]] eqn:H2;
    [| discriminate].
  unfold bind at 1. unfold lift at 1.
  destruct (py_iter ts) as [lt | e]; [| discriminate].
  unfold bind at 1.
  destruct (for_ lt (add_transformer float_of_str repr) m2) as [m3 [[] | e]] eqn:H3;
    [| discriminate].
  intros Hv.
  assert (E : m' = m3) by (rewrite <- (validate_frame m3), Hv; reflexivity).
  subst m'. split; [| rewrite Hv; reflexivity].
  apply same_buses_lines_trans with m1.
  { apply (for_frame (add_bus float_of_str repr)) in H1; [exact H1 |].
    intros x s s' o Hx. destruct (add_bus_raises x s) as [e He].
    rewrite He in Hx. injection Hx as <- _. apply same_buses_lines_refl. }
  apply same_buses_lines_trans with m2.
  { apply (for_frame (add_line float_of_str repr)) in H2; [exact H2 |].
    intros x s s' o Hx. destruct (add_line_raises x s) as [e He].
    rewrite He in Hx. injection Hx as <- _. apply same_buses_lines_refl. }
  apply (for_frame (add_transformer float_of_str repr)) in H3; [exact H3 |].
  exact add_transformer_frame.
Qed.

Lemma load_fill (file : option pyval) (path : string) (model : SystemModel) :
  load float_of_str repr file path = Ok model ->
  exists bs ls ts, fill bs ls ts empty_model = (model, Ok tt).
Proof.
  unfold load. destruct file as [data |]; [| discriminate].
  destruct (py_get data "buses" (VList [])) as [bs | e]; cbn [rbind]; [| discriminate].
  destruct (py_get data "lines" (VList [])) as [ls | e]; cbn [rbind]; [| discriminate].
  destruct (py_get data "transformers" (VList [])) as [ts | e]; cbn [rbind];
    [| discriminate].
  fold (fill bs ls ts).
  destruct (fill bs ls ts empty_model) as [built [[] | e]] eqn:Hf; [| discriminate].
  intros [= <-]. exists bs, ls, ts. exact Hf.
Qed.

(** The loader hands out a model only after [validate] accepted it. *)
Lemma json_load_validated (file : option pyval) (path : string) (model : SystemModel) :
  load float_of_str repr file path = Ok model -> snd (validate model) = Ok tt.
Proof.
  intros H. destruct (load_fill _ _ _ H) as [bs [ls [ts Hf]]].
  exact (proj2 (fill_result _ _ _ _ _ Hf)).
Qed.

Lemma json_load_only_empty (file : option pyval) (path : string) (model : SystemModel) :
  load float_of_str repr file path = Ok model -> model = empty_model.
Proof.
  intros H. destruct (load_fill _ _ _ H) as [bs [ls [ts Hf]]].
  destruct (fill_result _ _ _ _ _ Hf) as [[Hb Hl] Hv].
  apply validate_ok_iff in Hv. destruct Hv as [_ Htx].
  destruct model as [mb ml mt]. cbn in Hb, Hl, Htx. subst mb ml.
  destruct mt as [| [k tx] mt]; [reflexivity |].
  exfalso. destruct (Htx tx) as [[] _]. left; reflexivity.
Qed.

End WithConversions.

End JsonProps.

(* ===================================================================== *)
(** * The required-field check of the CSV loader *)
(* ===================================================================== *)

Module CsvRequired.

Import Core CsvReader PyFacts CoreProps CsvProps.

(** The message [float] raises on text it cannot read. *)
Definition conversion_error (s : string) : exn :=
  ValueError ("could not convert string to float: '" ++ s ++ "'").

Section WithFloat.

Variable float_of_str : string -> option Q.

Lemma float_cell_text (s : string) :
  float_cell float_of_str (Some s) =
    match float_of_str s with
    | Some q => Ok q
    | None => Raise (conversion_error s)
    end.
Proof. reflexivity. Qed.

(** A required key that passed the check is read without [KeyError], and
    [row.get] sees the same cell. *)
Lemma required_cell (required : list string) (r : row) (k : string) :
  missing_fields required r = [] -> In k required ->
  subscript r k = Ok (row_get k r).
Proof.
  intros Hm Hk. destruct (missing_fields_subscript _ _ _ Hm Hk) as [c [Hs Hg]].
  unfold row_get. rewrite Hg. exact Hs.
Qed.

Ltac required_cells Hm :=
  repeat match goal with
         | |- context [subscript ?r ?k] =>
             rewrite (required_cell _ r k Hm) by (cbn; tauto)
         end;
  cbn [rbind].

Ltac float_case :=
  match goal with
  | |- context [float_cell float_of_str ?c] =>
      let q := fresh "q" in
      let s := fresh "s" in
      destruct c as [s |]; cbn [float_cell rbind];
      [destruct (float_of_str s) as [q |]; cbn [rbind] |]
  end.

Lemma _add_bus_not_missing (r : row) (m : SystemModel) (detail : string) :
  missing_fields REQUIRED_BUS_FIELDS r = [] ->
  snd (_add_bus float_of_str r m) <>
    Raise (ValueError ("Bus row missing required fields: " ++ detail)).
Proof.
  intros Hm. unfold _add_bus. rewrite Hm. unfold bind at 1. unfold lift.
  required_cells Hm. float_case; cbn [snd]; discriminate.
Qed.

Lemma _add_line_not_missing (r : row) (m : SystemModel) (detail : string) :
  missing_fields REQUIRED_LINE_FIELDS r = [] ->
  snd (_add_line float_of_str r m) <>
    Raise (ValueError ("Line row missing required fields: " ++ detail)).
Proof.
  intros Hm. unfold _add_line. rewrite Hm. unfold bind at 1. unfold lift.
  required_cells Hm.
  float_case; cbn [snd]; try discriminate.
  float_case; cbn [snd]; try discriminate.
  unfold optional_float, row_get, subscript.
  destruct (dict_get "length" r) as [[[| a len] |] |];
    cbn [truthy rbind snd float_cell]; try discriminate.
  destruct (float_of_str (String a len)); cbn [rbind snd]; discriminate.
Qed.

Lemma _add_transformer_not_missing (r : row) (m : SystemModel) (detail : string) :
  missing_fields REQUIRED_TX_FIELDS r = [] ->
  snd (_add_transformer float_of_str r m) <>
    Raise (ValueError ("Transformer row missing required fields: " ++ detail)).
Proof.
  intros Hm. unfold _add_transformer. rewrite Hm. unfold bind at 1. unfold lift.
  required_cells Hm.
  float_case; cbn [snd]; try discriminate.
  float_case; cbn [snd]; try discriminate.
  float_case; cbn [snd]; try discriminate.
  unfold optional_float, row_get, subscript.
  destruct (dict_get "tap" r) as [[[| a tp] |] |];
    cbn [truthy rbind snd float_cell];
    try (destruct (float_of_str (String a tp)); cbn [rbind snd]; try discriminate);
    rewrite Transformer_new_ok; unfold bind, get, raise, modify; cbn [tx_id];
    (destruct (dict_mem _ (transformers m)); cbn [snd]; discriminate).
Qed.

Lemma _add_bus_blank (r : row) (m : SystemModel) :
  float_of_str "" = None ->
  missing_fields REQUIRED_BUS_FIELDS r = [] ->
  row_get "kv" r = Some "" ->
  _add_bus float_of_str r m = (m, Raise (conversion_error "")).
Proof.
  intros Hblank Hm Hkv. unfold _add_bus. rewrite Hm. unfold bind at 1. unfold lift.
  required_cells Hm. rewrite Hkv, float_cell_text, Hblank. reflexivity.
Qed.

Lemma _add_line_blank (r : row) (m : SystemModel) (s1 s2 : string) :
  float_of_str "" = None ->
  missing_fields REQUIRED_LINE_FIELDS r = [] ->
  row_get "r_ohm" r = Some s1 -> row_get "x_ohm" r = Some s2 ->
  s1 = "" \/ s2 = "" ->
  exists s, float_of_str s = None /\
            _add_line float_of_str r m = (m, Raise (conversion_error s)).
Proof.
  intros Hblank Hm H1 H2 Hb. unfold _add_line. rewrite Hm.
  unfold bind at 1. unfold lift. required_cells Hm.
  rewrite H1, H2, !float_cell_text.
  destruct (float_of_str s1) as [q1 |] eqn:E1; cbn [rbind];
    [| exists s1; split; [exact E1 | reflexivity]].
  destruct (float_of_str s2) as [q2 |] eqn:E2; cbn [rbind];
    [| exists s2; split; [exact E2 | reflexivity]].
  exfalso. destruct Hb as [-> | ->]; congruence.
Qed.

Lemma _add_transformer_blank (r : row) (m : SystemModel) (s1 s2 s3 : string) :
  float_of_str "" = None ->
  missing_fields REQUIRED_TX_FIELDS r = [] ->
  row_get "primary_kv" r = Some s1 -> row_get "secondary_kv" r = Some s2 ->
  row_get "z_percent" r = Some s3 ->
  s1 = "" \/ s2 = "" \/ s3 = "" ->
  exists s, float_of_str s = None /\
            _add_transformer float_of_str r m = (m, Raise (conversion_error s)).
Proof.
  intros Hblank Hm H1 H2 H3 Hb. unfold _add_transformer. rewrite Hm.
  unfold bind at 1. unfold lift. required_cells Hm.
  rewrite H1, H2, H3, !float_cell_text.
  destruct (float_of_str s1) as [q1 |] eqn:E1; cbn [rbind];
    [| exists s1; split; [exact E1 | reflexivity]].
  destruct (float_of_str s2) as [q2 |] eqn:E2; cbn [rbind];
    [| exists s2; split; [exact E2 | reflexivity]].
  destruct (float_of_str s3) as [q3 |] eqn:E3; cbn [rbind];
    [| exists s3; split; [exact E3 | reflexivity]].
  exfalso. destruct Hb as [-> | [-> | ->]]; congruence.
Qed.

End WithFloat.

End CsvRequired.

(* ===================================================================== *)
(** * Sample inputs *)
(* ===================================================================== *)

Module Samples.

Import Core PyVal CsvReader.

(** [type,bus_id,kv,zone] / [bus,B1,4.16,] *)
Definition csv_one_bus : csv_file :=
  mkCsv (Some ["type"; "bus_id"; "kv"; "zone"]) [["bus"; "B1"; "4.16"; ""]].

(** [{"buses": [{"bus_id": "B1", "kv": 4.16}]}] *)
Definition json_one_bus : pyval :=
  VDict [("buses", VList [VDict [("bus_id", VStr "B1"); ("kv", VNum 4.16)]])].

Definition line_header : list string :=
  ["type"; "line_id"; "from_bus"; "to_bus"; "r_ohm"; "x_ohm"; "length"; "linecode"].

Definition tx_header : list string :=
  ["type"; "tx_id"; "primary_bus"; "secondary_bus"; "primary_kv"; "secondary_kv";
   "z_percent"; "tap"].

(** One transformer between two buses the file does not define. *)
Definition csv_dangling_tx : csv_file :=
  mkCsv (Some tx_header)
        [["transformer"; "T1"; "B1"; "B2"; "13.8"; "4.16"; "5.75"; ""]].

(** The same transformer twice. *)
Definition csv_duplicate_tx : csv_file :=
  mkCsv (Some tx_header)
        [["transformer"; "T1"; "B1"; "B2"; "13.8"; "4.16"; "5.75"; ""];
         ["transformer"; "T1"; "B1"; "B2"; "13.8"; "4.16"; "5.75"; ""]].

(** A row of a type the loader does not know. *)
Definition csv_unknown_type : csv_file :=
  mkCsv (Some ["type"; "bus_id"; "kv"]) [["switch"; "S1"; "4.16"]].

(** [str(v)] of a value that is not a string, for the sample runs. *)
Definition type_repr (v : pyval) : string := "<" ++ type_name v ++ ">".

End Samples.

(* ===================================================================== *)
(** * The loaders and the validator: the stated contracts *)
(* ===================================================================== *)

Module LoaderClaims.

Import Core PyVal CsvReader PyFacts CoreProps CsvProps CsvRequired Samples.

(** C4 as the code has it.  [validate] returns normally exactly when every
    bus reference of every line and transformer is a key of the bus mapping;
    on a violation it raises the built-in [ValueError], with a message that
    names the offending line or transformer id and the missing bus id; it
    leaves the model as it was; and a loader whose [validate] call raises
    ends with that exception, so the caller gets no model. *)
Theorem validate_contract (float_of_str : string -> option Q) :
  (forall m, snd (validate m) = Ok tt <-> refs_ok m)
  /\ (forall m, ~ refs_ok m ->
        exists e, snd (validate m) = Raise e /\ dangling_report m e)
  /\ (forall m, fst (validate m) = m)
  /\ (forall f names path built e,
        fieldnames f = Some names -> str_mem "type" names = true ->
        for_ (DictReader names (records f)) (add_row float_of_str) empty_model
          = (built, Ok tt) ->
        snd (validate built) = Raise e ->
        load float_of_str (Some f) path = Raise e).
Proof.
  split; [exact validate_ok_iff |].
  split.
  { intros m Hbad. destruct (snd (validate m)) as [[] | e] eqn:Hv.
    - exfalso. apply Hbad, validate_ok_iff, Hv.
    - exists e. split; [reflexivity | exact (validate_raise_report m e Hv)]. }
  split; [exact validate_frame |].
  intros f names path built e Hn Ht Hrows Hv.
  rewrite (load_eq float_of_str f names path Hn Ht), Hrows, Hv. reflexivity.
Qed.

Lemma validate_contract_witness :
  load Str.decimal_float (Some csv_dangling_tx) "net.csv" =
    Raise (ValueError "Transformer 'T1' references unknown primary_bus 'B1'.").
Proof.
  eapply (proj2 (proj2 (proj2 (validate_contract Str.decimal_float)))).
  - reflexivity.
  - reflexivity.
  - vm_compute. reflexivity.
  - vm_compute. reflexivity.
Defined.

(** C10. The required-field check of the CSV loader looks at the header
    only: for a row of a file whose header has every required column of the
    row's type, no missing-required-field error is raised, also when a
    required cell is blank; a blank required numeric cell makes the row fail
    in [float] instead. *)
Theorem csv_required_check_reads_header
    (float_of_str : string -> option Q) (names cells : list string)
    (m : SystemModel) :
  float_of_str "" = None ->
  let r := row_dict names cells in
  ((forall f, In f REQUIRED_BUS_FIELDS -> In f names) ->
     (forall detail,
        snd (_add_bus float_of_str r m) <>
          Raise (ValueError ("Bus row missing required fields: " ++ detail)))
     /\ (row_get "kv" r = Some "" ->
           _add_bus float_of_str r m = (m, Raise (conversion_error ""))))
  /\
  ((forall f, In f REQUIRED_LINE_FIELDS -> In f names) ->
     (forall detail,
        snd (_add_line float_of_str r m) <>
          Raise (ValueError ("Line row missing required fields: " ++ detail)))
     /\ (forall s1 s2,
           row_get "r_ohm" r = Some s1 -> row_get "x_ohm" r = Some s2 ->
           s1 = "" \/ s2 = "" ->
           exists s, float_of_str s = None /\
                     _add_line float_of_str r m = (m, Raise (conversion_error s))))
  /\
  ((forall f, In f REQUIRED_TX_FIELDS -> In f names) ->
     (forall detail,
        snd (_add_transformer float_of_str r m) <>
          Raise (ValueError ("Transformer row missing required fields: " ++ detail)))
     /\ (forall s1 s2 s3,
           row_get "primary_kv" r = Some s1 -> row_get "secondary_kv" r = Some s2 ->
           row_get "z_percent" r = Some s3 ->
           s1 = "" \/ s2 = "" \/ s3 = "" ->
           exists s, float_of_str s = None /\
                     _add_transformer float_of_str r m
                       = (m, Raise (conversion_error s)))).
Proof.
  intros Hblank r. repeat split.
  - intros detail. apply _add_bus_not_missing, missing_fields_header. assumption.
  - intros Hkv. apply _add_bus_blank;
      [exact Hblank | apply missing_fields_header; assumption | exact Hkv].
  - intros detail. apply _add_line_not_missing, missing_fields_header. assumption.
  - intros s1 s2 H1 H2 Hb. apply (_add_line_blank float_of_str r m s1 s2);
      [exact Hblank | apply missing_fields_header; assumption | assumption ..].
  - intros detail. apply _add_transformer_not_missing, missing_fields_header.
    assumption.
  - intros s1 s2 s3 H1 H2 H3 Hb.
    apply (_add_transformer_blank float_of_str r m s1 s2 s3);
      [exact Hblank | apply missing_fields_header; assumption | assumption ..].
Qed.

Lemma csv_required_check_reads_header_witness :
  Str.decimal_float "" = None /\
  _add_bus Str.decimal_float
    (row_dict ["type"; "bus_id"; "kv"; "zone"] ["bus"; "B1"; ""; ""]) empty_model
  = (empty_model, Raise (conversion_error "")).
Proof.
  split; [reflexivity |].
  apply (proj1 (csv_required_check_reads_header Str.decimal_float
                  ["type"; "bus_id"; "kv"; "zone"] ["bus"; "B1"; ""; ""]
                  empty_model eq_refl)).
  - cbn. intros f [<- | [<- | []]]; tauto.
  - reflexivity.
Defined.

(** C7, on the code.  A well-formed bus row or record and a well-formed line
    row end in the [TypeError] of the dataclass constructor, which has no
    [zone], [length] or [linecode] field; the transformer path, whose
    dataclass declares [tap], stores the row with [tap] absent. *)
Theorem optional_fields_on_samples :
  _add_bus Str.decimal_float
    (row_dict ["type"; "bus_id"; "kv"; "zone"] ["bus"; "B1"; "4.16"; ""]) empty_model
  = (empty_model,
     Raise (TypeError "Bus.__init__() got an unexpected keyword argument 'zone'"))
  /\
  _add_line Str.decimal_float
    (row_dict line_header ["line"; "L1"; "B1"; "B2"; "0.1"; "0.2"; ""; ""]) empty_model
  = (empty_model,
     Raise (TypeError "Line.__init__() got an unexpected keyword argument 'length'"))
  /\
  JsonReader.add_bus Str.decimal_float type_repr
    (VDict [("bus_id", VStr "B1"); ("kv", VNum 4.16)]) empty_model
  = (empty_model,
     Raise (TypeError "Bus.__init__() got an unexpected keyword argument 'zone'"))
  /\
  _add_transformer Str.decimal_float
    (row_dict tx_header ["transformer"; "T1"; "B1"; "B2"; "13.8"; "4.16"; "5.75"; ""])
    empty_model
  = (mkSystemModel [] []
       [("T1", mkTransformer "T1" "B1" "B2" (138 # 10) (416 # 100) (575 # 100) None)],
     Ok tt).
Proof. repeat split; vm_compute; reflexivity. Qed.

(** C5, on the code.  The one-bus topology, written as CSV and as JSON: both
    loaders end in the constructor's [TypeError]; neither returns a model. *)
Theorem loaders_on_one_bus :
  load Str.decimal_float (Some csv_one_bus) "net.csv"
  = Raise (TypeError "Bus.__init__() got an unexpected keyword argument 'zone'")
  /\
  JsonReader.load Str.decimal_float type_repr (Some json_one_bus) "net.json"
  = Raise (TypeError "Bus.__init__() got an unexpected keyword argument 'zone'").
Proof. split; vm_compute; reflexivity. Qed.

(** Whatever the file, a model either loader returns is the empty one. *)
Lemma loaders_return_only_empty
    (float_of_str : string -> option Q) (repr : pyval -> string)
    (path : string) (model : SystemModel) :
  (forall file, load float_of_str file path = Ok model -> model = empty_model)
  /\ (forall file, JsonReader.load float_of_str repr file path = Ok model ->
                   model = empty_model).
Proof.
  split; intros file H.
  - exact (CsvProps.csv_load_only_empty float_of_str file path model H).
  - exact (JsonProps.json_load_only_empty float_of_str repr file path model H).
Qed.

End LoaderClaims.

(* ===================================================================== *)
(** * The DER registry: export payload and reconstruction *)
(* ===================================================================== *)

Module DerProps.

Import PyVal Der.

(** The payload with its [type] entry also given under [der_type], the key
    [from_dict] reads the DER type from. *)
Definition with_der_type (payload : pyval) : pyval :=
  match payload with
  | VDict d =>
      match dict_get "type" d with
      | Some t => VDict (("der_type", t) :: d)
      | None => payload
      end
  | _ => payload
  end.

(** A PV inverter on bus 634 with a two-point voltage curve. *)
Definition sample_der : DER :=
  mkDER "pv1" (VStr "PV") (VStr "634") (VNum 0.5) (VNum 4.16) (VNum 0.4)
        (VNum 0.0) VNone
        (mkREGC (VStr "REGC_A") (VNum 1.2) VNone (VNum 0.01) (VNum 0.12)
                (VStr "reactive") (VNum 20.0) (VNum 200.0) (VNum 2.0) (VNum (-2.0)))
        (mkREEC (VStr "REEC_A") (VNum 1.0) (VNum 0.0) (VNum 7.5) (VNum 0.9)
                (VNum 1.1) (VNum 1.1) (VNum (-1.1)) (VNum 1.0) (VNum 0.0)
                (VNum 0) (VNum 1) (VNum 0))
        (mkRideThrough [mkVRT (VNum 0.5) (VNum 0.16); mkVRT (VNum 0.88) (VNum 2.0)]
                       [mkFRT (VNum 57.0) (VNum 0.16)])
        (VDict []).

Lemma rmap_parse_vrt (l : list VRTPoint) :
  rmap parse_vrt (map asdict_vrt l) = Ok l.
Proof.
  induction l as [| [v t] l IH]; [reflexivity |].
  cbn [map rmap]. rewrite IH. reflexivity.
Qed.

Lemma rmap_parse_frt (l : list FRTPoint) :
  rmap parse_frt (map asdict_frt l) = Ok l.
Proof.
  induction l as [| [f t] l IH]; [reflexivity |].
  cbn [map rmap]. rewrite IH. reflexivity.
Qed.

(** The payload has no [der_type] entry, which is the first thing
    [from_dict] reads. *)
Lemma build_payload (d : DER) (id : string) :
  build id (to_sim_payload d) = Raise (KeyError "der_type").
Proof. reflexivity. Qed.

Lemma from_dict_payload (d : DER) (id : string) (st : DERStorage) :
  from_dict id (to_sim_payload d) st = (st, Raise (KeyError "der_type")).
Proof. reflexivity. Qed.

(** The DER [build] makes of the re-keyed payload of [d]: [d] itself, under
    the new id, with the fault limit resolved and the metadata dropped. *)
Definition rebuilt (id : string) (d : DER) : DER :=
  mkDER id (der_type d) (connection_bus d) (mva_rating d) (kv_ll d) (pref_MW d)
        (qref_MVAR d) (power_factor d)
        (mkREGC (regc_model (regc d)) (imax (regc d)) (effective_imax_fault (regc d))
                (r_source_pu (regc d)) (x_source_pu (regc d)) (iq_priority (regc d))
                (kp_pll (regc d)) (ki_pll (regc d)) (wmax (regc d)) (wmin (regc d)))
        (reec d) (ride_through d) (VDict []).

Lemma build_with_der_type (d : DER) (id : string) :
  build id (with_der_type (to_sim_payload d)) = Ok (rebuilt id d).
Proof.
  destruct d as [i ty cb mva kv p q pf g e [vrt frt] md]. destruct e.
  unfold build, with_der_type, to_sim_payload, rebuilt.
  cbn -[rmap map]. rewrite rmap_parse_vrt. cbn -[rmap map].
  rewrite rmap_parse_frt. reflexivity.
Qed.

Lemma validate_rebuilt (d : DER) (id : string) :
  validate (rebuilt id d) = validate d.
Proof. reflexivity. Qed.

(** C6 as the code has it.  For a DER that passes [validate], [from_dict]
    cannot read the export payload back as it is: the payload names the DER
    type [type], [from_dict] looks for [der_type] and raises [KeyError].  With
    the type entry supplied under [der_type], reconstruction succeeds, stores
    the DER and yields one with identical [pref_MW], identical [regc.imax] and
    ride-through curves of identical lengths. *)
Theorem payload_roundtrip_rekeyed (d : DER) (id : string) (st : DERStorage) :
  validate d = Ok tt ->
  from_dict id (to_sim_payload d) st = (st, Raise (KeyError "der_type"))
  /\ exists d',
       from_dict id (with_der_type (to_sim_payload d)) st = (dict_set id d' st, Ok d')
       /\ pref_MW d' = pref_MW d
       /\ imax (regc d') = imax (regc d)
       /\ length (vrt_curve (ride_through d')) = length (vrt_curve (ride_through d))
       /\ length (frt_curve (ride_through d')) = length (frt_curve (ride_through d)).
Proof.
  intros Hv. split; [apply from_dict_payload |].
  exists (rebuilt id d). split; [| repeat split].
  unfold from_dict, bind, lift, modify, ret.
  rewrite build_with_der_type, validate_rebuilt, Hv. reflexivity.
Qed.

Lemma payload_roundtrip_rekeyed_witness :
  validate sample_der = Ok tt /\
  exists d',
    from_dict "pv1" (with_der_type (to_sim_payload sample_der)) []
      = ([("pv1", d')], Ok d')
    /\ pref_MW d' = VNum 0.4.
Proof.
  split; [reflexivity |].
  destruct (proj2 (payload_roundtrip_rekeyed sample_der "pv1" [] eq_refl))
    as [d' [Hd [Hp _]]].
  exists d'. split; [exact Hd | exact Hp].
Defined.

(** The claim as stated fails on a stored DER: reconstruction from its
    export payload raises instead of yielding a DER. *)
Lemma payload_roundtrip_fails :
  validate sample_der = Ok tt /\
  from_dict "pv1" (to_sim_payload sample_der) [("pv1", sample_der)]
    = ([("pv1", sample_der)], Raise (KeyError "der_type")) /\
  ~ (exists d', snd (from_dict "pv1" (to_sim_payload sample_der)
                       [("pv1", sample_der)]) = Ok d').
Proof.
  split; [reflexivity |]. split; [reflexivity |].
  intros [d' H]. discriminate H.
Qed.

End DerProps.

(* ===================================================================== *)
(** * How failures reach the caller *)
(* ===================================================================== *)

Module ErrorKinds.

Import Core PyVal PyFacts CoreProps CsvProps Samples.

(** The failure conditions the design distinguishes. *)
Inductive condition : Type :=
| FileNotFound
| SchemaError
| DuplicateIdError
| ReferentialIntegrityError
| UnsupportedFormatError
| ExternalSolverError
| InvalidConfigError
| InvalidEnclosureType
| NotFoundError.

(** A solver whose compile step reported error 1. *)
Definition failed_compile : DssReader.dss_circuit :=
  DssReader.mkDssCircuit 1 "Redirect file not found" [] (fun _ => None) [] [].

(** The sample DER with a rating of zero. *)
Definition zero_rating_der : Der.DER :=
  let d := DerProps.sample_der in
  Der.mkDER (Der.der_id d) (Der.der_type d) (Der.connection_bus d) (VNum 0)
            (Der.kv_ll d) (Der.pref_MW d) (Der.qref_MVAR d) (Der.power_factor d)
            (Der.regc d) (Der.reec d) (Der.ride_through d) (Der.metadata d).

(** One run of the code per condition, and the exception class the caller
    receives from it. *)
Definition reported_class (c : condition) : option exn_class :=
  match c with
  | FileNotFound =>
      raised_class (CsvReader.load Str.decimal_float None "missing.csv")
  | SchemaError =>
      raised_class (CsvReader.load Str.decimal_float (Some csv_unknown_type) "net.csv")
  | DuplicateIdError =>
      raised_class (CsvReader.load Str.decimal_float (Some csv_duplicate_tx) "net.csv")
  | ReferentialIntegrityError =>
      raised_class (CsvReader.load Str.decimal_float (Some csv_dangling_tx) "net.csv")
  | UnsupportedFormatError =>
      raised_class (Factory.load_system_model Str.decimal_float type_repr
                      (fun _ => None) (fun _ => None) true (fun _ => None)
                      "net.xml" "xml")
  | ExternalSolverError =>
      raised_class (DssReader.load true (Some failed_compile) "master.dss")
  | InvalidConfigError =>
      raised_class (Der.validate zero_rating_der)
  | InvalidEnclosureType =>
      raised_class (ArcFlash.ieee1584_arcing_current 10 4.16 32 "XYZ")
  | NotFoundError =>
      raised_class (snd (Der.get "pv9" [("pv1", DerProps.sample_der)]))
  end.


Lemma reported_class_table :
  map reported_class
      [FileNotFound; SchemaError; DuplicateIdError; ReferentialIntegrityError;
       UnsupportedFormatError; ExternalSolverError; InvalidConfigError;
       InvalidEnclosureType; NotFoundError]
  = [Some CFileNotFoundError; Some CValueError; Some CValueError; Some CValueError;
     Some CValueError; Some CRuntimeError; Some CValueError;
     Some CKeyError; Some CKeyError].
Proof.
  cbn [map reported_class].
  replace (raised_class (ArcFlash.ieee1584_arcing_current 10 4.16 32 "XYZ"))
    with (Some CKeyError)
    by (unfold ArcFlash.ieee1584_arcing_current;
        rewrite ArcFlashProps.COEFFS_lookup; reflexivity).
  repeat (f_equal; [vm_compute; reflexivity |]).
  reflexivity.
Qed.


(** What the design asks of a failure it names: a kind of its own, one no
    other condition is reported with. *)
Definition own_kind (c : condition) : Prop :=
  forall c', c' <> c -> reported_class c' <> reported_class c.

(** The model the CSV loader has built from [csv_dangling_tx] when it calls
    [validate]: one transformer and no bus. *)
Definition dangling_model : SystemModel :=
  mkSystemModel [] [] [("T1", mkTransformer "T1" "B1" "B2" 13.8 4.16 5.75 None)].

(** The contract of [validate] fails as stated on the kind of the error.  A
    transformer on an undefined bus makes [validate] raise the built-in
    [ValueError], and that is what the caller of the loader receives; an
    unknown row type, a schema failure, reaches the caller with the same
    class.  The code has no referential-integrity kind. *)
Lemma dangling_reference_is_ValueError :
  ~ refs_ok dangling_model
  /\ snd (validate dangling_model)
     = Raise (ValueError "Transformer 'T1' references unknown primary_bus 'B1'.")
  /\ CsvReader.load Str.decimal_float (Some csv_dangling_tx) "net.csv"
     = Raise (ValueError "Transformer 'T1' references unknown primary_bus 'B1'.")
  /\ raised_class (CsvReader.load Str.decimal_float (Some csv_unknown_type) "net.csv")
     = Some CValueError
  /\ ~ own_kind ReferentialIntegrityError.
Proof.
  split.
  { intros [_ Htx].
    destruct (Htx (mkTransformer "T1" "B1" "B2" 13.8 4.16 5.75 None)) as [[] _].
    left; reflexivity. }
  split; [vm_compute; reflexivity |].
  split; [vm_compute; reflexivity |].
  split; [vm_compute; reflexivity |].
  intros H. apply (H SchemaError); [discriminate |].
  vm_compute. reflexivity.
Qed.

(** The enclosure check fails as stated on the kind of the error.  An
    enclosure outside the table makes the lookup in [COEFFS] raise the
    built-in [KeyError], the class a registry miss is reported with too.  The
    code has no invalid-enclosure kind. *)
Lemma invalid_enclosure_is_KeyError :
  ArcFlash.ieee1584_arcing_current 10 4.16 32 "XYZ" = Raise (KeyError "XYZ")
  /\ snd (Der.get "pv9" [("pv1", DerProps.sample_der)]) = Raise (KeyError "pv9")
  /\ ~ own_kind InvalidEnclosureType.
Proof.
  assert (Hx : ArcFlash.ieee1584_arcing_current 10 4.16 32 "XYZ"
               = Raise (KeyError "XYZ")).
  { unfold ArcFlash.ieee1584_arcing_current.
    rewrite ArcFlashProps.COEFFS_lookup. reflexivity. }
  split; [exact Hx |].
  split; [reflexivity |].
  intros H. apply (H NotFoundError); [discriminate |].
  cbn [reported_class]. rewrite Hx. reflexivity.
Qed.

End ErrorKinds.

Module ErrorClasses.

Import Core PyVal PyFacts CoreProps CsvProps Samples.


Section WithConversions.

Variable float_of_str : string -> option Q.
Variable repr : pyval -> string.










End WithConversions.




End ErrorClasses.

(* ===================================================================== *)
(** * Failures of single records: JSON keys, duplicate ids, DER ranges *)
(* ===================================================================== *)

Module RecordErrors.

Import Core PyVal PyFacts CoreProps CsvReader CsvProps CsvRequired.




Section WithConversions.

Variable float_of_str : string -> option Q.
Variable repr : pyval -> string.








Ltac required_cells Hm :=
  repeat match goal with
         | |- context [subscript ?r ?k] =>
             rewrite (required_cell _ r k Hm) by (cbn; tauto)
         end;
  cbn [rbind].

Ltac float_case :=
  match goal with
  | |- context [float_cell float_of_str ?c] =>
      let q := fresh "q" in
      let s := fresh "s" in
      destruct c as [s |]; cbn [float_cell rbind];
      [destruct (float_of_str s) as [q |]; cbn [rbind] |]
  end.



End WithConversions.

(** ** [DER.validate] on numeric fields *)




End RecordErrors.

Module ErrorClaims.

Import Core PyVal PyFacts CoreProps ErrorClasses RecordErrors Samples.




End ErrorClaims.

(* ===================================================================== *)
(** * PPE_update.py, continued: the limit table and the plotted sweep *)
(* ===================================================================== *)

Module ArcFlashSweep.

Import ArcFlash PyVal.

Local Open Scope R_scope.

(** The limit table, in cal/cm^2. *)
Definition PPE_LIMITS : dict Q :=
  [ ("PPE Category 1", 4%Q);
    ("PPE Category 2", 8%Q);
    ("PPE Category 3", 25%Q);
    ("PPE Category 4", 40%Q) ].

(** [np.linspace(start, stop, num)]: [num] evenly spaced samples, the first
    at [start], the last at [stop]. *)
Definition linspace (start stop : R) (num : nat) : list R :=
  map (fun i => start + INR i * ((stop - start) / INR (num - 1))) (seq 0 num).

(** Elementwise [energies <= ppe_limit] and [energies > ppe_limit]. *)
Definition le_mask (xs : list R) (limit : R) : list bool :=
  map (fun x => if Rle_dec x limit then true else false) xs.

Definition gt_mask (xs : list R) (limit : R) : list bool :=
  map (fun x => if Rgt_dec x limit then true else false) xs.

(** The arrays [plot_arcflash_ppe] computes before it draws, over the range
    [Ibf_range] of bolted fault currents: the arcing currents, the energies,
    and the two masks that shade the curve. *)
Definition sweep (Ibf_range : list R)
    (V_kV gap_mm clearing_time_s working_distance_mm : R)
    (enclosure : string) (ppe_limit : R)
  : result (list R * list R * list bool * list bool) :=
  Ia_vals <~ rmap (fun i => ieee1584_arcing_current i V_kV gap_mm enclosure)
                  Ibf_range ;;
  energies <~ rmap (fun Ia => ieee1584_incident_energy Ia V_kV gap_mm
                                clearing_time_s working_distance_mm)
                   Ia_vals ;;
  let safe := le_mask energies ppe_limit in
  let unsafe := gt_mask energies ppe_limit in
  Ok (Ia_vals, energies, safe, unsafe).

Definition plot_arcflash_ppe_arrays
    (V_kV gap_mm clearing_time_s working_distance_mm : R)
    (enclosure : string) (ppe_limit : R) :=
  sweep (linspace 1 50 300) V_kV gap_mm clearing_time_s working_distance_mm
        enclosure ppe_limit.

End ArcFlashSweep.

(* ===================================================================== *)
(** * The arc-flash formulas as functions of their arguments *)
(* ===================================================================== *)

Module ArcFlashExtra.

Import ArcFlash ArcFlashProps ArcFlashSweep PyVal.

Local Open Scope R_scope.

Lemma ln_10_pos : 0 < ln 10.
Proof. rewrite <- ln_1. apply ln_increasing; lra. Qed.

Lemma pow10_log10 (x : R) : 0 < x -> pow10 (log10 x) = x.
Proof.
  intros Hx. unfold pow10, log10, Rpower.
  replace (ln x / ln 10 * ln 10) with (ln x) by (field; exact ln_10_neq_0).
  apply exp_ln. exact Hx.
Qed.

Lemma pow10_plus (x y : R) : pow10 (x + y) = pow10 x * pow10 y.
Proof. unfold pow10. apply Rpower_plus. Qed.

Lemma pow10_scaled_log10 (k x : R) : pow10 (k * log10 x) = Rpower x k.
Proof.
  unfold pow10, log10, Rpower. f_equal. field. exact ln_10_neq_0.
Qed.

Lemma pow10_le (x y : R) : x <= y -> pow10 x <= pow10 y.
Proof.
  intros [Hlt | ->]; [| right; reflexivity].
  left. unfold pow10, Rpower. apply exp_increasing.
  apply Rmult_lt_compat_r; [exact ln_10_pos | exact Hlt].
Qed.

Lemma pow10_lt (x y : R) : x < y -> pow10 x < pow10 y.
Proof.
  intros Hlt. unfold pow10, Rpower. apply exp_increasing.
  apply Rmult_lt_compat_r; [exact ln_10_pos | exact Hlt].
Qed.

Lemma log10_le (x y : R) : 0 < x -> x <= y -> log10 x <= log10 y.
Proof.
  intros Hx [Hlt | ->]; [| right; reflexivity].
  left. unfold log10. apply Rmult_lt_compat_r.
  - apply Rinv_0_lt_compat. exact ln_10_pos.
  - apply ln_increasing; assumption.
Qed.

Lemma log10_lt (x y : R) : 0 < x -> x < y -> log10 x < log10 y.
Proof.
  intros Hx Hlt. unfold log10. apply Rmult_lt_compat_r.
  - apply Rinv_0_lt_compat. exact ln_10_pos.
  - apply ln_increasing; assumption.
Qed.

(** Every triple of the table has the same positive exponents. *)
Lemma COEFFS_exponents (enclosure : string) (k1 k2 k3 : R) :
  subscript COEFFS enclosure = Ok (k1, k2, k3) ->
  (k1 = -0.153 \/ k1 = -0.792) /\ k2 = 0.662 /\ k3 = 0.0966.
Proof.
  rewrite COEFFS_lookup.
  destruct (String.eqb enclosure "VCB"); [intros [= <- <- <-]; auto |].
  destruct (String.eqb enclosure "HCB"); [intros [= <- <- <-]; auto |].
  destruct (String.eqb enclosure "VOA"); [intros [= <- <- <-]; auto |].
  destruct (String.eqb enclosure "HOA"); [intros [= <- <- <-]; auto |].
  discriminate.
Qed.

Lemma arcing_current_eq (I_bf V_kV gap_mm : R) (enclosure : string) (k1 k2 k3 : R) :
  subscript COEFFS enclosure = Ok (k1, k2, k3) ->
  ieee1584_arcing_current I_bf V_kV gap_mm enclosure =
    Ok (pow10 (k1 + k2 * log10 I_bf + k3 * log10 (V_kV * 1000) + 0.00402 * gap_mm)).
Proof. intros H. unfold ieee1584_arcing_current. rewrite H. reflexivity. Qed.

(** The arcing current is a power law: [10^k1 * I_bf^k2 * (1000 V_kV)^k3 *
    10^(0.00402 gap_mm)], with the triple the table holds for the enclosure. *)
Theorem arcing_current_power_law
    (I_bf V_kV gap_mm : R) (enclosure : string) (k1 k2 k3 : R) :
  0 < I_bf -> 0 < V_kV ->
  subscript COEFFS enclosure = Ok (k1, k2, k3) ->
  ieee1584_arcing_current I_bf V_kV gap_mm enclosure =
    Ok (Rpower 10 k1 * Rpower I_bf k2 * Rpower (V_kV * 1000) k3
        * Rpower 10 (0.00402 * gap_mm)).
Proof.
  intros _ _ Hk. rewrite (arcing_current_eq _ _ _ _ _ _ _ Hk). f_equal.
  rewrite !pow10_plus, !pow10_scaled_log10. reflexivity.
Qed.

Lemma arcing_current_power_law_witness :
  ieee1584_arcing_current 10 4.16 32 "VOA" =
    Ok (Rpower 10 (-0.792) * Rpower 10 0.662 * Rpower (4.16 * 1000) 0.0966
        * Rpower 10 (0.00402 * 32)).
Proof.
  apply (arcing_current_power_law 10 4.16 32 "VOA"); [lra | lra | reflexivity].
Defined.

(** The arcing current does not decrease when the bolted fault current, the
    voltage or the gap grows, and it grows strictly with the fault current. *)
Theorem arcing_current_monotone
    (I1 I2 V1 V2 g1 g2 Ia1 Ia2 : R) (enclosure : string) :
  0 < I1 -> I1 <= I2 -> 0 < V1 -> V1 <= V2 -> g1 <= g2 ->
  ieee1584_arcing_current I1 V1 g1 enclosure = Ok Ia1 ->
  ieee1584_arcing_current I2 V2 g2 enclosure = Ok Ia2 ->
  Ia1 <= Ia2 /\ (I1 < I2 -> Ia1 < Ia2).
Proof.
  intros HI1 HI HV1 HV Hg H1 H2.
  destruct (subscript COEFFS enclosure) as [[[k1 k2] k3] | e] eqn:Hk;
    [| unfold ieee1584_arcing_current in H1; rewrite Hk in H1; discriminate].
  rewrite (arcing_current_eq _ _ _ _ _ _ _ Hk) in H1.
  rewrite (arcing_current_eq _ _ _ _ _ _ _ Hk) in H2.
  injection H1 as <-. injection H2 as <-.
  destruct (COEFFS_exponents _ _ _ _ Hk) as [_ [-> ->]].
  assert (HlI : log10 I1 <= log10 I2) by (apply log10_le; assumption).
  assert (HlV : log10 (V1 * 1000) <= log10 (V2 * 1000)) by (apply log10_le; lra).
  split.
  - apply pow10_le. lra.
  - intros Hlt. apply pow10_lt.
    assert (log10 I1 < log10 I2) by (apply log10_lt; assumption). lra.
Qed.

Lemma arcing_current_monotone_witness :
  pow10 (-0.153 + 0.662 * log10 5 + 0.0966 * log10 (4.16 * 1000) + 0.00402 * 32)
  < pow10 (-0.153 + 0.662 * log10 10 + 0.0966 * log10 (4.16 * 1000) + 0.00402 * 32).
Proof.
  apply (proj2 (arcing_current_monotone 5 10 4.16 4.16 32 32 _ _ "VCB"
                  ltac:(lra) ltac:(lra) ltac:(lra) ltac:(lra) ltac:(lra)
                  eq_refl eq_refl)).
  lra.
Defined.

(** Conductor orientation does not enter: VCB and HCB give the same arcing
    current, VOA and HOA too; and the open-air current is the fixed fraction
    [10^(-0.639)] of the in-box current, hence smaller. *)
Theorem arcing_current_by_enclosure (I_bf V_kV gap_mm : R) :
  0 < I_bf -> 0 < V_kV ->
  ieee1584_arcing_current I_bf V_kV gap_mm "HCB"
    = ieee1584_arcing_current I_bf V_kV gap_mm "VCB"
  /\ ieee1584_arcing_current I_bf V_kV gap_mm "HOA"
       = ieee1584_arcing_current I_bf V_kV gap_mm "VOA"
  /\ exists I_box I_open,
       ieee1584_arcing_current I_bf V_kV gap_mm "VCB" = Ok I_box /\
       ieee1584_arcing_current I_bf V_kV gap_mm "VOA" = Ok I_open /\
       I_open = Rpower 10 (-0.639) * I_box /\
       I_open < I_box.
Proof.
  intros _ _. split; [reflexivity |]. split; [reflexivity |].
  set (rest := 0.662 * log10 I_bf + 0.0966 * log10 (V_kV * 1000) + 0.00402 * gap_mm).
  exists (pow10 (-0.153 + rest)), (pow10 (-0.792 + rest)).
  split; [rewrite (arcing_current_eq _ _ _ "VCB" _ _ _ eq_refl); f_equal; f_equal;
          unfold rest; lra |].
  split; [rewrite (arcing_current_eq _ _ _ "VOA" _ _ _ eq_refl); f_equal; f_equal;
          unfold rest; lra |].
  split.
  - fold (pow10 (-0.639)). rewrite <- pow10_plus. f_equal. lra.
  - apply pow10_lt. lra.
Qed.

Lemma arcing_current_by_enclosure_witness :
  ieee1584_arcing_current 10 4.16 32 "HCB" = ieee1584_arcing_current 10 4.16 32 "VCB".
Proof.
  apply (proj1 (arcing_current_by_enclosure 10 4.16 32 ltac:(lra) ltac:(lra))).
Defined.

(** The function does not cap its result at the bolted fault current: the
    arcing current exceeds it exactly when
    [k1 + (k2 - 1) log10(I_bf) + k3 log10(1000 V_kV) + 0.00402 gap_mm > 0]. *)
Theorem arcing_current_above_bolted
    (I_bf V_kV gap_mm Ia : R) (enclosure : string) (k1 k2 k3 : R) :
  0 < I_bf -> 0 < V_kV ->
  subscript COEFFS enclosure = Ok (k1, k2, k3) ->
  ieee1584_arcing_current I_bf V_kV gap_mm enclosure = Ok Ia ->
  (I_bf < Ia <->
   0 < k1 + (k2 - 1) * log10 I_bf + k3 * log10 (V_kV * 1000) + 0.00402 * gap_mm).
Proof.
  intros HI _ Hk H. rewrite (arcing_current_eq _ _ _ _ _ _ _ Hk) in H.
  injection H as <-.
  set (x := k1 + k2 * log10 I_bf + k3 * log10 (V_kV * 1000) + 0.00402 * gap_mm).
  rewrite <- (pow10_log10 I_bf HI) at 1.
  split.
  - intros Hlt. destruct (Rlt_le_dec (log10 I_bf) x) as [Hx | Hx];
      [unfold x in Hx; lra |].
    apply pow10_le in Hx. lra.
  - intros Hpos. apply pow10_lt. unfold x. lra.
Qed.

Lemma arcing_current_above_bolted_witness :
  exists Ia, ieee1584_arcing_current 1 0.001 100 "VCB" = Ok Ia /\ 1 < Ia.
Proof.
  eexists. split; [reflexivity |].
  apply (proj2 (arcing_current_above_bolted 1 0.001 100 _ "VCB" _ _ _
                  ltac:(lra) ltac:(lra) eq_refl eq_refl)).
  unfold log10. replace (0.001 * 1000) with 1 by lra. rewrite ln_1. lra.
Defined.

End ArcFlashExtra.

Module IncidentEnergyExtra.

Import ArcFlash ArcFlashProps ArcFlashSweep ArcFlashExtra PyVal.

Local Open Scope R_scope.

(** The voltage correction factor and the normalised energy, as the function
    computes them. *)
Definition Cf_of (V_kV : R) : R := if Rge_dec V_kV 1.0 then 1.0 else 1.5.

Definition En_of (Ia gap_mm : R) : R :=
  pow10 (-0.555 + 1.081 * log10 Ia + 0.0011 * gap_mm).

Lemma incident_energy_eq (Ia V_kV gap_mm t wd : R) :
  wd <> 0 ->
  ieee1584_incident_energy Ia V_kV gap_mm t wd =
    Ok (Cf_of V_kV * En_of Ia gap_mm * (t / 0.2) * (610 / wd) ^ 2).
Proof.
  intros Hwd. unfold ieee1584_incident_energy, py_div.
  destruct (Req_dec_T wd 0) as [E0 | _]; [contradiction | reflexivity].
Qed.

Lemma Cf_of_pos (V_kV : R) : 0 < Cf_of V_kV.
Proof. unfold Cf_of. destruct (Rge_dec V_kV 1.0); lra. Qed.

Lemma En_of_pos (Ia gap_mm : R) : 0 < En_of Ia gap_mm.
Proof. apply pow10_pos. Qed.

Lemma En_of_le (Ia1 Ia2 gap_mm : R) :
  0 < Ia1 -> Ia1 <= Ia2 -> En_of Ia1 gap_mm <= En_of Ia2 gap_mm.
Proof.
  intros H1 H12. apply pow10_le.
  assert (log10 Ia1 <= log10 Ia2) by (apply log10_le; assumption). lra.
Qed.

(** The incident energy is proportional to the clearing time and to the
    inverse square of the working distance. *)
Theorem incident_energy_scaling (Ia V_kV gap_mm t wd c k E : R) :
  0 < Ia -> wd <> 0 -> k <> 0 ->
  ieee1584_incident_energy Ia V_kV gap_mm t wd = Ok E ->
  ieee1584_incident_energy Ia V_kV gap_mm (c * t) wd = Ok (c * E)
  /\ ieee1584_incident_energy Ia V_kV gap_mm t (k * wd) = Ok (E / k ^ 2).
Proof.
  intros _ Hwd Hk H. rewrite incident_energy_eq in H by exact Hwd.
  injection H as <-. split.
  - rewrite incident_energy_eq by exact Hwd. f_equal. field.
    split; [exact Hwd | lra].
  - rewrite incident_energy_eq by (apply Rmult_integral_contrapositive; tauto).
    f_equal. field. repeat split; (assumption || lra).
Qed.

Lemma incident_energy_scaling_witness :
  exists E,
    ieee1584_incident_energy 5 4.16 32 0.08 457 = Ok E /\
    ieee1584_incident_energy 5 4.16 32 (2 * 0.08) 457 = Ok (2 * E) /\
    ieee1584_incident_energy 5 4.16 32 0.08 (2 * 457) = Ok (E / 2 ^ 2).
Proof.
  assert (H : ieee1584_incident_energy 5 4.16 32 0.08 457 =
              Ok (Cf_of 4.16 * En_of 5 32 * (0.08 / 0.2) * (610 / 457) ^ 2))
    by (apply incident_energy_eq; lra).
  eexists. split; [exact H |].
  split.
  - apply (proj1 (incident_energy_scaling 5 4.16 32 0.08 457 2 2 _
                    ltac:(lra) ltac:(lra) ltac:(lra) H)).
  - apply (proj2 (incident_energy_scaling 5 4.16 32 0.08 457 2 2 _
                    ltac:(lra) ltac:(lra) ltac:(lra) H)).
Defined.

(** The voltage enters the incident energy only through the step at 1 kV:
    two voltages on the same side of it give the same energy, and a voltage
    below it gives 1.5 times the energy of one at or above it. *)
Theorem incident_energy_voltage_step (Ia V1 V2 gap_mm t wd E1 E2 : R) :
  0 < Ia ->
  ieee1584_incident_energy Ia V1 gap_mm t wd = Ok E1 ->
  ieee1584_incident_energy Ia V2 gap_mm t wd = Ok E2 ->
  (V1 >= 1 -> V2 >= 1 -> E1 = E2)
  /\ (V1 < 1 -> V2 < 1 -> E1 = E2)
  /\ (V1 < 1 -> V2 >= 1 -> E1 = 1.5 * E2).
Proof.
  intros _ H1 H2.
  assert (Hwd : wd <> 0).
  { intros ->. unfold ieee1584_incident_energy, py_div in H1.
    destruct (Req_dec_T 0 0) as [_ | Hne]; [discriminate | apply Hne; reflexivity]. }
  rewrite incident_energy_eq in H1, H2 by exact Hwd.
  injection H1 as <-. injection H2 as <-. unfold Cf_of.
  repeat split; intros Ha Hb;
    destruct (Rge_dec V1 1.0); destruct (Rge_dec V2 1.0); try lra.
Qed.

Lemma incident_energy_voltage_step_witness :
  exists E_low E_high,
    ieee1584_incident_energy 5 0.48 32 0.08 457 = Ok E_low /\
    ieee1584_incident_energy 5 4.16 32 0.08 457 = Ok E_high /\
    E_low = 1.5 * E_high.
Proof.
  assert (H1 : ieee1584_incident_energy 5 0.48 32 0.08 457 =
               Ok (Cf_of 0.48 * En_of 5 32 * (0.08 / 0.2) * (610 / 457) ^ 2))
    by (apply incident_energy_eq; lra).
  assert (H2 : ieee1584_incident_energy 5 4.16 32 0.08 457 =
               Ok (Cf_of 4.16 * En_of 5 32 * (0.08 / 0.2) * (610 / 457) ^ 2))
    by (apply incident_energy_eq; lra).
  eexists. eexists. split; [exact H1 |]. split; [exact H2 |].
  apply (proj2 (proj2 (incident_energy_voltage_step 5 0.48 4.16 32 0.08 457 _ _
                         ltac:(lra) H1 H2))); lra.
Defined.

End IncidentEnergyExtra.

Module SweepExtra.

Import ArcFlash ArcFlashProps ArcFlashSweep ArcFlashExtra IncidentEnergyExtra PyVal.

Local Open Scope R_scope.

Lemma rmap_all_ok {A B : Type} (f : A -> result B) (g : A -> B) (l : list A) :
  (forall x, In x l -> f x = Ok (g x)) -> rmap f l = Ok (map g l).
Proof.
  induction l as [| x l IH]; intros H; [reflexivity |].
  cbn [rmap map]. rewrite (H x) by (left; reflexivity). cbn [rbind].
  rewrite IH by (intros y Hy; apply H; right; exact Hy). reflexivity.
Qed.

Lemma gt_mask_negb (xs : list R) (limit : R) :
  gt_mask xs limit = map negb (le_mask xs limit).
Proof.
  unfold gt_mask, le_mask. rewrite map_map. apply map_ext. intros x.
  destruct (Rgt_dec x limit); destruct (Rle_dec x limit); try reflexivity; exfalso; lra.
Qed.

Lemma nth_le_mask (xs : list R) (limit : R) (n : nat) :
  (n < length xs)%nat ->
  nth n (le_mask xs limit) false = if Rle_dec (nth n xs 0) limit then true else false.
Proof.
  intros Hn. unfold le_mask.
  rewrite (nth_indep _ false ((fun x => if Rle_dec x limit then true else false) 0))
    by (rewrite length_map; exact Hn).
  apply (map_nth (fun x => if Rle_dec x limit then true else false)).
Qed.

(** The arcing current and the energy the sweep computes at one sample. *)
Definition Ia_at (k1 k2 k3 V_kV gap_mm i : R) : R :=
  pow10 (k1 + k2 * log10 i + k3 * log10 (V_kV * 1000) + 0.00402 * gap_mm).

Definition E_at (V_kV gap_mm t wd Ia : R) : R :=
  Cf_of V_kV * En_of Ia gap_mm * (t / 0.2) * (610 / wd) ^ 2.

Lemma E_at_le (V_kV gap_mm t wd Ia1 Ia2 : R) :
  0 <= t -> 0 < Ia1 -> Ia1 <= Ia2 ->
  E_at V_kV gap_mm t wd Ia1 <= E_at V_kV gap_mm t wd Ia2.
Proof.
  intros Ht H1 H12. unfold E_at.
  apply Rmult_le_compat_r; [apply pow2_ge_0 |].
  apply Rmult_le_compat_r; [apply Rmult_le_pos; [exact Ht | lra] |].
  apply Rmult_le_compat_l; [left; apply Cf_of_pos |].
  apply En_of_le; assumption.
Qed.

Lemma sweep_eq (Ibf_range : list R) (V_kV gap_mm t wd : R) (enclosure : string)
    (limit k1 k2 k3 : R) :
  subscript COEFFS enclosure = Ok (k1, k2, k3) -> wd <> 0 ->
  sweep Ibf_range V_kV gap_mm t wd enclosure limit =
    let Ia_vals := map (Ia_at k1 k2 k3 V_kV gap_mm) Ibf_range in
    let energies := map (E_at V_kV gap_mm t wd) Ia_vals in
    Ok (Ia_vals, energies, le_mask energies limit, gt_mask energies limit).
Proof.
  intros Hk Hwd. unfold sweep.
  rewrite (rmap_all_ok _ (Ia_at k1 k2 k3 V_kV gap_mm))
    by (intros i _; exact (arcing_current_eq i V_kV gap_mm enclosure k1 k2 k3 Hk)).
  cbn [rbind].
  rewrite (rmap_all_ok _ (E_at V_kV gap_mm t wd))
    by (intros Ia _; exact (incident_energy_eq Ia V_kV gap_mm t wd Hwd)).
  reflexivity.
Qed.

(** Over an increasing range of positive currents the safe mask is an
    initial segment. *)
Lemma sweep_safe_prefix (Ibf_range : list R) (V_kV gap_mm t wd : R)
    (limit k1 k2 k3 : R) (a b : nat) :
  k2 = 0.662 -> 0 <= t ->
  (forall n, (n < length Ibf_range)%nat -> 0 < nth n Ibf_range 0) ->
  (forall m n, (m <= n < length Ibf_range)%nat ->
               nth m Ibf_range 0 <= nth n Ibf_range 0) ->
  (a <= b < length Ibf_range)%nat ->
  let energies :=
    map (E_at V_kV gap_mm t wd) (map (Ia_at k1 k2 k3 V_kV gap_mm) Ibf_range) in
  nth b (le_mask energies limit) false = true ->
  nth a (le_mask energies limit) false = true.
Proof.
  intros -> Ht Hpos Hsorted Hab energies.
  assert (Hlen : length energies = length Ibf_range)
    by (unfold energies; rewrite !length_map; reflexivity).
  rewrite !nth_le_mask by lia.
  assert (Hnth : forall n, nth n energies 0 =
                           E_at V_kV gap_mm t wd
                             (Ia_at k1 0.662 k3 V_kV gap_mm (nth n Ibf_range 0)) \/
                           (length Ibf_range <= n)%nat).
  { intros n. destruct (Nat.lt_ge_cases n (length Ibf_range)) as [Hn | Hn];
      [left | right; exact Hn].
    unfold energies.
    rewrite (nth_indep _ 0 (E_at V_kV gap_mm t wd (Ia_at k1 0.662 k3 V_kV gap_mm 0)))
      by (rewrite !length_map; exact Hn).
    rewrite (map_nth (E_at V_kV gap_mm t wd)).
    rewrite (map_nth (Ia_at k1 0.662 k3 V_kV gap_mm)). reflexivity. }
  destruct (Hnth a) as [-> | Ha]; [| lia].
  destruct (Hnth b) as [-> | Hb]; [| lia].
  assert (Hle : E_at V_kV gap_mm t wd (Ia_at k1 0.662 k3 V_kV gap_mm (nth a Ibf_range 0))
                <= E_at V_kV gap_mm t wd
                     (Ia_at k1 0.662 k3 V_kV gap_mm (nth b Ibf_range 0))).
  { apply E_at_le; [exact Ht | apply pow10_pos |].
    apply pow10_le.
    assert (log10 (nth a Ibf_range 0) <= log10 (nth b Ibf_range 0))
      by (apply log10_le; [apply Hpos; lia | apply Hsorted; lia]).
    lra. }
  match goal with
  | |- (if Rle_dec ?x limit then _ else _) = true ->
       (if Rle_dec ?y limit then _ else _) = true =>
      destruct (Rle_dec x limit); [| discriminate];
      destruct (Rle_dec y limit); [reflexivity | intros _; exfalso; lra]
  end.
Qed.

Lemma length_linspace (start stop : R) (num : nat) :
  length (linspace start stop num) = num.
Proof. unfold linspace. rewrite length_map, length_seq. reflexivity. Qed.

Lemma nth_linspace (start stop : R) (num n : nat) :
  (n < num)%nat ->
  nth n (linspace start stop num) 0 = start + INR n * ((stop - start) / INR (num - 1)).
Proof.
  intros Hn. unfold linspace.
  rewrite (nth_indep _ 0 ((fun i => start + INR i * ((stop - start) / INR (num - 1)))
                            0%nat))
    by (rewrite length_map, length_seq; exact Hn).
  rewrite (map_nth (fun i => start + INR i * ((stop - start) / INR (num - 1)))).
  rewrite seq_nth by exact Hn. reflexivity.
Qed.

Lemma step_1_50_300_pos : 0 < (50 - 1) / INR (300 - 1).
Proof.
  apply Rdiv_lt_0_compat; [lra |]. apply lt_0_INR. lia.
Qed.

(** The sweep [plot_arcflash_ppe] shades.  For a known enclosure, a non-zero
    working distance and a clearing time that is not negative, it yields 300
    arcing currents, 300 energies and two masks of 300 flags; every sample is
    unsafe exactly when it is not safe; and the safe samples are an initial
    segment of the range: below a safe sample everything is safe. *)
Theorem plot_sweep_regions
    (V_kV gap_mm t wd limit : R) (enclosure : string) :
  In enclosure ["VCB"; "HCB"; "VOA"; "HOA"] -> 0 < V_kV -> 0 <= t -> wd <> 0 ->
  exists Ia_vals energies safe unsafe,
    plot_arcflash_ppe_arrays V_kV gap_mm t wd enclosure limit
      = Ok (Ia_vals, energies, safe, unsafe)
    /\ length Ia_vals = 300%nat /\ length energies = 300%nat
    /\ length safe = 300%nat /\ length unsafe = 300%nat
    /\ unsafe = map negb safe
    /\ (forall a b, (a <= b < 300)%nat ->
                    nth b safe false = true -> nth a safe false = true).
Proof.
  intros Hin _ Ht Hwd.
  assert (Hk : exists k1 k3, subscript COEFFS enclosure = Ok (k1, 0.662, k3)).
  { rewrite COEFFS_lookup. cbn in Hin.
    destruct Hin as [<- | [<- | [<- | [<- | []]]]]; cbn; eexists; eexists; reflexivity. }
  destruct Hk as [k1 [k3 Hk]].
  unfold plot_arcflash_ppe_arrays.
  rewrite (sweep_eq _ _ _ _ _ _ _ _ _ _ Hk Hwd). cbv zeta.
  eexists. eexists. eexists. eexists. split; [reflexivity |].
  unfold le_mask, gt_mask. rewrite !length_map, length_linspace.
  repeat split.
  - apply gt_mask_negb.
  - intros a b Hab.
    apply (sweep_safe_prefix (linspace 1 50 300) V_kV gap_mm t wd limit k1 0.662 k3 a b);
      [reflexivity | exact Ht | | | rewrite length_linspace; exact Hab].
    + intros n Hn. rewrite length_linspace in Hn. rewrite nth_linspace by exact Hn.
      pose proof step_1_50_300_pos. pose proof (pos_INR n). nra.
    + intros m n Hmn. rewrite length_linspace in Hmn.
      rewrite !nth_linspace by lia.
      assert (INR m <= INR n) by (apply le_INR; lia).
      pose proof step_1_50_300_pos. nra.
Qed.

Lemma plot_sweep_regions_witness :
  exists Ia_vals energies safe unsafe,
    plot_arcflash_ppe_arrays 4.16 32 0.08 457 "VCB" 4
      = Ok (Ia_vals, energies, safe, unsafe)
    /\ length safe = 300%nat /\ unsafe = map negb safe.
Proof.
  destruct (plot_sweep_regions 4.16 32 0.08 457 4 "VCB")
    as [Ia_vals [energies [safe [unsafe [H [_ [_ [Hs [_ [Hu _]]]]]]]]]].
  - cbn. tauto.
  - lra.
  - lra.
  - lra.
  - exists Ia_vals, energies, safe, unsafe. repeat split; assumption.
Defined.

End SweepExtra.

Module PpeLimitsExtra.

Import ArcFlash ArcFlashSweep PpeProps.

Local Open Scope Q_scope.

Lemma PPE_LIMITS_values (k : string) (L : Q) :
  dict_get k PPE_LIMITS = Some L -> L = 4 \/ L = 8 \/ L = 25 \/ L = 40.
Proof.
  unfold PPE_LIMITS. cbn [dict_get].
  destruct (String.eqb k "PPE Category 1"); [intros [= <-]; auto |].
  destruct (String.eqb k "PPE Category 2"); [intros [= <-]; auto |].
  destruct (String.eqb k "PPE Category 3"); [intros [= <-]; auto |].
  destruct (String.eqb k "PPE Category 4"); [intros [= <-]; auto 6 |].
  discriminate.
Qed.

(** The classifier and the limit table agree.  For an energy above 1.2 and
    at most 40 the label [ppe_category] returns is a key of [PPE_LIMITS], its
    limit bounds the energy, and no smaller limit of the table does; for an
    energy of at most 1.2 or above 40 the label is no key of the table (and
    [run_arcflash_analysis] draws no plot). *)
Theorem ppe_limits_match_categories (E : Q) :
  (1.2 < E /\ E <= 40 ->
     exists L, dict_get (ppe_category E) PPE_LIMITS = Some L /\ E <= L /\
               forall k L', dict_get k PPE_LIMITS = Some L' -> E <= L' -> L <= L')
  /\ (E <= 1.2 \/ 40 < E -> dict_mem (ppe_category E) PPE_LIMITS = false).
Proof.
  pose proof (ppe_category_band E) as HE. split.
  - intros [Hlo Hhi].
    destruct HE as [[H _] | [[_ [H1 ->]] | [[H0 [H1 ->]] | [[H0 [H1 ->]] |
                   [[H0 [H1 ->]] | [H _]]]]]]; try (exfalso; Lqa.lra).
    + exists 4. split; [reflexivity |]. split; [exact H1 |].
      intros k L' Hk HL. destruct (PPE_LIMITS_values k L' Hk) as [-> | [-> | [-> | ->]]];
        Lqa.lra.
    + exists 8. split; [reflexivity |]. split; [exact H1 |].
      intros k L' Hk HL. destruct (PPE_LIMITS_values k L' Hk) as [-> | [-> | [-> | ->]]];
        Lqa.lra.
    + exists 25. split; [reflexivity |]. split; [exact H1 |].
      intros k L' Hk HL. destruct (PPE_LIMITS_values k L' Hk) as [-> | [-> | [-> | ->]]];
        Lqa.lra.
    + exists 40. split; [reflexivity |]. split; [exact H1 |].
      intros k L' Hk HL. destruct (PPE_LIMITS_values k L' Hk) as [-> | [-> | [-> | ->]]];
        Lqa.lra.
  - intros Hout.
    destruct HE as [[H ->] | [[H0 [H1 _]] | [[H0 [H1 _]] | [[H0 [H1 _]] |
                   [[H0 [H1 _]] | [H ->]]]]]]; try reflexivity;
      exfalso; destruct Hout; Lqa.lra.
Qed.

Lemma ppe_limits_match_categories_witness :
  exists L, dict_get (ppe_category 6.3) PPE_LIMITS = Some L /\ 6.3 <= L.
Proof.
  destruct (proj1 (ppe_limits_match_categories 6.3)) as [L [HL [Hle _]]].
  - split; Lqa.lra.
  - exists L. split; assumption.
Defined.

End PpeLimitsExtra.

(* ===================================================================== *)
(** * More on the validator and the loaders *)
(* ===================================================================== *)

Module ValidatorExtra.

Import Core PyFacts CoreProps.

Lemma first_error_app {A : Type} (check : A -> option exn) (l1 l2 : list A)
    (x : A) (e : exn) :
  (forall y, In y l1 -> check y = None) -> check x = Some e ->
  first_error check (l1 ++ x :: l2)%list = Some e.
Proof.
  intros H1 Hx. induction l1 as [| y l1 IH]; cbn [app first_error].
  - rewrite Hx. reflexivity.
  - rewrite (H1 y) by (left; reflexivity).
    apply IH. intros z Hz. apply H1. right; exact Hz.
Qed.

(** [validate] reports the first offending line in insertion order, its
    [from_bus] before its [to_bus], whatever comes after it and whatever the
    transformers are. *)
Theorem validate_reports_first_line
    (m : SystemModel) (pre post : dict Line) (k : string) (bad : Line) :
  lines m = (pre ++ (k, bad) :: post)%list ->
  (forall l, In l (dict_values pre) ->
     In (from_bus l) (dict_keys (buses m)) /\ In (to_bus l) (dict_keys (buses m))) ->
  ~ (In (from_bus bad) (dict_keys (buses m)) /\ In (to_bus bad) (dict_keys (buses m))) ->
  snd (validate m) =
    Raise (ValueError
             (if dict_mem (from_bus bad) (buses m)
              then "Line '" ++ line_id bad ++ "' references unknown to_bus '"
                     ++ to_bus bad ++ "'."
              else "Line '" ++ line_id bad ++ "' references unknown from_bus '"
                     ++ from_bus bad ++ "'.")).
Proof.
  intros Hl Hpre Hbad. rewrite validate_eq. cbn [snd]. rewrite Hl.
  unfold dict_values. rewrite map_app. cbn [map snd].
  rewrite (first_error_app (line_check m) _ _ bad
             (ValueError
                (if dict_mem (from_bus bad) (buses m)
                 then "Line '" ++ line_id bad ++ "' references unknown to_bus '"
                        ++ to_bus bad ++ "'."
                 else "Line '" ++ line_id bad ++ "' references unknown from_bus '"
                        ++ from_bus bad ++ "'."))).
  - reflexivity.
  - intros y Hy. apply line_check_none. apply Hpre. exact Hy.
  - unfold line_check.
    destruct (dict_mem (from_bus bad) (buses m)) eqn:Hf; cbn [negb]; [| reflexivity].
    destruct (dict_mem (to_bus bad) (buses m)) eqn:Ht; cbn [negb]; [| reflexivity].
    exfalso. apply Hbad. split; apply dict_mem_keys; assumption.
Qed.

Lemma validate_reports_first_line_witness :
  snd (validate
         (mkSystemModel
            [("B1", mkBus "B1" 4.16)]
            [("L1", mkLine "L1" "B1" "B1" 0.1 0.2);
             ("L2", mkLine "L2" "B1" "B7" 0.1 0.2);
             ("L3", mkLine "L3" "B8" "B9" 0.1 0.2)]
            [("T1", mkTransformer "T1" "B5" "B6" 13.8 4.16 5.75 None)]))
  = Raise (ValueError "Line 'L2' references unknown to_bus 'B7'.").
Proof.
  apply (validate_reports_first_line
           (mkSystemModel
              [("B1", mkBus "B1" 4.16)]
              [("L1", mkLine "L1" "B1" "B1" 0.1 0.2);
               ("L2", mkLine "L2" "B1" "B7" 0.1 0.2);
               ("L3", mkLine "L3" "B8" "B9" 0.1 0.2)]
              [("T1", mkTransformer "T1" "B5" "B6" 13.8 4.16 5.75 None)])
           [("L1", mkLine "L1" "B1" "B1" 0.1 0.2)]
           [("L3", mkLine "L3" "B8" "B9" 0.1 0.2)]
           "L2" (mkLine "L2" "B1" "B7" 0.1 0.2)).
  - reflexivity.
  - cbn. intros l [<- | []]. cbn. tauto.
  - cbn. intros [_ [H | []]]. discriminate H.
Defined.

End ValidatorExtra.

Module CsvLoadExtra.

Import Core CsvReader PyFacts CoreProps CsvProps.

Lemma lower_empty (s : string) : Str.lower s = "" -> s = "".
Proof. destruct s; [reflexivity | discriminate]. Qed.

Lemma dict_set_nonempty {V : Type} (k : string) (v : V) (d : dict V) :
  dict_set k v d <> [].
Proof.
  destruct d as [| [k' v'] d]; cbn [dict_set]; [discriminate |].
  destruct (String.eqb k k'); discriminate.
Qed.

(** A row without a type is one whose [type] cell is missing, empty or
    blank, that is, made of characters [str.strip] removes: ASCII blanks and
    the other white space of Unicode, such as the no-break space. *)
Definition untyped (r : row) : Prop :=
  Str.strip (or_empty (row_get "type" r)) = "".

Section WithFloat.

Variable float_of_str : string -> option Q.

Lemma add_row_untyped (r : row) (m : SystemModel) :
  untyped r -> add_row float_of_str r m = (m, Ok tt).
Proof. unfold untyped, add_row. intros ->. reflexivity. Qed.

Lemma _add_transformer_ok_nonempty (r : row) (m m' : SystemModel) :
  _add_transformer float_of_str r m = (m', Ok tt) -> transformers m' <> [].
Proof.
  unfold _add_transformer.
  destruct (missing_fields REQUIRED_TX_FIELDS r); [| discriminate].
  unfold bind at 1. unfold lift.
  match goal with
  | |- context [rbind ?a ?k] => destruct (rbind a k) as [tx | e]
  end; [| discriminate].
  unfold bind, get, raise, modify.
  destruct (dict_mem (tx_id tx) (transformers m)); [discriminate |].
  intros [= <-]. cbn [transformers]. apply dict_set_nonempty.
Qed.

Lemma add_row_ok_cases (r : row) (m m' : SystemModel) :
  add_row float_of_str r m = (m', Ok tt) ->
  (untyped r /\ m' = m) \/ transformers m' <> [].
Proof.
  unfold add_row, untyped.
  destruct (String.eqb_spec
              (Str.lower (Str.strip (or_empty (row_get "type" r)))) "") as [E | _].
  { intros [= <-]. left. split; [apply lower_empty; exact E | reflexivity]. }
  destruct (String.eqb _ "bus").
  { destruct (_add_bus_raises float_of_str r m) as [e ->]. discriminate. }
  destruct (String.eqb _ "line").
  { destruct (_add_line_raises float_of_str r m) as [e ->]. discriminate. }
  destruct (String.eqb _ "transformer"); [| discriminate].
  intros H. right. exact (_add_transformer_ok_nonempty r m m' H).
Qed.

Lemma rows_ok_cases (rows : list row) (m m' : SystemModel) :
  for_ rows (add_row float_of_str) m = (m', Ok tt) ->
  ((forall r, In r rows -> untyped r) /\ m' = m) \/ transformers m' <> [].
Proof.
  revert m. induction rows as [| r rows IH]; intros m; cbn [for_].
  - intros [= <-]. left. split; [intros r [] | reflexivity].
  - unfold bind. destruct (add_row float_of_str r m) as [m1 [[] | e]] eqn:Hr;
      [| discriminate].
    intros Hrest. destruct (add_row_ok_cases r m m1 Hr) as [[Hu ->] | Hne].
    + destruct (IH m Hrest) as [[Hall ->] | Hne]; [left | right; exact Hne].
      split; [| reflexivity]. intros r' [<- | Hin]; [exact Hu | exact (Hall r' Hin)].
    + right. destruct (IH m1 Hrest) as [[_ ->] | Hne']; assumption.
Qed.

Lemma rows_untyped (rows : list row) (m : SystemModel) :
  (forall r, In r rows -> untyped r) ->
  for_ rows (add_row float_of_str) m = (m, Ok tt).
Proof.
  induction rows as [| r rows IH]; intros Hall; [reflexivity |].
  cbn [for_]. unfold bind. rewrite add_row_untyped by (apply Hall; left; reflexivity).
  apply IH. intros r' Hr'. apply Hall. right; exact Hr'.
Qed.

(** When the CSV loader returns at all.  [load] returns a model exactly when
    the file exists, its header has a [type] column and every row is untyped
    (so skipped); the model is then the empty one.  Any bus, line or
    transformer row makes it raise. *)
Theorem csv_load_returns_iff
    (file : option csv_file) (path : string) (model : SystemModel) :
  load float_of_str file path = Ok model <->
  model = empty_model /\
  exists f names,
    file = Some f /\ fieldnames f = Some names /\ In "type" names /\
    forall r, In r (DictReader names (records f)) -> untyped r.
Proof.
  split.
  - intros H. pose proof (csv_load_only_empty float_of_str file path model H) as ->.
    split; [reflexivity |].
    destruct file as [f |]; [| discriminate H].
    destruct (fieldnames f) as [names |] eqn:Hn; [| unfold load in H; rewrite Hn in H;
                                                     discriminate H].
    destruct (str_mem "type" names) eqn:Ht;
      [| unfold load in H; rewrite Hn, Ht in H; discriminate H].
    exists f, names. split; [reflexivity |]. split; [exact Hn |].
    split; [apply str_mem_In; exact Ht |].
    rewrite (load_eq float_of_str f names path Hn Ht) in H.
    destruct (for_ (DictReader names (records f)) (add_row float_of_str) empty_model)
      as [built [[] | e]] eqn:Hrows; [| discriminate H].
    destruct (rows_ok_cases _ _ _ Hrows) as [[Hall _] | Hne]; [exact Hall |].
    exfalso. destruct (snd (validate built)) as [[] | e] eqn:Hv; [| discriminate H].
    injection H as ->. apply Hne. reflexivity.
  - intros [-> [f [names [-> [Hn [Ht Hall]]]]]].
    apply str_mem_In in Ht.
    rewrite (load_eq float_of_str f names path Hn Ht).
    rewrite (rows_untyped _ empty_model Hall). reflexivity.
Qed.

End WithFloat.

(** The no-break space U+00A0, in UTF-8 the bytes C2 A0. *)
Definition nbsp : string :=
  String (ascii_of_nat 194) (String (ascii_of_nat 160) EmptyString).

Lemma csv_load_returns_iff_witness :
  load Str.decimal_float
       (Some (mkCsv (Some ["type"; "bus_id"; "kv"])
                    [[" "; "B1"; "4.16"]; []; [""]; [nbsp; "B2"; "0.48"]]))
       "net.csv"
  = Ok empty_model.
Proof.
  apply (proj2 (csv_load_returns_iff Str.decimal_float _ "net.csv" empty_model)).
  split; [reflexivity |].
  eexists. eexists. split; [reflexivity |]. split; [reflexivity |].
  split; [left; reflexivity |].
  cbn. intros r [<- | [<- | [<- | []]]]; reflexivity.
Defined.

End CsvLoadExtra.

Module JsonLoadExtra.

Import Core PyVal JsonReader PyFacts CoreProps CsvProps JsonProps CsvLoadExtra.

Lemma for_all_raise {A : Type} (body : A -> M SystemModel unit)
    (l : list A) (m m' : SystemModel) :
  (forall x s, exists e, body x s = (s, Raise e)) ->
  for_ l body m = (m', Ok tt) -> l = [] /\ m' = m.
Proof.
  intros Hbody. destruct l as [| x l]; cbn [for_].
  - intros [= <-]. split; reflexivity.
  - unfold bind. destruct (Hbody x m) as [e ->]. discriminate.
Qed.

Section WithConversions.

Variable float_of_str : string -> option Q.
Variable repr : pyval -> string.

Lemma add_transformer_ok_nonempty (t : pyval) (m m' : SystemModel) :
  add_transformer float_of_str repr t m = (m', Ok tt) -> transformers m' <> [].
Proof.
  unfold add_transformer. unfold bind at 1. unfold lift at 1.
  destruct (py_getitem t "tx_id") as [v | e]; cbn [rbind]; [| discriminate].
  unfold bind at 1. unfold get at 1.
  destruct (dict_mem (py_str repr v) (transformers m)); [discriminate |].
  unfold bind at 1. unfold lift.
  match goal with
  | |- context [rbind ?a ?k] => destruct (rbind a k) as [tx | e]
  end; [| discriminate].
  unfold modify. intros [= <-]. cbn [transformers]. apply dict_set_nonempty.
Qed.

Lemma transformers_ok_cases (ts : list pyval) (m m' : SystemModel) :
  for_ ts (add_transformer float_of_str repr) m = (m', Ok tt) ->
  (ts = [] /\ m' = m) \/ transformers m' <> [].
Proof.
  revert m. induction ts as [| t ts IH]; intros m; cbn [for_].
  - intros [= <-]. left. split; reflexivity.
  - unfold bind.
    destruct (add_transformer float_of_str repr t m) as [m1 [[] | e]] eqn:Ht;
      [| discriminate].
    intros Hrest. right. apply add_transformer_ok_nonempty in Ht.
    destruct (IH m1 Hrest) as [[_ ->] | Hne]; assumption.
Qed.

(** When the JSON loader returns at all.  [load] returns a model exactly
    when the file exists, the document is an object, and what it holds under
    [buses], [lines] and [transformers] (an empty list when the key is absent)
    has nothing to iterate over; the model is then the empty one.  Other
    top-level keys play no part. *)
Theorem json_load_returns_iff
    (file : option pyval) (path : string) (model : SystemModel) :
  load float_of_str repr file path = Ok model <->
  model = empty_model /\
  exists data bs ls ts,
    file = Some data /\
    py_get data "buses" (VList []) = Ok bs /\
    py_get data "lines" (VList []) = Ok ls /\
    py_get data "transformers" (VList []) = Ok ts /\
    py_iter bs = Ok [] /\ py_iter ls = Ok [] /\ py_iter ts = Ok [].
Proof.
  split.
  - intros H. pose proof (json_load_only_empty float_of_str repr file path model H) as ->.
    split; [reflexivity |].
    unfold load in H. destruct file as [data |]; [| discriminate].
    destruct (py_get data "buses" (VList [])) as [bs | e] eqn:Hb; cbn [rbind] in H;
      [| discriminate].
    destruct (py_get data "lines" (VList [])) as [ls | e] eqn:Hl; cbn [rbind] in H;
      [| discriminate].
    destruct (py_get data "transformers" (VList [])) as [ts | e] eqn:Ht;
      cbn [rbind] in H; [| discriminate].
    exists data, bs, ls, ts. split; [reflexivity |].
    split; [exact Hb |]. split; [exact Hl |]. split; [exact Ht |].
    revert H. unfold bind at 1. unfold lift at 1.
    destruct (py_iter bs) as [lb | e]; [| discriminate].
    unfold bind at 1.
    destruct (for_ lb (add_bus float_of_str repr) empty_model) as [m1 [[] | e]] eqn:H1;
      [| discriminate].
    apply for_all_raise in H1; [| apply add_bus_raises]. destruct H1 as [-> ->].
    unfold bind at 1. unfold lift at 1.
    destruct (py_iter ls) as [ll | e]; [| discriminate].
    unfold bind at 1.
    destruct (for_ ll (add_line float_of_str repr) empty_model) as [m2 [[] | e]] eqn:H2;
      [| discriminate].
    apply for_all_raise in H2; [| apply add_line_raises]. destruct H2 as [-> ->].
    unfold bind at 1. unfold lift at 1.
    destruct (py_iter ts) as [lt | e]; [| discriminate].
    unfold bind at 1.
    destruct (for_ lt (add_transformer float_of_str repr) empty_model)
      as [m3 [[] | e]] eqn:H3; [| discriminate].
    destruct (validate m3) as [m4 [[] | e]] eqn:Hv; [| discriminate].
    intros [= E]. assert (m4 = m3) by (rewrite <- (validate_frame m3), Hv; reflexivity).
    subst m4 m3.
    destruct (transformers_ok_cases _ _ _ H3) as [[-> _] | Hne];
      [repeat split; reflexivity | exfalso; apply Hne; reflexivity].
  - intros [-> [data [bs [ls [ts [-> [Hb [Hl [Ht [Ib [Il It]]]]]]]]]]].
    unfold load. rewrite Hb, Hl, Ht. cbn [rbind].
    unfold bind at 1. unfold lift at 1. rewrite Ib.
    unfold bind at 1. cbn [for_]. unfold ret at 1.
    unfold bind at 1. unfold lift at 1. rewrite Il.
    unfold bind at 1. cbn [for_]. unfold ret at 1.
    unfold bind at 1. unfold lift at 1. rewrite It.
    unfold bind at 1. cbn [for_]. unfold ret at 1.
    reflexivity.
Qed.

End WithConversions.

Lemma json_load_returns_iff_witness :
  load Str.decimal_float Samples.type_repr
       (Some (VDict [("name", VStr "feeder"); ("buses", VList []); ("lines", VDict [])]))
       "net.json"
  = Ok empty_model.
Proof.
  apply (proj2 (json_load_returns_iff Str.decimal_float Samples.type_repr
                  _ "net.json" empty_model)).
  split; [reflexivity |].
  eexists. eexists. eexists. eexists.
  repeat (split; [reflexivity |]). reflexivity.
Defined.

End JsonLoadExtra.

Module CsvTransformerExtra.

Import Core CsvReader PyFacts CoreProps CsvProps CsvRequired.

Lemma dict_get_set {V : Type} (k k' : string) (v : V) (d : dict V) :
  dict_get k' (dict_set k v d) = if String.eqb k' k then Some v else dict_get k' d.
Proof.
  induction d as [| [k0 v0] d IH]; cbn [dict_set dict_get].
  - destruct (String.eqb k' k); reflexivity.
  - destruct (String.eqb_spec k k0) as [-> | Hne]; cbn [dict_get].
    + destruct (String.eqb k' k0); reflexivity.
    + destruct (String.eqb_spec k' k0) as [-> | Hne'].
      * destruct (String.eqb_spec k0 k) as [E | _]; [congruence | reflexivity].
      * exact IH.
Qed.

Section WithFloat.

Variable float_of_str : string -> option Q.

(** The transformer a row describes: what the keyword arguments of the
    constructor call evaluate to. *)
Definition tx_of_row (r : row) : result Transformer :=
  c_id <~ subscript r "tx_id" ;;
  c_p <~ subscript r "primary_bus" ;;
  c_s <~ subscript r "secondary_bus" ;;
  c_pkv <~ subscript r "primary_kv" ;;
  primary_kv <~ float_cell float_of_str c_pkv ;;
  c_skv <~ subscript r "secondary_kv" ;;
  secondary_kv <~ float_cell float_of_str c_skv ;;
  c_z <~ subscript r "z_percent" ;;
  z_percent <~ float_cell float_of_str c_z ;;
  tap <~ optional_float float_of_str "tap" r ;;
  Ok (mkTransformer (str_cell c_id) (str_cell c_p) (str_cell c_s)
                    primary_kv secondary_kv z_percent tap).

Lemma _add_transformer_eq (r : row) (m : SystemModel) :
  missing_fields REQUIRED_TX_FIELDS r = [] ->
  _add_transformer float_of_str r m =
    match tx_of_row r with
    | Raise e => (m, Raise e)
    | Ok tx =>
        if dict_mem (tx_id tx) (transformers m) then
          (m, Raise (ValueError ("Duplicate tx_id found in CSV: " ++ tx_id tx)))
        else
          (mkSystemModel (buses m) (lines m) (dict_set (tx_id tx) tx (transformers m)),
           Ok tt)
    end.
Proof.
  intros Hm. unfold _add_transformer, tx_of_row. rewrite Hm.
  unfold bind at 1. unfold lift.
  destruct (subscript r "tx_id") as [c1 | e]; cbn [rbind]; [| reflexivity].
  destruct (subscript r "primary_bus") as [c2 | e]; cbn [rbind]; [| reflexivity].
  destruct (subscript r "secondary_bus") as [c3 | e]; cbn [rbind]; [| reflexivity].
  destruct (subscript r "primary_kv") as [c4 | e]; cbn [rbind]; [| reflexivity].
  destruct (float_cell float_of_str c4) as [q4 | e]; cbn [rbind]; [| reflexivity].
  destruct (subscript r "secondary_kv") as [c5 | e]; cbn [rbind]; [| reflexivity].
  destruct (float_cell float_of_str c5) as [q5 | e]; cbn [rbind]; [| reflexivity].
  destruct (subscript r "z_percent") as [c6 | e]; cbn [rbind]; [| reflexivity].
  destruct (float_cell float_of_str c6) as [q6 | e]; cbn [rbind]; [| reflexivity].
  destruct (optional_float float_of_str "tap" r) as [tp | e]; cbn [rbind];
    [| reflexivity].
  rewrite Transformer_new_ok. unfold bind, get, raise, modify.
  destruct (dict_mem _ (transformers m)); reflexivity.
Qed.

Lemma optional_float_ok (k : string) (r : row) (v : option Q) :
  optional_float float_of_str k r = Ok v ->
  v = match row_get k r with
      | Some (String a s) => float_of_str (String a s)
      | _ => None
      end.
Proof.
  unfold optional_float, row_get, subscript.
  destruct (dict_get k r) as [[[| a s] |] |]; cbn [truthy rbind float_cell];
    try (intros [= <-]; reflexivity).
  destruct (float_of_str (String a s)) as [q |]; cbn [rbind];
    [intros [= <-]; reflexivity | discriminate].
Qed.

Lemma tx_of_row_fields (r : row) (tx : Transformer) :
  missing_fields REQUIRED_TX_FIELDS r = [] ->
  tx_of_row r = Ok tx ->
  tx_id tx = str_cell (row_get "tx_id" r)
  /\ primary_bus tx = str_cell (row_get "primary_bus" r)
  /\ secondary_bus tx = str_cell (row_get "secondary_bus" r)
  /\ float_cell float_of_str (row_get "primary_kv" r) = Ok (primary_kv tx)
  /\ float_cell float_of_str (row_get "secondary_kv" r) = Ok (secondary_kv tx)
  /\ float_cell float_of_str (row_get "z_percent" r) = Ok (z_percent tx)
  /\ tap tx = match row_get "tap" r with
              | Some (String a s) => float_of_str (String a s)
              | _ => None
              end.
Proof.
  intros Hm. unfold tx_of_row.
  rewrite !(fun k H => required_cell REQUIRED_TX_FIELDS r k Hm H) by (cbn; tauto).
  cbn [rbind].
  destruct (float_cell float_of_str (row_get "primary_kv" r)) as [q4 | e];
    cbn [rbind]; [| discriminate].
  destruct (float_cell float_of_str (row_get "secondary_kv" r)) as [q5 | e];
    cbn [rbind]; [| discriminate].
  destruct (float_cell float_of_str (row_get "z_percent" r)) as [q6 | e];
    cbn [rbind]; [| discriminate].
  destruct (optional_float float_of_str "tap" r) as [tp | e] eqn:Htap; cbn [rbind];
    [| discriminate].
  intros [= <-]. cbn. repeat split. exact (optional_float_ok _ _ _ Htap).
Qed.

(** An accepted transformer row is stored under its [tx_id], which was not
    in use, with the row's bus names and numbers and with [tap] absent when
    the cell is missing or empty; every other transformer, the buses and the
    lines stay as they were. *)
Theorem csv_transformer_stored (r : row) (m m' : SystemModel) :
  _add_transformer float_of_str r m = (m', Ok tt) ->
  let id := str_cell (row_get "tx_id" r) in
  dict_mem id (transformers m) = false
  /\ (exists tx,
        dict_get id (transformers m') = Some tx
        /\ tx_id tx = id
        /\ primary_bus tx = str_cell (row_get "primary_bus" r)
        /\ secondary_bus tx = str_cell (row_get "secondary_bus" r)
        /\ float_cell float_of_str (row_get "primary_kv" r) = Ok (primary_kv tx)
        /\ float_cell float_of_str (row_get "secondary_kv" r) = Ok (secondary_kv tx)
        /\ float_cell float_of_str (row_get "z_percent" r) = Ok (z_percent tx)
        /\ tap tx = match row_get "tap" r with
                    | Some (String a s) => float_of_str (String a s)
                    | _ => None
                    end)
  /\ (forall k, k <> id -> dict_get k (transformers m') = dict_get k (transformers m))
  /\ buses m' = buses m /\ lines m' = lines m.
Proof.
  intros H id.
  assert (Hm : missing_fields REQUIRED_TX_FIELDS r = []).
  { unfold _add_transformer in H.
    destruct (missing_fields REQUIRED_TX_FIELDS r); [reflexivity | discriminate]. }
  rewrite (_add_transformer_eq r m Hm) in H.
  destruct (tx_of_row r) as [tx | e] eqn:Htx; [| discriminate].
  pose proof (tx_of_row_fields r tx Hm Htx) as [Hid Hrest].
  destruct (dict_mem (tx_id tx) (transformers m)) eqn:Hmem; [discriminate |].
  injection H as <-. cbn [transformers buses lines]. unfold id. rewrite <- Hid.
  split; [exact Hmem |]. split.
  - exists tx. split; [| split; [reflexivity | exact Hrest]].
    rewrite dict_get_set, String.eqb_refl. reflexivity.
  - split; [| split; reflexivity].
    intros k Hk. rewrite dict_get_set.
    destruct (String.eqb_spec k (tx_id tx)); [contradiction | reflexivity].
Qed.

(** The CSV loader checks for a duplicate id last: a row is refused as a
    duplicate only if all its fields are present and convert, that is, only
    if a model without that id accepts it. *)
Theorem csv_duplicate_only_for_valid_row (r : row) (m : SystemModel) (id : string) :
  snd (_add_transformer float_of_str r m)
    = Raise (ValueError ("Duplicate tx_id found in CSV: " ++ id)) ->
  dict_mem id (transformers m) = true
  /\ exists m', _add_transformer float_of_str r empty_model = (m', Ok tt).
Proof.
  intros H.
  assert (Hm : missing_fields REQUIRED_TX_FIELDS r = []).
  { unfold _add_transformer in H.
    destruct (missing_fields REQUIRED_TX_FIELDS r); [reflexivity |].
    cbn in H. discriminate H. }
  rewrite (_add_transformer_eq r m Hm) in H.
  rewrite (_add_transformer_eq r empty_model Hm).
  destruct (tx_of_row r) as [tx | e] eqn:Htx.
  - destruct (dict_mem (tx_id tx) (transformers m)) eqn:Hmem; [| discriminate H].
    cbn [snd] in H. injection H as H.
    assert (E : tx_id tx = id).
    { revert H. generalize (tx_id tx). intros s Hs.
      cbn in Hs. repeat (injection Hs as _ Hs). exact Hs. }
    subst id. split; [exact Hmem |]. cbn. eexists. reflexivity.
  - exfalso. cbn [snd] in H. injection H as ->. revert Htx. unfold tx_of_row.
    rewrite !(fun k H => required_cell REQUIRED_TX_FIELDS r k Hm H) by (cbn; tauto).
    cbn [rbind].
    destruct (row_get "primary_kv" r) as [s4 |]; cbn [float_cell rbind];
      [| discriminate].
    destruct (float_of_str s4); cbn [rbind]; [| discriminate].
    destruct (row_get "secondary_kv" r) as [s5 |]; cbn [float_cell rbind];
      [| discriminate].
    destruct (float_of_str s5); cbn [rbind]; [| discriminate].
    destruct (row_get "z_percent" r) as [s6 |]; cbn [float_cell rbind];
      [| discriminate].
    destruct (float_of_str s6); cbn [rbind]; [| discriminate].
    unfold optional_float, row_get, subscript.
    destruct (dict_get "tap" r) as [[[| a s] |] |]; cbn [truthy rbind float_cell];
      try discriminate.
    destruct (float_of_str (String a s)); cbn [rbind]; discriminate.
Qed.

End WithFloat.

Lemma csv_transformer_stored_witness :
  exists m',
    _add_transformer Str.decimal_float
      (row_dict Samples.tx_header
         ["transformer"; "T1"; "B1"; "B2"; "13.8"; "4.16"; "5.75"; ""])
      empty_model = (m', Ok tt)
    /\ exists tx, dict_get "T1" (transformers m') = Some tx /\ tap tx = None.
Proof.
  eexists. split; [vm_compute; reflexivity |].
  destruct (csv_transformer_stored Str.decimal_float
              (row_dict Samples.tx_header
                 ["transformer"; "T1"; "B1"; "B2"; "13.8"; "4.16"; "5.75"; ""])
              empty_model _ eq_refl) as [_ [[tx [Hg [_ [_ [_ [_ [_ [_ Ht]]]]]]]] _]].
  exists tx. split; [exact Hg | exact Ht].
Defined.

Lemma csv_duplicate_only_for_valid_row_witness :
  exists m',
    _add_transformer Str.decimal_float
      (row_dict Samples.tx_header
         ["transformer"; "T1"; "B1"; "B2"; "13.8"; "4.16"; "5.75"; ""])
      empty_model = (m', Ok tt).
Proof.
  apply (proj2 (csv_duplicate_only_for_valid_row Str.decimal_float
                  (row_dict Samples.tx_header
                     ["transformer"; "T1"; "B1"; "B2"; "13.8"; "4.16"; "5.75"; ""])
                  (mkSystemModel [] []
                     [("T1", mkTransformer "T1" "B1" "B2" 13.8 4.16 5.75 None)])
                  "T1" eq_refl)).
Defined.

End CsvTransformerExtra.

Module DssExtra.

Import Core DssReader PyFacts CoreProps CsvProps CsvTransformerExtra.

(** The bus the loader makes of a bus name. *)
Definition bus_of (dss : dss_circuit) (bus_name : string) : Bus :=
  mkBus bus_name (match kv_base dss bus_name with Some kv => kv | None => 0 end).

Definition add_buses (dss : dss_circuit) (names : list string) (bs : dict Bus) : dict Bus :=
  fold_left (fun d n => dict_set n (bus_of dss n) d) names bs.

Lemma bus_loop_eq (dss : dss_circuit) (names : list string) (m : SystemModel) :
  for_ names (fun bus_name =>
      bind (lift (dataclass_new "Bus" Bus_FIELDS ["bus_id"; "kv"]
                    (mkBus bus_name
                           (match kv_base dss bus_name with
                            | Some kv => kv
                            | None => 0
                            end))))
           (fun bus =>
              modify (fun m => mkSystemModel (dict_set bus_name bus (buses m))
                                             (lines m) (transformers m)))) m
  = (mkSystemModel (add_buses dss names (buses m)) (lines m) (transformers m), Ok tt).
Proof.
  revert m. induction names as [| n names IH]; intros m; cbn [for_].
  - destruct m; reflexivity.
  - unfold bind at 1. unfold bind at 1. unfold lift, modify. cbn.
    rewrite IH. reflexivity.
Qed.

Lemma add_buses_get (dss : dss_circuit) (names : list string) (bs : dict Bus) (k : string) :
  dict_get k (add_buses dss names bs) =
    if str_mem k names then Some (bus_of dss k) else dict_get k bs.
Proof.
  unfold add_buses. revert bs.
  induction names as [| n names IH]; intros bs; cbn [fold_left str_mem]; [reflexivity |].
  rewrite IH. rewrite dict_get_set.
  destruct (String.eqb_spec k n) as [-> | Hne]; [| reflexivity].
  destruct (str_mem n names); reflexivity.
Qed.

Lemma load_eq_after_compile (dss : dss_circuit) (path : string) :
  error_number dss = 0%Z ->
  load true (Some dss) path =
    match (load_lines (dss_lines dss) ;;;
           load_transformers (dss_transformers dss) ;;;
           validate)%py
            (mkSystemModel (add_buses dss (all_bus_names dss) []) [] []) with
    | (model, Ok _) => Ok model
    | (_, Raise e) => Raise e
    end.
Proof.
  intros H0. unfold load. cbn [negb]. rewrite H0. cbn [Z.eqb negb].
  unfold bind at 1. rewrite bus_loop_eq. reflexivity.
Qed.

(** The solver loader cannot load a circuit that has a line: the first named
    line ends in the [TypeError] of the [Line] constructor, which is given
    [length] and [linecode]. *)
Theorem dss_load_refuses_lines
    (dss : dss_circuit) (path : string) (l : dss_line) (rest : list dss_line) :
  error_number dss = 0%Z -> dss_lines dss = l :: rest -> l_name l <> "" ->
  load true (Some dss) path
  = Raise (TypeError "Line.__init__() got an unexpected keyword argument 'length'").
Proof.
  intros H0 Hl Hname. rewrite (load_eq_after_compile dss path H0), Hl.
  unfold bind at 1. cbn [load_lines].
  destruct (String.eqb_spec (l_name l) "") as [E | _]; [contradiction |].
  unfold bind at 1. unfold lift. rewrite Line_new_length. reflexivity.
Qed.

Lemma dss_load_refuses_lines_witness :
  load true
       (Some (mkDssCircuit 0 "" ["650"; "632"] (fun _ => Some 4.16)
                [mkDssLine "650632" "650.1.2.3" "632.1.2.3" 0.1 0.2 2000 "mtx601"]
                []))
       "master.dss"
  = Raise (TypeError "Line.__init__() got an unexpected keyword argument 'length'").
Proof.
  eapply (dss_load_refuses_lines _ "master.dss"); [reflexivity | reflexivity |].
  cbn. discriminate.
Defined.

(** On a circuit without lines and transformers the solver loader returns a
    model whose buses are exactly the solver's bus names, each with the
    solver's base voltage (0 where the solver gives none), no duplicate bus
    name being an error. *)
Theorem dss_load_buses (dss : dss_circuit) (path : string) :
  error_number dss = 0%Z ->
  match dss_lines dss with [] => True | l :: _ => l_name l = "" end ->
  match dss_transformers dss with [] => True | t :: _ => t_name t = "" end ->
  exists m,
    load true (Some dss) path = Ok m
    /\ lines m = [] /\ transformers m = []
    /\ forall k,
         dict_get k (buses m) =
           if str_mem k (all_bus_names dss)
           then Some (mkBus k (match kv_base dss k with Some kv => kv | None => 0 end))
           else None.
Proof.
  intros H0 Hl Ht.
  exists (mkSystemModel (add_buses dss (all_bus_names dss) []) [] []).
  split; [| split; [reflexivity | split; [reflexivity |]]].
  - rewrite (load_eq_after_compile dss path H0).
    assert (E1 : forall m, load_lines (dss_lines dss) m = (m, Ok tt)).
    { intros m. destruct (dss_lines dss) as [| l ls]; [reflexivity |].
      cbn [load_lines]. rewrite Hl. reflexivity. }
    assert (E2 : forall m, load_transformers (dss_transformers dss) m = (m, Ok tt)).
    { intros m. destruct (dss_transformers dss) as [| t ts]; [reflexivity |].
      cbn [load_transformers]. rewrite Ht. reflexivity. }
    unfold bind at 1. rewrite E1. unfold bind at 1. rewrite E2.
    rewrite validate_eq. reflexivity.
  - intros k. cbn [buses]. rewrite add_buses_get. reflexivity.
Qed.

Lemma dss_load_buses_witness :
  exists m,
    load true (Some (mkDssCircuit 0 "" ["650"; "632"; "650"]
                       (fun n => if String.eqb n "650" then Some 115 else None)
                       [] []))
         "master.dss" = Ok m
    /\ dict_get "632" (buses m) = Some (mkBus "632" 0)
    /\ dict_get "650" (buses m) = Some (mkBus "650" 115).
Proof.
  destruct (dss_load_buses
              (mkDssCircuit 0 "" ["650"; "632"; "650"]
                 (fun n => if String.eqb n "650" then Some 115 else None) [] [])
              "master.dss" eq_refl I I) as [m [Hm [_ [_ Hg]]]].
  exists m. split; [exact Hm |]. split; [exact (Hg "632") | exact (Hg "650")].
Defined.

End DssExtra.

(* ===================================================================== *)
(** * exclude/der_json.py, continued: defaults and the storage form *)
(* ===================================================================== *)

Module DerMore.

Import PyVal Der.

(** [REGCConfig()] and [REECConfig()]: the defaults the dataclasses declare. *)
Definition REGCConfig_default : REGCConfig :=
  mkREGC (VStr "REGC_A") (VNum 1.2) VNone (VNum 0.01) (VNum 0.12) (VStr "reactive")
         (VNum 20.0) (VNum 200.0) (VNum 2.0) (VNum (-2.0)).

Definition REECConfig_default : REECConfig :=
  mkREEC (VStr "REEC_A") (VNum 1.0) (VNum 0.0) (VNum 7.5) (VNum 0.9) (VNum 1.1)
         (VNum 1.1) (VNum (-1.1)) (VNum 1.0) (VNum 0.0) (VNum 0) (VNum 1) (VNum 0).

(** [RideThroughConfig()] *)
Definition RideThroughConfig_default : RideThroughConfig := mkRideThrough [] [].

(** [DER.to_dict]: [asdict(self)], field by field in declaration order, the
    two curves as lists of point dicts. *)
Definition to_dict (self : DER) : pyval :=
  let g := regc self in
  let e := reec self in
  VDict
    [ ("der_id", VStr (der_id self));
      ("der_type", der_type self);
      ("connection_bus", connection_bus self);
      ("mva_rating", mva_rating self);
      ("kv_ll", kv_ll self);
      ("pref_MW", pref_MW self);
      ("qref_MVAR", qref_MVAR self);
      ("power_factor", power_factor self);
      ("regc", VDict
         [ ("model", regc_model g);
           ("imax", imax g);
           ("imax_fault", imax_fault g);
           ("r_source_pu", r_source_pu g);
           ("x_source_pu", x_source_pu g);
           ("iq_priority", iq_priority g);
           ("kp_pll", kp_pll g);
           ("ki_pll", ki_pll g);
           ("wmax", wmax g);
           ("wmin", wmin g) ]);
      ("reec", VDict
         [ ("model", reec_model e);
           ("vref_pu", vref_pu e);
           ("qref_pu", qref_pu e);
           ("kqv", kqv e);
           ("vdip_pu", vdip_pu e);
           ("vup_pu", vup_pu e);
           ("iqmax_pu", iqmax_pu e);
           ("iqmin_pu", iqmin_pu e);
           ("pmax_pu", pmax_pu e);
           ("pmin_pu", pmin_pu e);
           ("pf_flag", pf_flag e);
           ("pq_flag", pq_flag e);
           ("vq_flag", vq_flag e) ]);
      ("ride_through", VDict
         [ ("vrt_curve", VList (map asdict_vrt (vrt_curve (ride_through self))));
           ("frt_curve", VList (map asdict_frt (frt_curve (ride_through self)))) ]);
      ("metadata", metadata self) ].

End DerMore.

(* ===================================================================== *)
(** * The DER registry as a store *)
(* ===================================================================== *)

Module DerExtra.

Import PyVal Der DerMore DerProps PyFacts CsvProps CsvTransformerExtra.

Lemma build_to_dict (d : DER) (id : string) :
  build id (to_dict d) =
    Ok (mkDER id (der_type d) (connection_bus d) (mva_rating d) (kv_ll d) (pref_MW d)
              (qref_MVAR d) (power_factor d) (regc d) (reec d) (ride_through d)
              (metadata d)).
Proof.
  destruct d as [i ty cb mva kv p q pf g e [vrt frt] md]. destruct g, e.
  unfold build, to_dict.
  cbn -[rmap map]. rewrite rmap_parse_vrt. cbn -[rmap map].
  rewrite rmap_parse_frt. reflexivity.
Qed.

(** The storage form round-trips exactly: [from_dict] applied to
    [to_dict] of a valid DER, under the DER's own id, stores and returns that
    very DER. *)
Theorem to_dict_from_dict_roundtrip (d : DER) (st : DERStorage) :
  validate d = Ok tt ->
  from_dict (der_id d) (to_dict d) st = (dict_set (der_id d) d st, Ok d).
Proof.
  intros Hv. unfold from_dict, bind, lift, modify, ret.
  rewrite build_to_dict.
  replace (mkDER (der_id d) (der_type d) (connection_bus d) (mva_rating d) (kv_ll d)
                 (pref_MW d) (qref_MVAR d) (power_factor d) (regc d) (reec d)
                 (ride_through d) (metadata d)) with d by (destruct d; reflexivity).
  rewrite Hv. reflexivity.
Qed.

Lemma to_dict_from_dict_roundtrip_witness :
  from_dict "pv1" (to_dict sample_der) [] = ([("pv1", sample_der)], Ok sample_der).
Proof.
  apply (to_dict_from_dict_roundtrip sample_der [] eq_refl).
Defined.

Lemma effective_imax_fault_resolved (g : REGCConfig) :
  effective_imax_fault
    (mkREGC (regc_model g) (imax g) (effective_imax_fault g) (r_source_pu g)
            (x_source_pu g) (iq_priority g) (kp_pll g) (ki_pll g) (wmax g) (wmin g))
  = effective_imax_fault g.
Proof.
  unfold effective_imax_fault. cbn [imax_fault imax].
  destruct (imax_fault g); try reflexivity.
  destruct (imax g); reflexivity.
Qed.

(** Nothing the export payload carries is lost: for a valid DER, reading
    the payload back (with the type entry under [der_type]) under the same id
    and exporting the result gives the same payload again. *)
Theorem payload_export_fixed_point (d : DER) (st : DERStorage) :
  validate d = Ok tt ->
  exists d',
    from_dict (der_id d) (with_der_type (to_sim_payload d)) st
      = (dict_set (der_id d) d' st, Ok d')
    /\ to_sim_payload d' = to_sim_payload d.
Proof.
  intros Hv. exists (rebuilt (der_id d) d). split.
  - unfold from_dict, bind, lift, modify, ret.
    rewrite build_with_der_type, validate_rebuilt, Hv. reflexivity.
  - unfold to_sim_payload, rebuilt. cbn [der_id der_type connection_bus mva_rating
      kv_ll pref_MW qref_MVAR power_factor regc reec ride_through].
    rewrite effective_imax_fault_resolved. reflexivity.
Qed.

Lemma payload_export_fixed_point_witness :
  exists d',
    from_dict "pv1" (with_der_type (to_sim_payload sample_der)) []
      = ([("pv1", d')], Ok d')
    /\ to_sim_payload d' = to_sim_payload sample_der.
Proof.
  apply (payload_export_fixed_point sample_der [] eq_refl).
Defined.

Lemma dict_set_keys_list {V : Type} (k : string) (v : V) (d : dict V) :
  dict_keys (dict_set k v d) =
    if dict_mem k d then dict_keys d else (dict_keys d ++ [k])%list.
Proof.
  unfold dict_keys, dict_mem.
  induction d as [| [k0 v0] d IH]; cbn [dict_set dict_get map fst app]; [reflexivity |].
  destruct (String.eqb k k0); cbn [map fst]; [reflexivity |].
  rewrite IH. destruct (dict_get k d); reflexivity.
Qed.

Lemma from_dict_ok (id : string) (data : pyval) (st st' : DERStorage) (d : DER) :
  from_dict id data st = (st', Ok d) ->
  build id data = Ok d /\ validate d = Ok tt /\ st' = dict_set id d st.
Proof.
  unfold from_dict, bind, lift, modify, ret.
  destruct (build id data) as [d0 | e]; [| discriminate].
  destruct (validate d0) as [[] | e] eqn:Hv; [| discriminate].
  intros [= <- <-]. repeat split; [exact Hv].
Qed.

Lemma build_der_id (id : string) (data : pyval) (d : DER) :
  build id data = Ok d -> der_id d = id.
Proof.
  unfold build.
  repeat match goal with
         | |- rbind ?r _ = Ok _ -> _ => destruct r; cbn [rbind]; [| discriminate]
         end.
  intros [= <-]. reflexivity.
Qed.

(** Insert and look-up.  After a successful [from_dict], [get] under the
    same id returns the DER just built, which carries that id and passed
    [validate]; look-ups under other ids are as before; an id already in use
    is replaced in place and a new one goes last.  After a failed
    [from_dict] the registry is as it was. *)
Theorem from_dict_then_get (id : string) (data : pyval) (st st' : DERStorage) :
  (forall d,
     from_dict id data st = (st', Ok d) ->
     Der.get id st' = (st', Ok d)
     /\ der_id d = id /\ validate d = Ok tt
     /\ (forall id', id' <> id -> snd (Der.get id' st') = snd (Der.get id' st))
     /\ dict_keys st' = if dict_mem id st then dict_keys st
                        else (dict_keys st ++ [id])%list)
  /\ (forall e, from_dict id data st = (st', Raise e) -> st' = st).
Proof.
  split.
  - intros d H. destruct (from_dict_ok _ _ _ _ _ H) as [Hb [Hv ->]].
    split; [unfold Der.get, bind, Py.get, lift, subscript;
            rewrite dict_get_set, String.eqb_refl; reflexivity |].
    split; [exact (build_der_id _ _ _ Hb) |]. split; [exact Hv |].
    split; [| apply dict_set_keys_list].
    intros id' Hne. unfold Der.get, bind, Py.get, lift, subscript. cbn [snd].
    rewrite dict_get_set.
    destruct (String.eqb_spec id' id); [contradiction | reflexivity].
  - intros e. unfold from_dict, bind, lift, modify, ret.
    destruct (build id data) as [d0 | e0]; [| intros [= <- _]; reflexivity].
    destruct (validate d0) as [[] | e0]; [discriminate | intros [= <- _]; reflexivity].
Qed.

Lemma from_dict_then_get_witness :
  Der.get "pv1" [("pv1", sample_der)] = ([("pv1", sample_der)], Ok sample_der).
Proof.
  apply (proj1 (from_dict_then_get "pv1" (to_dict sample_der) []
                  [("pv1", sample_der)]) sample_der).
  reflexivity.
Defined.

End DerExtra.

Module DerRegistryExtra.

Import PyVal Der DerMore DerProps DerExtra PyFacts CsvProps CsvTransformerExtra.

(** The registries a program can hold: the empty one of [DERStorage()], and
    what any call of [from_dict] leaves behind. *)
Inductive reachable : DERStorage -> Prop :=
| reachable_empty : reachable []
| reachable_from_dict (st st' : DERStorage) (id : string) (data : pyval)
    (r : result DER) :
    reachable st -> from_dict id data st = (st', r) -> reachable st'.

Lemma from_dict_raise_frame (id : string) (data : pyval) (st st' : DERStorage) (e : exn) :
  from_dict id data st = (st', Raise e) -> st' = st.
Proof.
  unfold from_dict, bind, lift, modify, ret.
  destruct (build id data) as [d0 | e0]; [| intros [= <- _]; reflexivity].
  destruct (validate d0) as [[] | e0]; [discriminate | intros [= <- _]; reflexivity].
Qed.

(** Registry invariant: whatever sequence of [from_dict] calls built it,
    valid or failing, every id occurs once, every DER is stored under its own
    [der_id], and every stored DER passes [validate]. *)
Theorem registry_invariant (st : DERStorage) :
  reachable st ->
  NoDup (dict_keys st)
  /\ forall id d, dict_get id st = Some d -> der_id d = id /\ validate d = Ok tt.
Proof.
  induction 1 as [| st st' id data r Hreach [IHk IHd] Hfd].
  - split; [constructor | intros id d H; discriminate H].
  - destruct r as [d | e].
    + destruct (from_dict_ok _ _ _ _ _ Hfd) as [Hb [Hv ->]]. split.
      * rewrite dict_set_keys_list. destruct (dict_mem id st) eqn:Hm; [exact IHk |].
        apply NoDup_app; [exact IHk | repeat constructor; intros [] | ].
        intros k Hk Hin. destruct Hin as [<- | []].
        apply dict_mem_not_keys in Hm. contradiction.
      * intros id' d' Hg. rewrite dict_get_set in Hg.
        destruct (String.eqb_spec id' id) as [-> | Hne]; [| exact (IHd id' d' Hg)].
        injection Hg as <-. split; [exact (build_der_id _ _ _ Hb) | exact Hv].
    + rewrite (from_dict_raise_frame _ _ _ _ _ Hfd). split; assumption.
Qed.

Lemma registry_invariant_witness :
  NoDup (dict_keys [("pv1", sample_der)])
  /\ forall id d, dict_get id [("pv1", sample_der)] = Some d ->
                  der_id d = id /\ validate d = Ok tt.
Proof.
  apply registry_invariant.
  apply (reachable_from_dict [] _ "pv1" (to_dict sample_der) (Ok sample_der)
           reachable_empty).
  reflexivity.
Defined.

End DerRegistryExtra.

Module DerDefaultsExtra.

Import PyVal Der DerMore DerProps DerExtra.

(** One step of a successful run: the call succeeded and the rest did. *)
Ltac run_step H :=
  match type of H with
  | rbind ?r _ = Ok _ =>
      let E := fresh "E" in
      destruct r eqn:E; cbn [rbind] in H; [| discriminate H]
  end.

(** A key the source dict lacks yields the default given to [get];
    look-ups in a default that is an empty dict or list are then evaluated. *)
Ltac absent_key key Hk :=
  match goal with
  | E : py_get (VDict _) key _ = Ok _ |- _ =>
      cbn [py_get] in E; rewrite Hk in E; injection E as <-
  end;
  repeat match goal with
         | E : py_get (VDict []) _ _ = Ok _ |- _ => cbn in E; injection E as <-
         | E : py_iter (VList []) = Ok _ |- _ => cbn in E; injection E as <-
         | E : rmap _ [] = Ok _ |- _ => cbn in E; injection E as <-
         end.

(** Where the source dict has no [regc], [reec] or [ride_through] entry,
    [from_dict] builds the sub-configuration the dataclass itself declares
    as default; and an absent [pref_MW], [qref_MVAR], [power_factor] or
    [metadata] becomes 0.0, 0.0, [None] and the empty dict. *)
Theorem from_dict_defaults (id : string) (d : dict pyval) (der : DER) :
  build id (VDict d) = Ok der ->
  (dict_get "regc" d = None -> regc der = REGCConfig_default)
  /\ (dict_get "reec" d = None -> reec der = REECConfig_default)
  /\ (dict_get "ride_through" d = None -> ride_through der = RideThroughConfig_default)
  /\ (dict_get "pref_MW" d = None -> pref_MW der = VNum 0.0)
  /\ (dict_get "qref_MVAR" d = None -> qref_MVAR der = VNum 0.0)
  /\ (dict_get "power_factor" d = None -> power_factor der = VNone)
  /\ (dict_get "metadata" d = None -> metadata der = VDict []).
Proof.
  intros H. unfold build in H.
  do 19 run_step H. cbv zeta in H. do 14 run_step H. cbv zeta in H.
  do 8 run_step H.
  injection H as <-.
  cbn [regc reec ride_through pref_MW qref_MVAR power_factor metadata].
  repeat split; intros Hk.
  - absent_key "regc" Hk. reflexivity.
  - absent_key "reec" Hk. reflexivity.
  - absent_key "ride_through" Hk. reflexivity.
  - absent_key "pref_MW" Hk. reflexivity.
  - absent_key "qref_MVAR" Hk. reflexivity.
  - absent_key "power_factor" Hk. reflexivity.
  - absent_key "metadata" Hk. reflexivity.
Qed.

Lemma from_dict_defaults_witness :
  exists der,
    build "pv2" (VDict [("der_type", VStr "PV"); ("connection_bus", VStr "634");
                        ("mva_rating", VNum 0.5); ("kv", VNum 4.16)]) = Ok der
    /\ regc der = REGCConfig_default /\ reec der = REECConfig_default.
Proof.
  eexists. split; [reflexivity |].
  pose proof (fun der => from_dict_defaults "pv2"
                [("der_type", VStr "PV"); ("connection_bus", VStr "634");
                 ("mva_rating", VNum 0.5); ("kv", VNum 4.16)] der) as H.
  split.
  - apply (proj1 (H _ eq_refl)). reflexivity.
  - apply (proj1 (proj2 (H _ eq_refl))). reflexivity.
Defined.

(** Which key gives the terminal voltage.  [kv] wins over [kv_ll]; and a
    source dict with neither, whose rating is a positive number, is refused
    by [validate] with a [TypeError] (the voltage is [None], which does not
    compare with 0), not with a [ValueError] or a [KeyError]. *)
Theorem from_dict_voltage_key (id : string) (d : dict pyval) (st : DERStorage) :
  (forall der, build id (VDict d) = Ok der ->
     kv_ll der = match dict_get "kv" d with
                 | Some v => v
                 | None => match dict_get "kv_ll" d with
                           | Some v => v
                           | None => VNone
                           end
                 end)
  /\ (forall der q,
        build id (VDict d) = Ok der ->
        dict_get "kv" d = None -> dict_get "kv_ll" d = None ->
        mva_rating der = VNum q -> (0 < q)%Q ->
        from_dict id (VDict d) st
        = (st, Raise (TypeError
                        "'<=' not supported between instances of 'NoneType' and 'int'"))).
Proof.
  assert (Hkv : forall der, build id (VDict d) = Ok der ->
            kv_ll der = match dict_get "kv" d with
                        | Some v => v
                        | None => match dict_get "kv_ll" d with
                                  | Some v => v
                                  | None => VNone
                                  end
                        end).
  { intros der H. unfold build in H.
    do 19 run_step H. cbv zeta in H. do 14 run_step H. cbv zeta in H.
    do 8 run_step H.
    injection H as <-. cbn [kv_ll].
    repeat match goal with
           | E : py_get (VDict d) "kv_ll" _ = Ok _ |- _ => cbn [py_get] in E
           | E : py_get (VDict d) "kv" _ = Ok _ |- _ => cbn [py_get] in E
           end.
    destruct (dict_get "kv" d); destruct (dict_get "kv_ll" d); congruence. }
  split; [exact Hkv |].
  intros der q H Hk1 Hk2 Hmva Hq.
  pose proof (Hkv der H) as Hv. rewrite Hk1, Hk2 in Hv.
  unfold from_dict, bind, lift. rewrite H.
  unfold validate, le_zero, as_number. rewrite Hmva. cbn [rbind].
  assert (Hq' : Qle_bool q 0 = false).
  { destruct (Qle_bool q 0) eqn:E; [| reflexivity].
    apply Qle_bool_iff in E. exfalso. Lqa.lra. }
  rewrite Hq', Hv. reflexivity.
Qed.

Lemma from_dict_voltage_key_witness :
  from_dict "pv3" (VDict [("der_type", VStr "PV"); ("connection_bus", VStr "634");
                          ("mva_rating", VNum 0.5)]) []
  = ([], Raise (TypeError
                  "'<=' not supported between instances of 'NoneType' and 'int'")).
Proof.
  apply (proj2 (from_dict_voltage_key "pv3"
                  [("der_type", VStr "PV"); ("connection_bus", VStr "634");
                   ("mva_rating", VNum 0.5)] []) _ 0.5%Q eq_refl);
    [reflexivity | reflexivity | reflexivity | Lqa.lra].
Defined.

End DerDefaultsExtra.

(* ===================================================================== *)
(** * The model factory *)
(* ===================================================================== *)

Module FactoryExtra.

Import Core PyVal PyFacts CoreProps CsvProps JsonProps.

(** A computation that ends with [validate] returns normally only on a
    model [validate] accepts. *)
Lemma then_validate_ok (c : M SystemModel unit) (m0 m : SystemModel) :
  (c ;;; validate)%py m0 = (m, Ok tt) -> snd (validate m) = Ok tt.
Proof.
  unfold bind. destruct (c m0) as [m1 [[] | e]]; [| discriminate].
  intros Hv.
  assert (E : m = m1) by (rewrite <- (validate_frame m1), Hv; reflexivity).
  subst m. rewrite Hv. reflexivity.
Qed.

Lemma dss_load_validated (has_dss : bool) (compiled : option DssReader.dss_circuit)
    (path : string) (model : SystemModel) :
  DssReader.load has_dss compiled path = Ok model -> snd (validate model) = Ok tt.
Proof.
  unfold DssReader.load. destruct (negb has_dss); [discriminate |].
  destruct compiled as [dss |]; [| discriminate].
  destruct (negb (Z.eqb (DssReader.error_number dss) 0)); [discriminate |].
  match goal with
  | |- match ?c empty_model with _ => _ end = _ -> _ =>
      destruct (c empty_model) as [built [[] | e]] eqn:Hrun; [| discriminate]
  end.
  intros [= <-]. revert Hrun. unfold bind at 1.
  match goal with
  | |- match ?c empty_model with _ => _ end = _ -> _ =>
      destruct (c empty_model) as [m1 [[] | e]]; [| discriminate]
  end.
  unfold bind at 1.
  destruct (DssReader.load_lines (DssReader.dss_lines dss) m1) as [m2 [[] | e]];
    [| discriminate].
  apply then_validate_ok.
Qed.

(** Whatever the format tag and the file, a model [load_system_model]
    returns has passed [validate]: every bus reference of every line and
    transformer in it names one of its buses. *)
Theorem factory_models_validated
    (float_of_str : string -> option Q) (repr : pyval -> string)
    (csv_at : string -> option CsvReader.csv_file)
    (json_at : string -> option pyval) (has_dss : bool)
    (dss_at : string -> option DssReader.dss_circuit)
    (path fmt : string) (model : SystemModel) :
  Factory.load_system_model float_of_str repr csv_at json_at has_dss dss_at path fmt
    = Ok model ->
  refs_ok model.
Proof.
  unfold Factory.load_system_model. intros H. apply validate_ok_iff.
  destruct (String.eqb (Str.lower fmt) "csv");
    [exact (csv_load_validated _ _ _ _ H) |].
  destruct (String.eqb (Str.lower fmt) "json");
    [exact (json_load_validated _ _ _ _ _ H) |].
  destruct (String.eqb (Str.lower fmt) "dss");
    [exact (dss_load_validated _ _ _ _ H) | discriminate H].
Qed.

Lemma factory_models_validated_witness :
  refs_ok (mkSystemModel [("650", mkBus "650" 115); ("632", mkBus "632" 4.16)] []
             [("Sub", mkTransformer "Sub" "650" "632" 115 4.16 8 (Some 1))]).
Proof.
  apply (factory_models_validated Str.decimal_float Samples.type_repr
           (fun _ => None) (fun _ => None) true
           (fun _ => Some (DssReader.mkDssCircuit 0 "" ["650"; "632"]
                             (fun n => if String.eqb n "650" then Some 115
                                       else Some 4.16)
                             []
                             [DssReader.mkDssTransformer "Sub" "650.1.2.3" 115
                                "632.1.2.3" 4.16 8 1]))
           "master.dss" "DSS").
  vm_compute. reflexivity.
Defined.

End FactoryExtra.
